(* ===== verification/_CoqProject ===== *)
-Q . S2P
Prelude.v
Json.v
Hasher.v
Token.v
Dates.v
Resources.v
Store.v
Program.v
Handlers.v
ResourceHandlers.v
App.v
Concurrency.v
Process.v
