(* ===== verification/Prelude.v ===== *)
(** * Workasana backend: a verification development

    The program is the Express application of [src/index.js] (about 150
    lines), with the Mongoose schema of [src/models/projectSchema.js] and
    the connection bootstrap of [src/db/db.connect.js].  It is a set of
    HTTP handlers over a MongoDB store:

    - [POST /signup] and [POST /login] (index.js 36-79): the credential
      flow.  Signup checks the three body fields for JavaScript truthiness,
      looks the e-mail up, hashes the password with bcrypt (cost 10) and
      saves a [User]; login looks the e-mail up, compares the password
      with bcrypt and signs a JSON Web Token [{id}] that expires after 7
      days.
    - [verifyToken] (the middleware of [middleware/authMiddleware], a file
      of the repository that is not under src/, modelled from spec.md
      §4.4) guards every other route except [GET /].
    - [GET /me], [GET /users] and the GET/POST routes of projects, teams,
      tags and tasks (index.js 82-150): one database operation each.
    - [initializeDatabase] (db.connect.js) connects or exits the process;
      the server listens only after it resolved (index.js 153-155).

    Every [await] of a handler is a point where other requests may run.
    The handlers are modelled as programs of awaited database operations
    (await trees); a request is run to its end on its own by [run], and a
    pool of requests in flight is interleaved at its await points by the
    step relation of [Concurrency].

    ** Files (in dependency order)

    - [Prelude] (this file): notations of [wk_scope] (the error-monad
      bind [x <-? m ;; k]), the [wk] hint database, the tactics and the
      generic lemmas the components share ([find_first], the first match
      as Mongo's [findOne] and Express's router take it), and the time
      constants of the token ([expires_in_7d]).
    - [Json]: JavaScript/JSON values as express.json produces them
      ([jval]), truthiness ([truthy], the [!x] of index.js 39), property
      access with JSON.parse's last-duplicate-wins rule, [typeof],
      ObjectIds, their hex rendering and bson's cast of a hex string back
      to an ObjectId ([oid_of_hex], which reads back [oid_hex]),
      responses ([response]).
    - [Hasher]: the bcrypt contract the handlers rely on, as a class
      [EksBlowfish] of the underlying one-way function with its law, and
      [bcrypt_hash]/[bcrypt_compare] with bcrypt's 72-byte key
      ([bcrypt_key]) and bcryptjs's argument checks ([bcrypt_hash_js]).
    - [Token]: the JWT payload signed at index.js 67-69
      ([sign_payload]), the signer interface [JwtSigner], the token codec
      interface [TokenCodec], and the request gate [verifyToken] as a
      classifier into the four states of spec.md §4.4.
    - [Dates]: JavaScript's dates: [toISOString] ([to_iso], through the
      calendar conversion [civil_from_days]), its inverse
      [days_from_civil] ([Date.UTC]) and [Date.parse] of that text
      ([iso_parse]).
    - [Resources]: the Project schema of projectSchema.js
      ([project_build]: the required name, the status enum and its
      default, createdAt defaulting to the save time), Mongoose's String
      and Date casts, documents ([doc], [doc_json]) and the interface
      [ResourceModels] of the team, tag and task schemas, whose files are
      not under src/.
    - [Store]: the MongoDB store ([db]): users with [findOne] by e-mail
      (Mongoose's query cast, operators included), [findById] and [save]
      with the unique index on e-mail; the four resource collections with
      [save_doc] (schema, then unique indexes) and [populate_owners]; and
      the invariant [db_wf] (unique e-mails, unique ObjectIds below the
      allocator, no unique-index key twice) that every write preserves.
    - [Program]: handlers as await trees ([prog]) over the operations
      [op], try/catch as a program transformation ([try_catch]), the
      effect of each operation on the world ([exec_op]: the store, the
      clock, the salts bcrypt draws; a store that is down fails every
      query after Mongoose's buffering timeout) and the interpreter [run].
    - [Handlers]: the credential routes of index.js 36-92 ([signup],
      [login], [me], [users]).
    - [ResourceHandlers]: the resource routes of index.js 95-150, with the
      [const] reassignment of [POST /tasks].
    - [App]: the route table of index.js in registration order
      ([routes]), Express's matching ([route_key], [dispatch], the 404 of
      [cannot]), the gate in front of a route ([guarded]), one request
      served ([handle]), the cors middleware in front of it ([serve]),
      and the server start of db.connect.js and index.js 153-155
      ([port_of], [initializeDatabase], [server_start]).
    - [Concurrency]: the server with several requests in flight: a pool
      of await trees over one shared world ([config]), the step that
      resumes one of them ([step]), an executable scheduler
      ([run_schedule], sound for [step]), the app's requests as a pool
      ([requests_pool]).
    - [Process]: the Node process as a step relation ([pstep]) on its
      phase (booting, serving on a port, stopped with an exit code) and
      its pool: boot ([boot]: connect and listen, or exit 1), a request
      admitted through the cors layer ([accept]), one request resumed,
      and the exit with status 1 when the resumed handler's rejection
      goes unhandled ([resumed]: Express 4 does not catch the promise of
      an async handler, and Node from version 15 exits on an unhandled
      rejection), the MongoDB connection dropping and coming back
      ([set_link]) and the clock moving on ([tick]); [process_event] and
      [run_events] are its executable form, sound for [pstep].

    ** Theorems (PROJECT.json lists the claims by id)

    - The store invariant is preserved by every program ([run_wf]) and
      holds in every state the server process reaches from boot, under any
      interleaving of arrivals, resumptions, connection drops and clock
      ticks ([process_wf]).
    - The process: a request is admitted only once [MONGODB] was reached,
      on [PORT] or 5000; a process stops only with status 1, at boot
      before admitting anything or when a handler's rejection goes
      unhandled, and never steps again ([serves_only_after_connect]);
      with MongoDB down, one guarded GET with a valid token brings the
      server down ([guarded_get_down_crashes]).
    - Durability: an account, once stored, stays in every later state of
      the process, and login's lookup by its e-mail finds exactly it
      ([accounts_persist]): no route updates or deletes a user, and the
      unique index keeps its e-mail to it.
    - Concurrency: for any store without the e-mail, two signups of one
      e-mail interleaved at their [findOne] answer 201 and 500 (E11000)
      ([signup_race_500]), where served in turn they answer 201 and 400.
    - The gate: every route but [/], [/signup], [/login] is behind it,
      and a rejected request changes nothing; a login token is accepted
      with its subject until 7 days have passed and rejected after; a
      token with a forged signature or payload is rejected like a missing
      one; the gate passes only validly signed, unexpired tokens; it does
      not consult the store (an unknown subject reads [null] at [/me]).
    - Each handler on every branch: validation, conflict, not found, bad
      password, missing secret, non-string password, storage failure
      (no answer at all where the handler has no [try]); a login whose
      e-mail is the object [{ "$ne": null }] logs in as the first user;
      every answer of the server has one of seven statuses (the six of
      the handlers and the preflight's 204).
    - The resource routes: creation, the unique name, schema errors (the
      ValidationError reports the missing name or the status outside the
      enum with Mongoose's message), the defaults of the Project schema,
      [POST /tasks] storing the task and then answering 400 (a bug of
      index.js 145), and [GET /tasks] populating each task's owners with
      exactly the stored users its references cast to, dropping the
      references that name no user ([get_tasks_owners]).
    - Dates: a project's default [createdAt] is printed so that
      [Date.parse] reads back its creation instant.
    - The bcrypt contract: two hashes of one password differ and both
      verify it; a digest verifies its password; a different
      password verifies iff it has the same 72-byte bcrypt key, so the
      spec's "verify(P', hash(P)) is false for P' <> P" fails for
      passwords longer than 72 bytes, and holds below.
    - The walk-through of spec.md §8.7 through the server, for any store
      without the e-mail and any credentials: signup 201, login 200 with
      the token, [GET /me] with that token 200 with the record
      ([signup_login_me]).

    ** Bounds and fuel

    The programs are finite await trees, so [run] is structural and needs
    no fuel.  Times are integers of milliseconds ([Date.now()]); the token
    uses whole seconds ([Math.floor(now / 1000)]); dates are printed for
    every day number (the bounds of [civil_from_days] are proved for all
    integers, beyond JavaScript's 8.64e15 ms range).  The calendar
    round trip is proved by arithmetic within one 400-year era
    ([era_days_ok]) and lifted to every era; the padded fields of the
    ISO text are checked by evaluation on their whole range (0..9999 for
    a year, [pad4_read]).  ObjectIds are
    natural numbers from an allocator; their 24-digit hexadecimal form
    reads back to the id modulo 16^24, that is the id itself for every id
    of 12 bytes ([oid_of_hex_oid_hex]).

    ** Not modelled

    The parsing of the JSON text of a body (a request arrives with its
    body parsed, and a malformed body's 400 from [express.json()] is not
    modelled); the network layer; response headers other than those of
    the cors middleware; the cryptographic strength of
    bcrypt and HMAC-SHA256 (stated as injectivity laws of interfaces, the
    idealisation under which the spec's properties are meant); the team,
    tag and task schemas beyond their interface (their files are not in
    the repository's src/); the console output of the boot and of the
    handlers' [catch] blocks; the versions of Node and Express, which
    the repository does not pin (Express 4 and Node 15 or later are
    assumed for the crash on an unhandled rejection); [HEAD] requests; [Date.parse]
    beyond the [toISOString] format, and its check of a day against the
    length of its month. *)

From stdpp Require Export base list strings decidable option sets.
From Stdlib Require Export ZArith Lia Ascii.
From Stdlib Require String.

Declare Scope wk_scope.
Delimit Scope wk_scope with wk.

Create HintDb wk discriminated.

(** ** Time constants *)

(** [Date.now()] is in milliseconds; JWT times are in whole seconds. *)
Definition ms_per_second : Z := 1000%Z.

(** [expiresIn: "7d"] of index.js 68, in seconds (the [ms] package turns
    "7d" into 7 * 24 * 3600 * 1000 ms, jsonwebtoken divides by 1000). *)
Definition expires_in_7d : Z := (7 * 24 * 3600)%Z.

(** Seconds since the epoch, as jsonwebtoken reads the clock:
    [Math.floor(Date.now() / 1000)]. *)
Definition to_seconds (now_ms : Z) : Z := (now_ms / ms_per_second)%Z.

(** ** Tactics *)

Ltac invc H := inversion H; subst; clear H.

(** Case analysis on the boolean tests the models compute with. *)
Ltac case_bool_decide_eqn :=
  match goal with
  | |- context [bool_decide ?P] => destruct (bool_decide_reflect P)
  | H : context [bool_decide ?P] |- _ => destruct (bool_decide_reflect P)
  end.

(** ** Generic lemmas *)

Lemma to_seconds_mono (a b : Z) : (a <= b)%Z -> (to_seconds a <= to_seconds b)%Z.
Proof. intros H. unfold to_seconds, ms_per_second. apply Z.div_le_mono; lia. Qed.

Lemma to_seconds_add_days (now : Z) (d : Z) :
  to_seconds (now + d * 86400000)%Z = (to_seconds now + d * 86400)%Z.
Proof.
  unfold to_seconds, ms_per_second.
  replace (d * 86400000)%Z with (d * 86400 * 1000)%Z by lia.
  rewrite Z.div_add by lia. reflexivity.
Qed.

#[export] Hint Resolve to_seconds_mono : wk.

(** First element of a list satisfying a boolean test: Mongo's
    [findOne] returns the first document in natural order. *)
Fixpoint find_first {A} (f : A -> bool) (l : list A) : option A :=
  match l with
  | [] => None
  | x :: l' => if f x then Some x else find_first f l'
  end.

Lemma find_first_Some {A} (f : A -> bool) (l : list A) (x : A) :
  find_first f l = Some x -> x ∈ l /\ f x = true.
Proof.
  induction l as [|y l IH]; simpl; [done|].
  destruct (f y) eqn:E; intros H.
  - injection H as <-. split; [left|done].
  - destruct (IH H). split; [right|]; done.
Qed.

Lemma find_first_None {A} (f : A -> bool) (l : list A) :
  find_first f l = None <-> Forall (fun x => f x = false) l.
Proof.
  induction l as [|y l IH]; simpl.
  - split; constructor || done.
  - rewrite Forall_cons_iff. destruct (f y) eqn:E; naive_solver.
Qed.

Lemma find_first_app_l {A} (f : A -> bool) (l1 l2 : list A) (x : A) :
  find_first f l1 = Some x -> find_first f (l1 ++ l2) = Some x.
Proof. induction l1 as [|y l IH]; simpl; [done|]. by destruct (f y). Qed.

Lemma find_first_app_r {A} (f : A -> bool) (l1 l2 : list A) :
  find_first f l1 = None -> find_first f (l1 ++ l2) = find_first f l2.
Proof. induction l1 as [|y l IH]; simpl; [done|]. by destruct (f y). Qed.

#[export] Hint Resolve find_first_app_l find_first_app_r : wk.

(** A lookup by a key the list holds at most once finds the element with
    that key (Mongo's [findOne] on a uniquely indexed field). *)
Lemma find_first_key {A K} `{EqDecision K} (g : A -> K) (l : list A) (u : A) (k : K) :
  NoDup (map g l) -> u ∈ l -> g u = k ->
  find_first (fun v => bool_decide (g v = k)) l = Some u.
Proof.
  intros Hnd Hu Hk. destruct (find_first _ _) as [v|] eqn:Hf.
  - apply find_first_Some in Hf as [Hv Hvs%bool_decide_eq_true]. f_equal.
    apply list_elem_of_lookup in Hu as [i Hi], Hv as [j Hj].
    assert (i = j) as ->.
    { eapply NoDup_lookup; [exact Hnd| |];
        rewrite list_lookup_fmap; [rewrite Hi|rewrite Hj]; simpl; f_equal; congruence. }
    congruence.
  - apply find_first_None in Hf. rewrite Forall_forall in Hf.
    specialize (Hf u Hu). by rewrite bool_decide_eq_false in Hf.
Qed.

(** ** Errors as values: the sum type [E + A]

    A JavaScript call that may throw returns [inl message] or [inr v]. *)
Definition sbind {E A B} (m : E + A) (k : A -> E + B) : E + B :=
  match m with
  | inl e => inl e
  | inr a => k a
  end.

Notation "x <-? m ;; k" := (sbind m (fun x => k))
  (at level 100, m at next level, right associativity) : wk_scope.

Open Scope wk_scope.

(** Map a throwing function over a list, stopping at the first throw. *)
Fixpoint smapM {E A B} (f : A -> E + B) (l : list A) : E + list B :=
  match l with
  | [] => inr []
  | x :: l' => y <-? f x ;; ys <-? smapM f l' ;; inr (y :: ys)
  end.

Lemma sbind_inr {E A B} (m : E + A) (k : A -> E + B) (b : B) :
  sbind m k = inr b <-> exists a, m = inr a /\ k a = inr b.
Proof. destruct m; simpl; split; [done|by intros (?&?&?)|eauto|by intros (?&[= ->]&?)]. Qed.

(** Close a decidable goal by evaluating its decision procedure. *)
Ltac decide_goal := apply (bool_decide_unpack _); vm_compute; exact I.

(** A fresh element keeps a list duplicate-free, wherever it goes. *)
Lemma NoDup_Permutation_cons {A} (x : A) (l l' : list A) :
  l' ≡ₚ x :: l -> x ∉ l -> NoDup l -> NoDup l'.
Proof. intros Hp Hx Hl. rewrite Hp. by constructor. Qed.
