(* ===== verification/Json.v ===== *)
(** * JavaScript values of request and response bodies

    [express.json()] hands the handlers the result of [JSON.parse]: a tree
    of null, booleans, numbers, strings, arrays and objects; a property
    the body lacks reads as [undefined].  This file holds that value type
    ([jval]), the JavaScript truthiness the guard of index.js 39 tests
    ([truthy]), property access as the destructuring of index.js 38 and 59
    performs it ([get_prop], with [JSON.parse]'s rule that the last of two
    duplicate keys wins), [typeof], and [String(v)] on scalars, which
    Mongoose applies when it casts a value to a String path.

    Numbers are kept as integers ([Z]): the handlers only test numbers
    for truthiness and print them, and JSON bodies in this API carry no
    fractions that matter to the modelled behaviour. *)

From S2P Require Import Prelude.
From stdpp Require Import pretty.
From Stdlib Require Import DecimalString DecimalN DecimalZ.

Inductive jval : Type :=
| JUndefined
| JNull
| JBool (b : bool)
| JNum (n : Z)
| JStr (s : string)
| JArr (xs : list jval)
| JObj (kvs : list (string * jval)).

(** ** Truthiness: [!x] is [negb (truthy x)] *)

Definition truthy (v : jval) : bool :=
  match v with
  | JUndefined | JNull => false
  | JBool b => b
  | JNum n => negb (Z.eqb n 0)
  | JStr s => negb (String.eqb s "")
  | JArr _ | JObj _ => true
  end.

(** ** Property access *)

(** The value bound to [k] in an object literal: [JSON.parse] keeps the
    last of duplicate keys, so the search runs from the end. *)
Definition assoc_last (k : string) (kvs : list (string * jval)) : option jval :=
  snd <$> find_first (fun kv => String.eqb (fst kv) k) (rev kvs).

(** [v.k] (and the destructuring [const {k} = v]): [undefined] and [null]
    throw a TypeError ([None]); an object yields its binding or
    [undefined]; arrays and primitives have none of the properties the
    handlers read ([name], [email], [password]). *)
Definition get_prop (v : jval) (k : string) : option jval :=
  match v with
  | JUndefined | JNull => None
  | JObj kvs => Some (default JUndefined (assoc_last k kvs))
  | _ => Some JUndefined
  end.

(** [typeof v], as bcryptjs prints it in "Illegal arguments" errors. *)
Definition typeof (v : jval) : string :=
  match v with
  | JUndefined => "undefined"
  | JNull | JArr _ | JObj _ => "object"
  | JBool _ => "boolean"
  | JNum _ => "number"
  | JStr _ => "string"
  end.

(** [String(v)] for the scalars Mongoose casts to a String path; [None]
    for the values its String cast rejects (arrays and objects). *)
Definition js_scalar_string (v : jval) : option string :=
  match v with
  | JUndefined => Some "undefined"
  | JNull => Some "null"
  | JBool b => Some (if b then "true" else "false")
  | JNum n => Some (pretty n)
  | JStr s => Some s
  | JArr _ | JObj _ => None
  end.

(** Does an object have the key (what [JSON.stringify] would print)?
    Keys bound to [undefined] are omitted by [JSON.stringify]. *)
Definition has_key (v : jval) (k : string) : bool :=
  match v with
  | JObj kvs =>
      match assoc_last k kvs with
      | Some JUndefined | None => false
      | Some _ => true
      end
  | _ => false
  end.

(** ** Lemmas *)

Lemma truthy_str (s : string) : truthy (JStr s) = true <-> s <> "".
Proof.
  simpl. destruct (String.eqb_spec s ""); simpl; split; congruence.
Qed.

Lemma truthy_false_cases (v : jval) :
  truthy v = false ->
  v = JUndefined \/ v = JNull \/ v = JBool false \/ v = JNum 0 \/ v = JStr "".
Proof.
  destruct v as [| |[]|n|s| |]; simpl; try discriminate; auto.
  - destruct (Z.eqb_spec n 0); simpl; [subst; tauto | discriminate].
  - destruct (String.eqb_spec s ""); simpl; [subst; tauto | discriminate].
Qed.

Lemma assoc_last_app_single (k k' : string) (v : jval) kvs :
  assoc_last k (kvs ++ [(k', v)]) =
  if String.eqb k' k then Some v else assoc_last k kvs.
Proof.
  unfold assoc_last. rewrite rev_app_distr. simpl.
  by destruct (String.eqb k' k).
Qed.

Lemma get_prop_obj (kvs : list (string * jval)) (k : string) :
  is_Some (get_prop (JObj kvs) k).
Proof. by eexists. Qed.

#[export] Hint Resolve get_prop_obj : wk.

(** ** ObjectIds

    Mongo's [_id] is a 12-byte ObjectId; [JSON.stringify] prints it as 24
    hexadecimal digits.  Ids are modelled by the number they encode. *)
Definition oid := N.

Definition hex_digit (d : N) : Ascii.ascii :=
  nth (N.to_nat d) (String.list_ascii_of_string "0123456789abcdef") "0"%char.

(** The [k] low hexadecimal digits of [n], most significant first. *)
Fixpoint hex_digits (k : nat) (n : N) : list Ascii.ascii :=
  match k with
  | O => []
  | S k' => hex_digits k' (n / 16)%N ++ [hex_digit (n mod 16)%N]
  end.

Definition oid_hex (n : oid) : string := String.string_of_list_ascii (hex_digits 24 n).

Definition oid_json (n : oid) : jval := JStr (oid_hex n).

(** The cast of a string to an ObjectId (bson's [ObjectId(h)], which
    Mongoose applies to the ids of a query such as populate's): exactly
    24 hexadecimal digits, in either case. *)
Definition hex_value (c : Ascii.ascii) : option N :=
  let n := Ascii.N_of_ascii c in
  if (48 <=? n)%N && (n <=? 57)%N then Some (n - 48)%N
  else if (97 <=? n)%N && (n <=? 102)%N then Some (n - 87)%N
  else if (65 <=? n)%N && (n <=? 70)%N then Some (n - 55)%N
  else None.

(** Digits read most significant first into the accumulator. *)
Fixpoint hex_acc (acc : N) (cs : list Ascii.ascii) : option N :=
  match cs with
  | [] => Some acc
  | c :: cs' => hex_value c ≫= fun d => hex_acc (acc * 16 + d)%N cs'
  end.

Definition oid_of_hex (h : string) : option oid :=
  let cs := String.list_ascii_of_string h in
  if Nat.eqb (length cs) 24 then hex_acc 0 cs else None.

(** ** HTTP responses

    [res.status(s).json(v)]; [res.json(v)] answers with status 200. *)
Record response := mk_response { status : Z; body : jval }.

Definition res_json (v : jval) : response := mk_response 200 v.

(** [{ message: s }] and [{ error: s }], the two body shapes of index.js. *)
Definition msg_body (s : string) : jval := JObj [("message", JStr s)].
Definition err_body (s : string) : jval := JObj [("error", JStr s)].

(** ** Decimal numerals *)

Definition nstr (n : N) : string := NilEmpty.string_of_uint (N.to_uint n).
Definition zstr (z : Z) : string := NilEmpty.string_of_int (Z.to_int z).
Definition nparse (s : string) : option N := N.of_uint <$> NilEmpty.uint_of_string s.
Definition zparse (s : string) : option Z := Z.of_int <$> NilEmpty.int_of_string s.

Lemma nparse_nstr (n : N) : nparse (nstr n) = Some n.
Proof. unfold nparse, nstr. rewrite NilEmpty.usu. simpl. by rewrite Unsigned.of_to. Qed.

Lemma zparse_zstr (z : Z) : zparse (zstr z) = Some z.
Proof. unfold zparse, zstr. rewrite NilEmpty.isi. simpl. by rewrite DecimalZ.of_to. Qed.

(** ** ObjectIds: the hexadecimal form read back *)

Lemma hex_acc_app (acc : N) (l1 l2 : list Ascii.ascii) :
  hex_acc acc (l1 ++ l2) = hex_acc acc l1 ≫= fun a => hex_acc a l2.
Proof.
  revert acc. induction l1 as [|c l1 IH]; intros acc; simpl; [done|].
  destruct (hex_value c); simpl; [apply IH|done].
Qed.

Lemma hex_value_digit (d : N) : (d < 16)%N -> hex_value (hex_digit d) = Some d.
Proof.
  intros Hd. rewrite <- (N2Nat.id d).
  assert (Hn : (N.to_nat d < 16)%nat) by lia. revert Hn. generalize (N.to_nat d). intros n Hn.
  do 16 (destruct n as [|n]; [reflexivity|]). lia.
Qed.

Lemma length_hex_digits (k : nat) (n : N) : length (hex_digits k n) = k.
Proof. revert n. induction k as [|k IH]; intros n; simpl; [done|]. rewrite length_app, IH. simpl. lia. Qed.

(** The [k] digits read back give the number modulo [16^k]. *)
Lemma hex_acc_digits (k : nat) (acc n : N) :
  hex_acc acc (hex_digits k n) = Some (acc * 16 ^ N.of_nat k + n mod 16 ^ N.of_nat k)%N.
Proof.
  revert acc n. induction k as [|k IH]; intros acc n.
  - simpl. f_equal. rewrite N.mod_1_r. lia.
  - simpl hex_digits. rewrite hex_acc_app, IH. simpl.
    rewrite hex_value_digit by (apply N.mod_lt; lia). simpl. f_equal.
    rewrite Nat2N.inj_succ, N.pow_succ_r', N.mod_mul_r by lia.
    ring.
Qed.


(** An ObjectId's hexadecimal form casts back to it (to its low 96 bits,
    the 12 bytes an ObjectId has). *)
Lemma oid_of_hex_oid_hex (n : oid) : oid_of_hex (oid_hex n) = Some (n mod 16 ^ 24)%N.
Proof.
  unfold oid_of_hex, oid_hex.
  rewrite String.list_ascii_of_string_of_list_ascii, length_hex_digits, hex_acc_digits.
  cbn [Nat.eqb]. by rewrite N.mul_0_l, N.add_0_l.
Qed.
