(* ===== verification/Hasher.v ===== *)
(** * The password hasher: bcrypt as the handlers call it

    index.js 46 calls [bcrypt.hash(password, 10)] and index.js 63 calls
    [bcrypt.compare(password, user.password)] (package bcryptjs, a library
    the sources only call; its contract is spec.md §4.1).  A bcrypt digest
    records the cost, a random 16-byte salt and the checksum
    [EksBlowfish(cost, salt, key)], where the key is the UTF-8 bytes of
    the password followed by a NUL byte, repeated cyclically over the 72
    bytes of Blowfish's P-array: only the first 72 bytes of a password
    take part.

    The one-way function itself is an interface ([EksBlowfish]) whose
    only law is that distinct 72-byte keys give distinct checksums under
    the same cost and salt (collision freedom, the idealisation under
    which spec.md states its properties).  Everything above it, the key
    derivation, the digest record, [hash], [compare] and bcryptjs's
    argument checks, is defined here. *)

From S2P Require Import Prelude Json.



(** ** The one-way function *)

Class EksBlowfish := {
  bc_salt : Type;
  bc_sum : Type;
  bc_salt_eq_dec :: EqDecision bc_salt;
  bc_sum_eq_dec :: EqDecision bc_sum;
  eks : nat -> bc_salt -> list ascii -> bc_sum;
  eks_key_inj (cost : nat) (s : bc_salt) (k k' : list ascii) :
    length k = 72 -> length k' = 72 -> eks cost s k = eks cost s k' -> k = k'
}.

(** ** Key derivation *)

Definition utf8_bytes (s : string) : list ascii := String.list_ascii_of_string s.

Definition NUL : ascii := Ascii.zero.

(** The Blowfish key schedule reads the key bytes cyclically until it has
    filled 18 words (72 bytes); bcrypt's "2a"/"2b" versions append a NUL
    to the password first. *)
Definition bcrypt_key (password : string) : list ascii :=
  take 72 (concat (replicate 72 (utf8_bytes password ++ [NUL]))).

Section Bcrypt.
Context `{EksBlowfish}.

(** The digest stored in [user.password]: "$2b$10$" ++ salt ++ checksum. *)
Record digest := mk_digest {
  d_cost : nat;
  d_salt : bc_salt;
  d_sum : bc_sum
}.

(** [bcrypt.hash(password, rounds)] with the salt the library drew. *)
Definition bcrypt_hash (rounds : nat) (salt : bc_salt) (password : string) : digest :=
  mk_digest rounds salt (eks rounds salt (bcrypt_key password)).

(** [bcrypt.compare(password, digest)]: recompute with the digest's
    cost and salt and compare the checksums. *)
Definition bcrypt_compare (password : string) (d : digest) : bool :=
  bool_decide (eks (d_cost d) (d_salt d) (bcrypt_key password) = d_sum d).

(** bcryptjs rejects a non-string password with
    ["Illegal arguments: " + typeof s + ", " + typeof salt]; the
    second argument of [hash] is the number 10. *)
Definition bcrypt_hash_js (password : jval) (rounds : nat) (salt : bc_salt)
  : string + digest :=
  match password with
  | JStr p => inr (bcrypt_hash rounds salt p)
  | v => inl ("Illegal arguments: " +:+ typeof v +:+ ", number")
  end.

(** [compare]'s second argument is the stored digest, a string. *)
Definition bcrypt_compare_js (password : jval) (d : digest) : string + bool :=
  match password with
  | JStr p => inr (bcrypt_compare p d)
  | v => inl ("Illegal arguments: " +:+ typeof v +:+ ", string")
  end.
End Bcrypt.

Arguments digest : clear implicits.
Arguments digest {_}.

(** ** Lemmas on the key *)

Lemma length_concat_replicate {A} (n : nat) (l : list A) :
  length (concat (replicate n l)) = n * length l.
Proof. induction n as [|n IH]; simpl; [done|]. rewrite length_app, IH. lia. Qed.

Lemma length_bcrypt_key (p : string) : length (bcrypt_key p) = 72.
Proof.
  unfold bcrypt_key. rewrite length_take, length_concat_replicate, length_app.
  change (length [NUL]) with 1. lia.
Qed.

#[export] Hint Resolve length_bcrypt_key : wk.

(** A password of 72 bytes or more: the key is its first 72 bytes. *)
Lemma bcrypt_key_long (p : string) :
  72 <= length (utf8_bytes p) -> bcrypt_key p = take 72 (utf8_bytes p).
Proof.
  intros Hl. unfold bcrypt_key. simpl.
  rewrite <- app_assoc, take_app_le by lia. done.
Qed.

(** A shorter password: the key starts with the password and its NUL. *)
Lemma bcrypt_key_short (p : string) :
  length (utf8_bytes p) < 72 ->
  exists rest, bcrypt_key p = utf8_bytes p ++ NUL :: rest.
Proof.
  intros Hl. unfold bcrypt_key. simpl.
  rewrite <- app_assoc, take_app_ge by lia.
  replace (72 - length (utf8_bytes p)) with (S (71 - length (utf8_bytes p))) by lia.
  eexists. reflexivity.
Qed.

Lemma app_nul_inj (b b' r r' : list ascii) :
  NUL ∉ b -> NUL ∉ b' -> b ++ NUL :: r = b' ++ NUL :: r' -> b = b'.
Proof.
  revert b'. induction b as [|x b IH]; intros [|y b'] Hb Hb' E;
    simpl in E; simplify_eq; [done | set_solver | set_solver |].
  f_equal. apply (IH b'); [set_solver | set_solver | done].
Qed.

Lemma utf8_bytes_inj (p p' : string) : utf8_bytes p = utf8_bytes p' -> p = p'.
Proof.
  unfold utf8_bytes. intros E.
  rewrite <- (String.string_of_list_ascii_of_string p), <- (String.string_of_list_ascii_of_string p').
  by rewrite E.
Qed.

(** For NUL-free passwords shorter than 72 bytes the key determines the
    password. *)
Lemma bcrypt_key_short_inj (p p' : string) :
  length (utf8_bytes p) < 72 -> length (utf8_bytes p') < 72 ->
  NUL ∉ utf8_bytes p -> NUL ∉ utf8_bytes p' ->
  bcrypt_key p = bcrypt_key p' -> p = p'.
Proof.
  intros Hl Hl' Hn Hn' E.
  destruct (bcrypt_key_short p Hl) as [r Hr], (bcrypt_key_short p' Hl') as [r' Hr'].
  rewrite Hr, Hr' in E. apply utf8_bytes_inj. by eapply app_nul_inj.
Qed.

(** ** The hasher's contract *)

Section Contract.
Context `{EksBlowfish}.

Lemma bcrypt_compare_spec (p : string) (d : digest) :
  bcrypt_compare p d = true <->
  eks (d_cost d) (d_salt d) (bcrypt_key p) = d_sum d.
Proof. unfold bcrypt_compare. apply bool_decide_eq_true. Qed.

(** The digest [bcrypt.hash] produces verifies the password it was
    made from, whatever the cost and the salt (spec.md §8.1). *)
Theorem bcrypt_compare_hash (rounds : nat) (s : bc_salt) (p : string) :
  bcrypt_compare p (bcrypt_hash rounds s p) = true.
Proof. by apply bcrypt_compare_spec. Qed.

(** Verification against a digest compares bcrypt keys. *)
Lemma compare_hash_key (rounds : nat) (s : bc_salt) (p p' : string) :
  bcrypt_compare p' (bcrypt_hash rounds s p) = true <-> bcrypt_key p' = bcrypt_key p.
Proof.
  rewrite bcrypt_compare_spec. simpl. split; [|by intros ->].
  apply eks_key_inj; apply length_bcrypt_key.
Qed.

(** C31: for NUL-free passwords shorter than 72 bytes the check is exact:
    [verify(P', hash(P))] holds iff [P' = P] (spec.md §8.2 in range). *)
Theorem bcrypt_compare_short_exact (rounds : nat) (s : bc_salt) (p p' : string) :
  length (utf8_bytes p) < 72 -> length (utf8_bytes p') < 72 ->
  NUL ∉ utf8_bytes p -> NUL ∉ utf8_bytes p' ->
  bcrypt_compare p' (bcrypt_hash rounds s p) = true <-> p' = p.
Proof.
  intros Hl Hl' Hn Hn'. rewrite compare_hash_key.
  split; [|by intros ->]. intros E. by apply bcrypt_key_short_inj.
Qed.
End Contract.

(** ** A transparent instance, to evaluate examples

    The identity as one-way function: it satisfies the law (it is
    injective), so every hypothesis stated against [EksBlowfish] can be
    met by a concrete instance. *)
#[refine] Instance transparent_eks : EksBlowfish := {
  bc_salt := nat;
  bc_sum := nat * nat * list ascii;
  eks cost s k := (cost, s, k)
}.
Proof. intros cost s k k' _ _ E. by simplify_eq. Defined.

Definition ascii_pw (l : list ascii) : string := String.string_of_list_ascii l.

(** Two passwords of 73 bytes that differ only in their last byte. *)
Definition long_pw_1 : string := ascii_pw (replicate 72 "a"%char ++ ["1"%char]).
Definition long_pw_2 : string := ascii_pw (replicate 72 "a"%char ++ ["2"%char]).

Section Truncation.
Context `{EksBlowfish}.

(** C30: spec.md §8.2 ("verify(P', hash(P)) is false for any P' <> P")
    fails: bcrypt reads only 72 bytes of key, so a 73-byte password
    verifies against the digest of another that shares its first 72
    bytes, for every cost and salt. *)
Theorem bcrypt_long_password_collision (rounds : nat) (s : bc_salt) :
  long_pw_1 <> long_pw_2 /\
  bcrypt_compare long_pw_2 (bcrypt_hash rounds s long_pw_1) = true.
Proof.
  split; [discriminate|]. apply compare_hash_key.
  rewrite !bcrypt_key_long by (vm_compute; lia). vm_compute. reflexivity.
Qed.
End Truncation.

(** The hypotheses of [bcrypt_compare_short_exact] hold of "secret123". *)
Lemma bcrypt_compare_short_exact_witness :
  bcrypt_compare "secret123" (@bcrypt_hash transparent_eks 10 7 "secret123") = true.
Proof.
  apply (proj2 (@bcrypt_compare_short_exact transparent_eks 10 7 "secret123" "secret123"
    ltac:(vm_compute; lia) ltac:(vm_compute; lia) ltac:(vm_compute; set_solver)
    ltac:(vm_compute; set_solver))).
  reflexivity.
Defined.
