(* ===== verification/Token.v ===== *)
(** * Session tokens and the request gate

    Login (index.js 67-69) signs [{ id: user._id }] with
    [process.env.JWT_SECRET] and [expiresIn: "7d"]; jsonwebtoken adds
    [iat = floor(Date.now() / 1000)] and [exp = iat + 604800].  The gate
    [verifyToken] (middleware/authMiddleware, not under src/; modelled
    from spec.md §4.4 and §6) reads the [Authorization: Bearer <token>]
    header, decodes and checks the token, and either rejects the request
    with 401 or lets it through with the token's subject.

    HMAC-SHA256 and the compact serialisation are library code: they are
    the interfaces [JwtSigner] (a signature that determines the payload
    it signs, for a fixed secret) and [TokenCodec] (decoding inverts
    encoding).  [transparent_signer] and [decimal_codec] are concrete
    instances that satisfy the laws, so the theorems can be evaluated. *)

From S2P Require Import Prelude Json.
From Stdlib Require Import DecimalString.

(** ** Payload and signing *)

Record jwt_payload := mk_payload { jp_id : oid; jp_iat : Z; jp_exp : Z }.

#[export] Instance jwt_payload_eq_dec : EqDecision jwt_payload.
Proof. solve_decision. Defined.

(** The payload of [jwt.sign({ id: user._id }, secret, { expiresIn: "7d" })]. *)
Definition sign_payload (uid : oid) (now_ms : Z) : jwt_payload :=
  let iat := to_seconds now_ms in mk_payload uid iat (iat + expires_in_7d)%Z.

Class JwtSigner := {
  jwt_sig : Type;
  jwt_sig_eq_dec :: EqDecision jwt_sig;
  hmac : string -> jwt_payload -> jwt_sig;
  hmac_payload_inj (k : string) (p p' : jwt_payload) : hmac k p = hmac k p' -> p = p'
}.

Section Tokens.
Context `{JwtSigner}.

Record token := mk_token { tk_payload : jwt_payload; tk_sig : jwt_sig }.

(** jsonwebtoken's [sign]: an absent or empty secret throws
    "secretOrPrivateKey must have a value". *)
Definition jwt_sign (secret : option string) (p : jwt_payload) : string + token :=
  match secret with
  | Some k => if bool_decide (k = "") then inl "secretOrPrivateKey must have a value"
              else inr (mk_token p (hmac k p))
  | None => inl "secretOrPrivateKey must have a value"
  end.
End Tokens.

Arguments token : clear implicits.
Arguments token {_}.

Class TokenCodec `{JwtSigner} := {
  encode_token : token -> string;
  decode_token : string -> option token;
  decode_encode (t : token) : decode_token (encode_token t) = Some t
}.

(** ** The gate *)

(** [s] without the prefix [p], if [s] starts with [p]. *)
Fixpoint strip_prefix (p s : string) : option string :=
  match p, s with
  | EmptyString, _ => Some s
  | String c p', String d s' => if Ascii.eqb c d then strip_prefix p' s' else None
  | String _ _, EmptyString => None
  end.

(** The credential of the [Authorization] header: "Bearer <token>". *)
Definition bearer_token (authz : option string) : option string :=
  authz ≫= strip_prefix "Bearer ".

(** The four states of spec.md §4.4. *)
Inductive gate_state :=
| NoToken
| Malformed
| ExpiredOrInvalidSignature
| Valid (uid : oid).

Inductive gate_result :=
| GateReject (r : response)
| GatePass (uid : oid).

Definition unauthenticated : response := mk_response 401 (msg_body "unauthenticated").

Section Gate.
Context `{TokenCodec}.

(** A token is accepted when its signature is the HMAC of its payload
    under the secret and the clock, in seconds, has not passed [exp]
    (spec.md §4.4: valid while the current time is at most the expiry).
    Without a secret, or with an empty one, jsonwebtoken's [verify]
    throws ("secret or public key must be provided"): every presented
    token is rejected. *)
Definition token_ok (secret : option string) (now_ms : Z) (t : token) : bool :=
  match secret with
  | Some k => bool_decide (k <> "") &&
              bool_decide (tk_sig t = hmac k (tk_payload t)) &&
              bool_decide (to_seconds now_ms <= jp_exp (tk_payload t))%Z
  | None => false
  end.

Definition classify (secret : option string) (now_ms : Z) (authz : option string)
  : gate_state :=
  match bearer_token authz with
  | None => NoToken
  | Some raw =>
      match decode_token raw with
      | None => Malformed
      | Some t => if token_ok secret now_ms t then Valid (jp_id (tk_payload t))
                  else ExpiredOrInvalidSignature
      end
  end.

(** [verifyToken]: every state but [Valid] gives the same 401 answer. *)
Definition verifyToken (secret : option string) (now_ms : Z) (authz : option string)
  : gate_result :=
  match classify secret now_ms authz with
  | Valid uid => GatePass uid
  | _ => GateReject unauthenticated
  end.
End Gate.

(** ** Lemmas *)

Lemma strip_prefix_app (p s : string) : strip_prefix p (p +:+ s) = Some s.
Proof. induction p as [|c p IH]; simpl; [done|]. by rewrite Ascii.eqb_refl. Qed.

Lemma bearer_token_header (raw : string) :
  bearer_token (Some ("Bearer " +:+ raw)) = Some raw.
Proof. apply strip_prefix_app. Qed.

#[export] Hint Rewrite bearer_token_header : wk.

Section GateLemmas.
Context `{TokenCodec}.

Lemma verifyToken_reject_none (secret : option string) (now_ms : Z) :
  verifyToken secret now_ms None = GateReject unauthenticated.
Proof. done. Qed.

(** What a presented token turns into. *)
Lemma verifyToken_presented (secret : option string) (now_ms : Z) (t : token) :
  verifyToken secret now_ms (Some ("Bearer " +:+ encode_token t)) =
  if token_ok secret now_ms t then GatePass (jp_id (tk_payload t))
  else GateReject unauthenticated.
Proof.
  unfold verifyToken, classify. rewrite bearer_token_header, decode_encode.
  by destruct (token_ok _ _ _).
Qed.

Lemma token_ok_signed (k : string) (now_ms : Z) (p : jwt_payload) :
  k <> "" ->
  token_ok (Some k) now_ms (mk_token p (hmac k p)) =
  bool_decide (to_seconds now_ms <= jp_exp p)%Z.
Proof.
  intros Hk. unfold token_ok. simpl.
  by rewrite (bool_decide_eq_true_2 (k <> "")), (bool_decide_eq_true_2 (hmac k p = hmac k p)).
Qed.

(** A forged signature fails whatever the secret and the clock. *)
Lemma token_ok_forged (k : string) (now_ms : Z) (p : jwt_payload) (sig : jwt_sig) :
  sig <> hmac k p -> token_ok (Some k) now_ms (mk_token p sig) = false.
Proof. intros Hs. unfold token_ok. simpl. by rewrite (bool_decide_eq_false_2 (sig = _)), andb_false_r. Qed.

Lemma jwt_sign_Some (k : string) (p : jwt_payload) (t : token) :
  jwt_sign (Some k) p = inr t -> k <> "" /\ t = mk_token p (hmac k p).
Proof. unfold jwt_sign. case_bool_decide; intros E; simplify_eq; done. Qed.
End GateLemmas.

(** ** The token contract *)

Section Contract.
Context `{TokenCodec}.

(** C6: a token signed at login ([now_ms]) is accepted by the gate,
    with the user's id as subject, at every time whose second does not
    pass [iat + 7 days] (spec.md §8.3). *)
Theorem login_token_accepted (k : string) (uid : oid) (now_ms t_ms : Z) (tok : token) :
  jwt_sign (Some k) (sign_payload uid now_ms) = inr tok ->
  (to_seconds t_ms <= to_seconds now_ms + expires_in_7d)%Z ->
  verifyToken (Some k) t_ms (Some ("Bearer " +:+ encode_token tok)) = GatePass uid.
Proof.
  intros Hs Ht. apply jwt_sign_Some in Hs as [Hk ->].
  rewrite verifyToken_presented, token_ok_signed, bool_decide_eq_true_2; done.
Qed.

(** C7: once the clock's second passes [iat + 7 days] the same token is
    rejected, with the answer a request without a token gets
    (spec.md §8.4). *)
Theorem token_expired_rejected (k : string) (uid : oid) (now_ms t_ms : Z) (tok : token) :
  jwt_sign (Some k) (sign_payload uid now_ms) = inr tok ->
  (to_seconds now_ms + expires_in_7d < to_seconds t_ms)%Z ->
  verifyToken (Some k) t_ms (Some ("Bearer " +:+ encode_token tok)) =
  verifyToken (Some k) t_ms None.
Proof.
  intros Hs Ht. apply jwt_sign_Some in Hs as [Hk ->].
  rewrite verifyToken_presented, token_ok_signed by done.
  rewrite bool_decide_eq_false_2; [done|].
  simpl. lia.
Qed.

(** C8: a token whose signature is not the HMAC of its payload (a
    flipped signature byte) is rejected exactly like a missing token
    (spec.md §8.5). *)
Theorem tampered_signature_rejected (k : string) (t_ms : Z) (p : jwt_payload) (sig : jwt_sig) :
  sig <> hmac k p ->
  verifyToken (Some k) t_ms (Some ("Bearer " +:+ encode_token (mk_token p sig))) =
  verifyToken (Some k) t_ms None.
Proof.
  intros Hsig. by rewrite verifyToken_presented, token_ok_forged.
Qed.

(** A payload changed under a genuine signature (another subject or
    a later expiry) is rejected like a missing token. *)
Theorem tampered_payload_rejected (k : string) (t_ms : Z) (p p' : jwt_payload) :
  p' <> p ->
  verifyToken (Some k) t_ms (Some ("Bearer " +:+ encode_token (mk_token p' (hmac k p)))) =
  verifyToken (Some k) t_ms None.
Proof.
  intros Hp. rewrite verifyToken_presented, token_ok_forged; [done|].
  intros E. apply Hp. symmetry. by eapply hmac_payload_inj.
Qed.

(** C9: the gate lets a request through only with a header carrying a
    token whose signature is the HMAC of its payload under the secret,
    whose subject is the identity passed on and which has not expired. *)
Theorem gate_pass_sound (k : string) (t_ms : Z) (authz : option string) (uid : oid) :
  verifyToken (Some k) t_ms authz = GatePass uid ->
  exists raw p, bearer_token authz = Some raw /\
    decode_token raw = Some (mk_token p (hmac k p)) /\
    jp_id p = uid /\ (to_seconds t_ms <= jp_exp p)%Z.
Proof.
  unfold verifyToken, classify.
  destruct (bearer_token authz) as [raw|]; [|done].
  destruct (decode_token raw) as [[p sig]|] eqn:Hd; [|done].
  unfold token_ok. simpl. destruct (bool_decide (k <> "")); [|done].
  destruct (bool_decide_reflect (sig = hmac k p)) as [->|]; [|done].
  destruct (bool_decide_reflect (to_seconds t_ms <= jp_exp p)%Z); [|done].
  intros [= <-]. exists raw, p. done.
Qed.

(** Without [JWT_SECRET] the gate rejects every request. *)
Lemma verifyToken_no_secret (t_ms : Z) (authz : option string) :
  verifyToken None t_ms authz = GateReject unauthenticated.
Proof.
  unfold verifyToken, classify.
  destruct (bearer_token authz); [|done]. by destruct (decode_token _).
Qed.
End Contract.

(** ** Concrete instances

    [transparent_signer] signs by pairing the secret with the payload
    (injective in the payload, as the law asks).  [decimal_codec] prints
    a token as dot-separated decimal fields with the secret last, and
    parses them back. *)

#[refine] Instance transparent_signer : JwtSigner := {
  jwt_sig := string * jwt_payload;
  hmac k p := (k, p)
}.
Proof. intros k p p' E. by simplify_eq. Defined.

(** The text before the first ".", and the text after it. *)
Fixpoint split_dot (s : string) : option (string * string) :=
  match s with
  | EmptyString => None
  | String c s' =>
      if Ascii.eqb c "." then Some (EmptyString, s')
      else (fun ab => (String c ab.1, ab.2)) <$> split_dot s'
  end.

Fixpoint dot_free (s : string) : bool :=
  match s with
  | EmptyString => true
  | String c s' => negb (Ascii.eqb c ".") && dot_free s'
  end.

Definition encode_fields (t : @token transparent_signer) : string :=
  let p := tk_payload t in
  let '(key, q) := tk_sig t in
  nstr (jp_id p) +:+ "." +:+ zstr (jp_iat p) +:+ "." +:+ zstr (jp_exp p) +:+ "." +:+
  nstr (jp_id q) +:+ "." +:+ zstr (jp_iat q) +:+ "." +:+ zstr (jp_exp q) +:+ "." +:+ key.

Definition decode_fields (s : string) : option (@token transparent_signer) :=
  '(f1, s) ← split_dot s; '(f2, s) ← split_dot s; '(f3, s) ← split_dot s;
  '(f4, s) ← split_dot s; '(f5, s) ← split_dot s; '(f6, key) ← split_dot s;
  i1 ← nparse f1; a1 ← zparse f2; e1 ← zparse f3;
  i2 ← nparse f4; a2 ← zparse f5; e2 ← zparse f6;
  Some (@mk_token transparent_signer (mk_payload i1 a1 e1) (key, mk_payload i2 a2 e2)).

Lemma split_dot_app (a b : string) :
  dot_free a = true -> split_dot (a +:+ "." +:+ b) = Some (a, b).
Proof.
  induction a as [|c a IH]; simpl; [done|].
  intros [Hc Ha]%andb_prop. apply negb_true_iff in Hc. rewrite Hc, IH; [reflexivity|done].
Qed.

Lemma dot_free_uint (u : Decimal.uint) : dot_free (NilEmpty.string_of_uint u) = true.
Proof. induction u; simpl; done. Qed.

Lemma dot_free_nstr (n : N) : dot_free (nstr n) = true.
Proof. apply dot_free_uint. Qed.

Lemma dot_free_zstr (z : Z) : dot_free (zstr z) = true.
Proof. unfold zstr. destruct (Z.to_int z); simpl; rewrite ?dot_free_uint; done. Qed.

#[export] Hint Resolve dot_free_nstr dot_free_zstr : wk.

#[refine] Instance decimal_codec : @TokenCodec transparent_signer := {
  encode_token := encode_fields;
  decode_token := decode_fields
}.
Proof.
  intros [[i1 a1 e1] [key [i2 a2 e2]]]. unfold encode_fields, decode_fields. simpl.
  repeat (rewrite split_dot_app by auto with wk; cbn -[nparse zparse nstr zstr]).
  by rewrite !nparse_nstr, !zparse_zstr.
Defined.

(** ** Witnesses *)

Definition demo_secret : string := "s3cret".
Definition demo_login_ms : Z := 1700000000123%Z.
Definition demo_token : @token transparent_signer :=
  mk_token (sign_payload 5%N demo_login_ms) (hmac demo_secret (sign_payload 5%N demo_login_ms)).
Definition demo_header (t : @token transparent_signer) : option string :=
  Some ("Bearer " +:+ encode_token t).

Lemma login_token_accepted_witness :
  verifyToken (Some demo_secret) (demo_login_ms + 3600000)%Z (demo_header demo_token) = GatePass 5%N.
Proof.
  apply (login_token_accepted demo_secret 5%N demo_login_ms _ demo_token);
    [reflexivity | vm_compute; congruence].
Defined.

Lemma token_expired_rejected_witness :
  verifyToken (Some demo_secret) (demo_login_ms + 8 * 86400000)%Z (demo_header demo_token) =
  verifyToken (Some demo_secret) (demo_login_ms + 8 * 86400000)%Z None.
Proof.
  apply (token_expired_rejected demo_secret 5%N demo_login_ms _ demo_token);
    [reflexivity | vm_compute; reflexivity].
Defined.

Lemma tampered_signature_rejected_witness :
  verifyToken (Some demo_secret) demo_login_ms
    (demo_header (mk_token (sign_payload 5%N demo_login_ms) ("s3creT", sign_payload 5%N demo_login_ms))) =
  verifyToken (Some demo_secret) demo_login_ms None.
Proof. apply tampered_signature_rejected. vm_compute. congruence. Defined.

Lemma tampered_payload_rejected_witness :
  verifyToken (Some demo_secret) demo_login_ms
    (demo_header (mk_token (sign_payload 6%N demo_login_ms) (hmac demo_secret (sign_payload 5%N demo_login_ms)))) =
  verifyToken (Some demo_secret) demo_login_ms None.
Proof. apply tampered_payload_rejected. vm_compute. congruence. Defined.

Lemma gate_pass_sound_witness :
  exists raw p, bearer_token (demo_header demo_token) = Some raw /\
    decode_token raw = Some (mk_token p (hmac demo_secret p)) /\
    jp_id p = 5%N /\ (to_seconds demo_login_ms <= jp_exp p)%Z.
Proof. apply (gate_pass_sound demo_secret demo_login_ms). vm_compute. reflexivity. Defined.
