(* ===== verification/Dates.v ===== *)
(** * Dates as JavaScript prints and parses them

    A Mongoose [Date] path is sent by [res.json] as the text of
    [Date.prototype.toISOString], [YYYY-MM-DDTHH:mm:ss.sssZ] for the
    years 0 to 9999 ([to_iso]); the Project schema's [createdAt] defaults
    to [Date.now] and is printed this way.  The calendar conversion is
    the era-based algorithm of [civil_from_days] (days since 1970-01-01
    to a proleptic Gregorian date) and its inverse [days_from_civil];
    [iso_parse] is [Date.parse] on that format.

    The theorems: the printed month and day are in range; the inverse
    undoes the conversion for every day number (within an era by
    arithmetic, then era by era); the digits of the padded fields read
    back (checked by evaluation over their range); and so [iso_parse] reads back every
    instant [to_iso] prints with a four-digit year. *)

From S2P Require Import Prelude Json.

(** ** Dates *)

Definition ms_per_day : Z := 86400000.

(** The range of a JavaScript Date: 8.64e15 ms either side of the epoch. *)
Definition max_time_ms : Z := 8640000000000000.

(** The proleptic Gregorian date of a day number (days since
    1970-01-01), by eras of 400 years starting on March 1st. *)
Definition civil_from_days (z0 : Z) : Z * Z * Z :=
  let z := (z0 + 719468)%Z in
  let era := (z / 146097)%Z in
  let doe := (z - era * 146097)%Z in
  let yoe := ((doe - doe / 1460 + doe / 36524 - doe / 146096) / 365)%Z in
  let y := (yoe + era * 400)%Z in
  let doy := (doe - (365 * yoe + yoe / 4 - yoe / 100))%Z in
  let mp := ((5 * doy + 2) / 153)%Z in
  let d := (doy - (153 * mp + 2) / 5 + 1)%Z in
  let m := if (mp <? 10)%Z then (mp + 3)%Z else (mp - 9)%Z in
  (if (m <=? 2)%Z then (y + 1)%Z else y, m, d).

Fixpoint zeros (k : nat) : string :=
  match k with O => "" | S k' => String "0" (zeros k') end.

(** A non-negative number in decimal, left-padded with zeros. *)
Definition pad_dec (width : nat) (n : Z) : string :=
  let s := nstr (Z.to_N n) in zeros (width - String.length s) +:+ s.

Definition iso_year (y : Z) : string :=
  if (0 <=? y)%Z && (y <=? 9999)%Z then pad_dec 4 y
  else if (y <? 0)%Z then "-" +:+ pad_dec 6 (- y) else "+" +:+ pad_dec 6 y.

(** [new Date(ms).toISOString()]. *)
Definition to_iso (ms : Z) : string :=
  let t := (ms mod ms_per_day)%Z in
  let '(y, mo, d) := civil_from_days (ms / ms_per_day)%Z in
  iso_year y +:+ "-" +:+ pad_dec 2 mo +:+ "-" +:+ pad_dec 2 d +:+ "T" +:+
  pad_dec 2 (t / 3600000)%Z +:+ ":" +:+ pad_dec 2 (t / 60000 mod 60)%Z +:+ ":" +:+
  pad_dec 2 (t / 1000 mod 60)%Z +:+ "." +:+ pad_dec 3 (t mod 1000)%Z +:+ "Z".

(** The day number of a proleptic Gregorian date, the inverse of
    [civil_from_days]: what [Date.UTC(y, m - 1, d)] computes, in days. *)
Definition days_from_civil (y m d : Z) : Z :=
  let y' := if (m <=? 2)%Z then (y - 1)%Z else y in
  let era := (y' / 400)%Z in
  let yoe := (y' - era * 400)%Z in
  let mp := if (2 <? m)%Z then (m - 3)%Z else (m + 9)%Z in
  let doy := ((153 * mp + 2) / 5 + d - 1)%Z in
  let doe := (yoe * 365 + yoe / 4 - yoe / 100 + doy)%Z in
  (era * 146097 + doe - 719468)%Z.

(** The year of the era, month and day of the [doe]-th day of an era,
    as [civil_from_days] computes them. *)
Definition era_date (doe : Z) : Z * Z * Z :=
  let yoe := ((doe - doe / 1460 + doe / 36524 - doe / 146096) / 365)%Z in
  let doy := (doe - (365 * yoe + yoe / 4 - yoe / 100))%Z in
  let mp := ((5 * doy + 2) / 153)%Z in
  (yoe, (if (mp <? 10)%Z then mp + 3 else mp - 9)%Z, (doy - (153 * mp + 2) / 5 + 1)%Z).

(** The day [doe] of an era is read back from its date. *)
Definition era_day_ok (doe : Z) : bool :=
  let '(yoe, m, d) := era_date doe in
  (0 <=? yoe)%Z && (yoe <? 400)%Z &&
  (days_from_civil (if (m <=? 2)%Z then yoe + 1 else yoe)%Z m d =? doe - 719468)%Z.

(** [f] holds of [z], [z + 1], ..., [z + k - 1]. *)
Fixpoint all_from (f : Z -> bool) (z : Z) (k : nat) : bool :=
  match k with
  | O => true
  | S k' => f z && all_from f (z + 1)%Z k'
  end.

(** A decimal digit. *)
Definition digit_val (c : ascii) : option Z :=
  let n := Ascii.nat_of_ascii c in
  if (48 <=? n)%nat && (n <=? 57)%nat then Some (Z.of_nat (n - 48)) else None.

(** A run of decimal digits, read left to right onto [acc]. *)
Fixpoint digits_val (acc : Z) (cs : list ascii) : option Z :=
  match cs with
  | [] => Some acc
  | c :: cs' => digit_val c ≫= fun v => digits_val (acc * 10 + v)%Z cs'
  end.

(** [Date.parse] on the text [YYYY-MM-DDTHH:mm:ss.sssZ]: the fields are
    read as digits and range-checked (a day up to 31 in every month), and
    the instant is [Date.UTC] of them; any other text is [None]
    ([NaN]). *)
Definition iso_parse (s : string) : option Z :=
  match String.list_ascii_of_string s with
  | [y1; y2; y3; y4; c1; m1; m2; c2; d1; d2; c3; h1; h2; c4; i1; i2; c5; s1; s2; c6; f1; f2; f3; c7] =>
      if bool_decide ([c1; c2; c3; c4; c5; c6; c7] = ["-"; "-"; "T"; ":"; ":"; "."; "Z"]%char) then
        y ← digits_val 0 [y1; y2; y3; y4];
        mo ← digits_val 0 [m1; m2];
        d ← digits_val 0 [d1; d2];
        h ← digits_val 0 [h1; h2];
        mi ← digits_val 0 [i1; i2];
        se ← digits_val 0 [s1; s2];
        f ← digits_val 0 [f1; f2; f3];
        if bool_decide (1 <= mo <= 12 /\ 1 <= d <= 31 /\ h < 24 /\ mi < 60 /\ se < 60)%Z
        then Some (days_from_civil y mo d * ms_per_day + h * 3600000 + mi * 60000 + se * 1000 + f)%Z
        else None
      else None
  | _ => None
  end.

(** A padded field has [w] characters that read back as the number. *)
Definition pad_ok (w : nat) (n : Z) : bool :=
  let cs := String.list_ascii_of_string (pad_dec w n) in
  bool_decide (length cs = w) && bool_decide (digits_val 0 cs = Some n).

(** ** Theorems *)

(** The day of the year within a 400-year era stays in [0, 365]. *)
Lemma doy_bounds (doe : Z) : (0 <= doe <= 146096)%Z ->
  let yoe := ((doe - doe / 1460 + doe / 36524 - doe / 146096) / 365)%Z in
  (0 <= doe - (365 * yoe + yoe / 4 - yoe / 100) <= 365)%Z.
Proof. intros H yoe. subst yoe. Z.div_mod_to_equations. lia. Qed.

Lemma month_day_bounds (doy : Z) : (0 <= doy <= 365)%Z ->
  let mp := ((5 * doy + 2) / 153)%Z in
  (1 <= (if (mp <? 10)%Z then mp + 3 else mp - 9) <= 12)%Z /\
  (1 <= doy - (153 * mp + 2) / 5 + 1 <= 31)%Z.
Proof.
  intros H mp. subst mp.
  destruct (Z.ltb_spec ((5 * doy + 2) / 153) 10); Z.div_mod_to_equations; lia.
Qed.

(** The calendar date [toISOString] prints for any day number has a
    month in 1..12 and a day in 1..31. *)
Theorem civil_from_days_bounds (z : Z) :
  (1 <= (civil_from_days z).1.2 <= 12)%Z /\ (1 <= (civil_from_days z).2 <= 31)%Z.
Proof.
  unfold civil_from_days. cbv zeta.
  set (doe := (z + 719468 - (z + 719468) / 146097 * 146097)%Z).
  assert (0 <= doe <= 146096)%Z as Hdoe by (subst doe; Z.div_mod_to_equations; lia).
  pose proof (month_day_bounds _ (doy_bounds doe Hdoe)) as Hmd. cbv zeta in Hmd.
  destruct (_ <=? 2)%Z; exact Hmd.
Qed.

Lemma all_from_spec (f : Z -> bool) (z : Z) (k : nat) (x : Z) :
  all_from f z k = true -> (z <= x < z + Z.of_nat k)%Z -> f x = true.
Proof.
  revert z. induction k as [|k IH]; intros z; simpl; [lia|].
  intros [Hz Hk]%andb_true_iff Hx.
  destruct (decide (x = z)) as [->|Hne]; [done|]. apply (IH (z + 1)%Z); [done|lia].
Qed.

(** Every day of an era is read back from its date: the day of the
    year is recomputed exactly, and the year of the era stays below 400. *)
Lemma era_days_ok (doe : Z) : (0 <= doe <= 146096)%Z -> era_day_ok doe = true.
Proof.
  intros H. pose proof (doy_bounds doe H) as Hdoy. cbv zeta in Hdoy.
  unfold era_day_ok, era_date, days_from_civil. cbv zeta.
  set (yoe := ((doe - doe / 1460 + doe / 36524 - doe / 146096) / 365)%Z) in *.
  assert (Hyoe : (0 <= yoe < 400)%Z) by (subst yoe; Z.div_mod_to_equations; lia).
  set (doy := (doe - (365 * yoe + yoe / 4 - yoe / 100))%Z) in *.
  set (mp := ((5 * doy + 2) / 153)%Z).
  assert (Hmp : (0 <= mp <= 11)%Z) by (subst mp; Z.div_mod_to_equations; lia).
  apply andb_true_iff; split; [apply andb_true_iff; split; apply Z.leb_le || apply Z.ltb_lt; lia|].
  apply Z.eqb_eq.
  destruct (Z.ltb_spec mp 10) as [Hlt|Hge].
  - rewrite (proj2 (Z.leb_gt (mp + 3) 2)), (proj2 (Z.ltb_lt 2 (mp + 3))) by lia.
    rewrite (Z.div_small yoe 400) by lia.
    replace (mp + 3 - 3)%Z with mp by ring. replace (yoe - 0 * 400)%Z with yoe by ring. clearbody mp yoe. lia.
  - rewrite (proj2 (Z.leb_le (mp - 9) 2)), (proj2 (Z.ltb_ge 2 (mp - 9))) by lia.
    replace (yoe + 1 - 1)%Z with yoe by ring. rewrite (Z.div_small yoe 400) by lia.
    replace (mp - 9 + 9)%Z with mp by ring. replace (yoe - 0 * 400)%Z with yoe by ring. clearbody mp yoe. lia.
Qed.

(** The conversion, era by era. *)
Lemma civil_from_days_era (z : Z) :
  civil_from_days z =
  let '(yoe, m, d) := era_date (z + 719468 - (z + 719468) / 146097 * 146097)%Z in
  ((if (m <=? 2)%Z then yoe + 1 else yoe) + (z + 719468) / 146097 * 400, m, d)%Z.
Proof.
  unfold civil_from_days, era_date. cbv zeta.
  match goal with |- context [(?x <=? 2)%Z] => destruct (x <=? 2)%Z end; f_equal; f_equal; ring.
Qed.

(** Four hundred years are 146097 days. *)
Lemma days_from_civil_shift (y m d e : Z) :
  days_from_civil (y + e * 400) m d = (days_from_civil y m d + e * 146097)%Z.
Proof.
  unfold days_from_civil. cbv zeta.
  assert (Hy : forall y', ((y' + e * 400) / 400 = y' / 400 + e)%Z) by (intros; apply Z.div_add; lia).
  destruct (m <=? 2)%Z.
  - replace (y + e * 400 - 1)%Z with (y - 1 + e * 400)%Z by ring. rewrite Hy.
    replace (y - 1 + e * 400 - ((y - 1) / 400 + e) * 400)%Z
      with (y - 1 - (y - 1) / 400 * 400)%Z by ring. ring.
  - rewrite Hy. replace (y + e * 400 - (y / 400 + e) * 400)%Z with (y - y / 400 * 400)%Z by ring.
    ring.
Qed.

(** [days_from_civil] undoes [civil_from_days] on every day number. *)
Lemma days_from_civil_roundtrip (z : Z) :
  let '(y, m, d) := civil_from_days z in days_from_civil y m d = z.
Proof.
  rewrite civil_from_days_era.
  set (e := ((z + 719468) / 146097)%Z).
  assert (Hdoe : (0 <= z + 719468 - e * 146097 <= 146096)%Z) by (subst e; Z.div_mod_to_equations; lia).
  pose proof (era_days_ok _ Hdoe) as Hok. unfold era_day_ok in Hok.
  destruct (era_date _) as [[yoe m] d].
  apply andb_true_iff in Hok as [_ Hok]. apply Z.eqb_eq in Hok.
  rewrite days_from_civil_shift, Hok. ring.
Qed.

Lemma list_ascii_app (s t : string) :
  String.list_ascii_of_string (s +:+ t) = String.list_ascii_of_string s ++ String.list_ascii_of_string t.
Proof. induction s as [|c s IH]; simpl; [done|]. by rewrite IH. Qed.

(** The padded fields read back, checked over their whole range. *)
Lemma pad_read (w : nat) (n : Z) :
  all_from (pad_ok w) 0 (Z.to_nat (10 ^ Z.of_nat w)) = true -> (0 <= n < 10 ^ Z.of_nat w)%Z ->
  length (String.list_ascii_of_string (pad_dec w n)) = w /\
  digits_val 0 (String.list_ascii_of_string (pad_dec w n)) = Some n.
Proof.
  intros Hall Hn. assert (0 < 10 ^ Z.of_nat w)%Z by lia.
  pose proof (all_from_spec _ _ _ n Hall) as Hok. rewrite Z2Nat.id in Hok by lia.
  apply andb_true_iff in Hok as [H1 H2]; [|lia]. split; by apply bool_decide_eq_true in H1, H2.
Qed.

Lemma pad2_read (n : Z) : (0 <= n < 100)%Z ->
  length (String.list_ascii_of_string (pad_dec 2 n)) = 2 /\
  digits_val 0 (String.list_ascii_of_string (pad_dec 2 n)) = Some n.
Proof. intros. apply pad_read; [vm_compute; reflexivity|done]. Qed.

Lemma pad3_read (n : Z) : (0 <= n < 1000)%Z ->
  length (String.list_ascii_of_string (pad_dec 3 n)) = 3 /\
  digits_val 0 (String.list_ascii_of_string (pad_dec 3 n)) = Some n.
Proof. intros. apply pad_read; [vm_compute; reflexivity|done]. Qed.

Lemma pad4_read (n : Z) : (0 <= n < 10000)%Z ->
  length (String.list_ascii_of_string (pad_dec 4 n)) = 4 /\
  digits_val 0 (String.list_ascii_of_string (pad_dec 4 n)) = Some n.
Proof. intros. apply pad_read; [vm_compute; reflexivity|done]. Qed.

(** Replace the characters of a padded field by variables, keeping what
    they read as. *)
Ltac read_field lemma w n :=
  let L := fresh "L" in let D := fresh "D" in
  destruct (lemma n) as [L D]; [Z.div_mod_to_equations; lia|];
  revert L D; generalize (String.list_ascii_of_string (pad_dec w n));
  let l := fresh "l" in intros l L D;
  repeat (destruct l as [|? l]; simpl in L; try lia); clear L.

(** [Date.parse] reads back every instant [toISOString] prints with a
    four-digit year. *)
Lemma iso_parse_to_iso (ms : Z) :
  (0 <= (civil_from_days (ms / ms_per_day)).1.1 <= 9999)%Z ->
  iso_parse (to_iso ms) = Some ms.
Proof.
  intros Hy. unfold to_iso.
  pose proof (days_from_civil_roundtrip (ms / ms_per_day)) as Hrt.
  pose proof (civil_from_days_bounds (ms / ms_per_day)) as [Hm Hd].
  destruct (civil_from_days _) as [[y mo] d]. simpl in Hy, Hm, Hd.
  assert (Ht : (0 <= ms mod ms_per_day < 86400000)%Z) by (unfold ms_per_day; apply Z.mod_pos_bound; lia).
  unfold iso_year. replace ((0 <=? y)%Z && (y <=? 9999)%Z) with true
    by (symmetry; apply andb_true_iff; split; apply Z.leb_le; lia).
  unfold iso_parse. rewrite !list_ascii_app.
  remember (ms mod ms_per_day)%Z as t eqn:Et.
  read_field pad4_read 4 y. read_field pad2_read 2 mo. read_field pad2_read 2 d.
  read_field pad2_read 2 (t / 3600000)%Z. read_field pad2_read 2 ((t / 60000) mod 60)%Z.
  read_field pad2_read 2 ((t / 1000) mod 60)%Z. read_field pad3_read 3 (t mod 1000)%Z.
  cbn -[digits_val days_from_civil].
  rewrite bool_decide_eq_true_2 by done. rewrite D, D0, D1, D2, D3, D4, D5. simpl.
  rewrite bool_decide_eq_true_2 by (Z.div_mod_to_equations; lia).
  f_equal. rewrite Hrt, Et. unfold ms_per_day. Z.div_mod_to_equations. lia.
Qed.
