(* ===== verification/Resources.v ===== *)
(** * Resource documents: projects, teams, tags and tasks

    [POST /projects] (index.js 98-106) runs [new Project(req.body)] and
    [await p.save()]: Mongoose casts every schema path of the body, drops
    the keys the schema does not know, applies the defaults, validates,
    and inserts.  The Project schema is src/models/projectSchema.js:

    - [name]: String, required, unique;
    - [description]: String;
    - [status]: String, one of "Planned", "In Progress", "Completed",
      default "Planned";
    - [createdAt]: Date, default [Date.now].

    [project_build] is that schema; the schemas of teams, tags and tasks
    are not under src/ and are the fields of the interface
    [ResourceModels], with [Date.parse] (a library function).

    A document is stored as the JSON [res.json] prints for it: a Date is
    its ISO 8601 text ([to_iso], the algorithm of [toISOString]).  The key
    order of a printed document is fixed by this model (schema order, [_id]
    first); the theorems read documents by key.  Not modelled: an [_id]
    or [__v] given in the body (treated as absent). *)

From S2P Require Import Prelude Json Dates.

(** [String(v)]: what [new Date(v)] parses when [v] is an object. *)
Fixpoint js_string (v : jval) : string :=
  match v with
  | JUndefined => "undefined"
  | JNull => "null"
  | JBool b => if b then "true" else "false"
  | JNum n => zstr n
  | JStr s => s
  | JArr xs => String.concat "," (map (fun x => match x with
                                                 | JUndefined | JNull => ""
                                                 | _ => js_string x
                                                 end) xs)
  | JObj _ => "[object Object]"
  end.

(** ** Casting body values to schema paths *)

Section Casts.
  Variable date_parse : string -> option Z.   (* Date.parse; None is NaN *)

(** A valid Date, printed; out of range it is a CastError. *)
Definition date_of_ms (ms : Z) : string + jval :=
  if (Z.abs ms <=? max_time_ms)%Z then inr (JStr (to_iso ms)) else inl "Cast to date failed".

Definition date_of_text (s : string) : string + jval :=
  match date_parse s with
  | Some ms => date_of_ms ms
  | None => inl "Cast to date failed"
  end.

(** Mongoose's [castDate]: [null] and [""] are null; numbers are
    milliseconds; a decimal numeral is milliseconds only beyond the years
    -271820 and 275760, any other text is [Date.parse]d; [true]/[false]
    are the Dates 1 and 0; other values go through [String(v)]. *)
Definition cast_date (v : jval) : string + jval :=
  match v with
  | JUndefined | JNull => inr JNull
  | JStr "" => inr JNull
  | JStr s =>
      match zparse s with
      | Some n => if (275761 <=? n)%Z || (n <? -271820)%Z then date_of_ms n else date_of_text s
      | None => date_of_text s
      end
  | JNum n => date_of_ms n
  | JBool b => date_of_ms (if b then 1 else 0)%Z
  | JArr _ | JObj _ => date_of_text (js_string v)
  end.
End Casts.

(** Mongoose's [castString]: [undefined] stays unset, [null] is null,
    numbers and booleans become their text, an object with a non-empty
    string [_id] becomes that [_id]; arrays and other objects are a
    CastError. *)
Definition cast_string (v : jval) : string + jval :=
  match v with
  | JUndefined => inr JUndefined
  | JNull => inr JNull
  | JStr s => inr (JStr s)
  | JNum n => inr (JStr (zstr n))
  | JBool b => inr (JStr (if b then "true" else "false"))
  | JObj kvs =>
      match assoc_last "_id" kvs with
      | Some (JStr s) => if bool_decide (s = "") then inl "Cast to string failed" else inr (JStr s)
      | _ => inl "Cast to string failed"
      end
  | JArr _ => inl "Cast to string failed"
  end.

(** [req.body[k]] as the document constructor reads it. *)
Definition body_field (body : jval) (k : string) : jval :=
  match body with
  | JObj kvs => default JUndefined (assoc_last k kvs)
  | _ => JUndefined
  end.

(** ** Schemas *)

(** What a model does with [new Model(body)] at time [now]: the stored
    fields, or the message of its ValidationError; and the paths with a
    unique index (String paths). *)
Record schema := mk_schema {
  sch_collection : string;
  sch_build : Z -> jval -> string + list (string * jval);
  sch_unique : list string
}.

Definition project_status_values : list string := ["Planned"; "In Progress"; "Completed"].

(** The [required] validator of a String path: unset, null and "". *)
Definition required_missing (v : jval) : bool :=
  match v with
  | JUndefined | JNull => true
  | JStr s => bool_decide (s = "")
  | _ => false
  end.

Definition path_error (path msg : string) : string := path +:+ ": " +:+ msg.

(** A ValidationError reports every failing path, in schema order;
    otherwise the document holds the fields of every path that is set. *)
Definition collect_paths (model : string) (rs : list (string + list (string * jval)))
  : string + list (string * jval) :=
  match omap (fun r => match r with inl e => Some e | inr _ => None end) rs with
  | [] => inr (mjoin (omap (fun r => match r with inr f => Some f | inl _ => None end) rs))
  | errs => inl (model +:+ " validation failed: " +:+ String.concat ", " errs)
  end.

(** The four paths of projectSchema.js, each cast, defaulted and
    validated. *)
Definition project_build (date_parse : string -> option Z) (now : Z) (body : jval)
  : string + list (string * jval) :=
  let r_name :=
    match cast_string (body_field body "name") with
    | inl e => inl (path_error "name" e)
    | inr v => if required_missing v then inl (path_error "name" "Path `name` is required.")
               else inr [("name", v)]
    end in
  let r_description :=
    match cast_string (body_field body "description") with
    | inl e => inl (path_error "description" e)
    | inr JUndefined => inr []
    | inr v => inr [("description", v)]
    end in
  let r_status :=
    match cast_string (body_field body "status") with
    | inl e => inl (path_error "status" e)
    | inr JUndefined => inr [("status", JStr "Planned")]
    | inr (JStr s) =>
        if bool_decide (s ∈ project_status_values) then inr [("status", JStr s)]
        else inl (path_error "status" ("`" +:+ s +:+ "` is not a valid enum value for path `status`."))
    | inr v => inr [("status", v)]
    end in
  let r_createdAt :=
    match body_field body "createdAt" with
    | JUndefined => inr [("createdAt", JStr (to_iso now))]
    | v => match cast_date date_parse v with
           | inl e => inl (path_error "createdAt" e)
           | inr d => inr [("createdAt", d)]
           end
    end in
  collect_paths "Project" [r_name; r_description; r_status; r_createdAt].

Definition project_schema (date_parse : string -> option Z) : schema :=
  mk_schema "projects" (project_build date_parse) ["name"].

(** The models whose schemas are not under src/, and [Date.parse]. *)
Class ResourceModels := {
  date_parse : string -> option Z;
  team_schema : schema;
  tag_schema : schema;
  task_schema : schema
}.

Inductive collection := Projects | Teams | Tags | Tasks.

#[export] Instance collection_eq_dec : EqDecision collection.
Proof. solve_decision. Defined.

Definition schema_of `{ResourceModels} (c : collection) : schema :=
  match c with
  | Projects => project_schema date_parse
  | Teams => team_schema
  | Tags => tag_schema
  | Tasks => task_schema
  end.

(** ** Documents *)

Record doc := mk_doc { doc_id : oid; doc_fields : list (string * jval) }.

(** [res.json(doc)]: the fields with [_id] and the version key. *)
Definition doc_json (d : doc) : jval :=
  JObj (("_id", oid_json (doc_id d)) :: doc_fields d ++ [("__v", JNum 0)]).

(** ** Example models, to evaluate the development

    The team, tag and task schemas are not under src/; these are schemas
    of the shape spec.md §6 describes (a required unique [name], and the
    task's [owners], an array of user ids), with a [Date.parse] that
    accepts nothing. *)

(** A String path; [required] paths reject unset, null and "". *)
Definition string_path (required : bool) (body : jval) (p : string)
  : string + list (string * jval) :=
  match cast_string (body_field body p) with
  | inl e => inl (path_error p e)
  | inr v => if required && required_missing v then inl (path_error p ("Path `" +:+ p +:+ "` is required."))
             else match v with JUndefined => inr [] | _ => inr [(p, v)] end
  end.

Definition named_schema (model coll : string) (optional : list string) : schema :=
  mk_schema coll
    (fun _ body => collect_paths model (string_path true body "name" :: map (string_path false body) optional))
    ["name"].

(** An array of ObjectIds in their 24-digit hexadecimal form. *)
Definition cast_owner_ids (v : jval) : string + list (string * jval) :=
  match v with
  | JUndefined => inr []
  | JArr xs => if forallb (fun x => match x with JStr h => bool_decide (String.length h = 24) | _ => false end) xs
               then inr [("owners", v)] else inl (path_error "owners" "Cast to ObjectId failed")
  | _ => inl (path_error "owners" "Cast to [ObjectId] failed")
  end.

Definition example_task_schema : schema :=
  mk_schema "tasks"
    (fun _ body => collect_paths "Task" [string_path true body "name"; cast_owner_ids (body_field body "owners")])
    [].

#[export] Instance example_models : ResourceModels := {
  date_parse := fun _ => None;
  team_schema := named_schema "Team" "teams" ["description"];
  tag_schema := named_schema "Tag" "tags" [];
  task_schema := example_task_schema
}.

(** ** Theorems *)

Lemma collect_paths_inl (model : string) (rs : list (string + list (string * jval))) (e : string) :
  inl e ∈ rs ->
  exists errs, e ∈ errs /\
    collect_paths model rs = inl (model +:+ " validation failed: " +:+ String.concat ", " errs).
Proof.
  intros He. unfold collect_paths.
  assert (e ∈ omap (fun r => match r with inl e => Some e | inr _ => None end) rs) as Hin
    by (apply list_elem_of_omap; eauto).
  destruct (omap _ rs) as [|e0 es]; [set_solver|eauto].
Qed.

Lemma collect_paths_inr (model : string) (rs : list (string + list (string * jval)))
    (fields l : list (string * jval)) (x : string * jval) :
  collect_paths model rs = inr fields -> inr l ∈ rs -> x ∈ l -> x ∈ fields.
Proof.
  unfold collect_paths. destruct (omap _ rs) eqn:Hom; [|done]. intros [= <-] Hl Hx.
  apply list_elem_of_join. exists l. split; [done|]. apply list_elem_of_omap. eauto.
Qed.

Section ProjectSchema.
Variable date_parse : string -> option Z.

(** C26: a body with just a name gets the defaults of projectSchema.js:
    status "Planned" and createdAt the current time; unknown keys are
    dropped. *)
Theorem project_build_defaults (now : Z) (body : jval) (n : string) :
  body_field body "name" = JStr n -> n <> "" ->
  body_field body "description" = JUndefined -> body_field body "status" = JUndefined ->
  body_field body "createdAt" = JUndefined ->
  project_build date_parse now body =
  inr [("name", JStr n); ("status", JStr "Planned"); ("createdAt", JStr (to_iso now))].
Proof.
  intros Hn Hne Hd Hs Hc. unfold project_build. rewrite Hn, Hd, Hs, Hc. simpl.
  by rewrite bool_decide_eq_false_2.
Qed.

(** C27: a project body with no name (unset, null or "") or with a
    status outside "Planned", "In Progress" and "Completed" is refused
    with a ValidationError that reports the failing path with Mongoose's
    message for it. *)
Theorem project_build_rejects (now : Z) (body : jval) (msg : string) :
  (required_missing (body_field body "name") = true /\
   msg = path_error "name" "Path `name` is required.") \/
  (exists s, body_field body "status" = JStr s /\ s ∉ project_status_values /\
   msg = path_error "status" ("`" +:+ s +:+ "` is not a valid enum value for path `status`.")) ->
  exists errs, msg ∈ errs /\
    project_build date_parse now body = inl ("Project validation failed: " +:+ String.concat ", " errs).
Proof.
  intros [[Hm ->]|(s & Hs & Hn & ->)]; unfold project_build; apply collect_paths_inl;
    rewrite !elem_of_cons.
  - left. destruct (body_field body "name"); try discriminate; simpl in *; [done|done|].
    by rewrite Hm.
  - right; right; left. rewrite Hs. simpl. by rewrite bool_decide_eq_false_2.
Qed.
(** C28: the [createdAt] a project gets by default is printed so that
    [Date.parse] reads back the instant of its creation: whoever reads
    the JSON of a new project recovers [Date.now()] of the save, to the
    millisecond (for the years 0 to 9999 [toISOString] prints with four
    digits). *)
Theorem project_created_at_roundtrip (now : Z) (body : jval) (fields : list (string * jval)) :
  project_build date_parse now body = inr fields ->
  body_field body "createdAt" = JUndefined ->
  (0 <= (civil_from_days (now / ms_per_day)).1.1 <= 9999)%Z ->
  exists s, ("createdAt", JStr s) ∈ fields /\ iso_parse s = Some now.
Proof.
  intros Hb Hc Hy. exists (to_iso now). split; [|by apply iso_parse_to_iso].
  unfold project_build in Hb. rewrite Hc in Hb.
  eapply collect_paths_inr; [exact Hb| |by left].
  rewrite !elem_of_cons. by do 3 right; left.
Qed.
End ProjectSchema.

(** ** Witnesses *)

Definition no_date_parse : string -> option Z := fun _ => None.

Lemma project_build_defaults_witness :
  project_build no_date_parse 1700000000123%Z (JObj [("name", JStr "Apollo"); ("owner", JStr "x")]) =
  inr [("name", JStr "Apollo"); ("status", JStr "Planned");
       ("createdAt", JStr (to_iso 1700000000123%Z))].
Proof.
  apply project_build_defaults; [reflexivity | discriminate | reflexivity | reflexivity | reflexivity].
Defined.

(** A project whose status is "Done". *)
Lemma project_build_rejects_witness :
  exists errs, path_error "status" "`Done` is not a valid enum value for path `status`." ∈ errs /\
    project_build no_date_parse 0%Z (JObj [("name", JStr "Apollo"); ("status", JStr "Done")]) =
    inl ("Project validation failed: " +:+ String.concat ", " errs).
Proof.
  apply project_build_rejects. right. exists "Done". split_and!; [reflexivity|decide_goal|reflexivity].
Defined.

(** Apollo, created at the demo instant, reads back its creation time. *)
Lemma project_created_at_roundtrip_witness :
  exists s, ("createdAt", JStr s) ∈ [("name", JStr "Apollo"); ("status", JStr "Planned");
                                      ("createdAt", JStr (to_iso 1700000000123%Z))] /\
            iso_parse s = Some 1700000000123%Z.
Proof.
  apply (project_created_at_roundtrip no_date_parse 1700000000123%Z (JObj [("name", JStr "Apollo")]));
    [vm_compute; reflexivity | reflexivity | vm_compute; split; discriminate].
Defined.
