(* ===== verification/Store.v ===== *)
(** * The credential store: the [users] collection

    The [User] model (models/userSchema, not under src/; modelled from
    spec.md §3 and §4.2) has the paths [name], [email] (unique index) and
    [password], all Strings and required.  The handlers use three of its
    operations: [User.findOne({ email })] (index.js 42 and 60),
    [new User({ name, email, password }).save()] (index.js 47-48) and
    [User.findById(id)] (index.js 83).

    What Mongoose does with the JavaScript values it is given is part of
    the model: the query [{ email }] is cast against the String path
    ([cast_email_query]), so a number or boolean is compared as its
    string, an array becomes [$in], an object whose keys start with [$]
    is a query operator, and [undefined] matches no user; [save] casts
    and validates the document, then the unique index refuses a second
    user with the same e-mail.  Operators other than [$eq], [$ne], [$in],
    [$nin], [$exists], [$gt], [$gte], [$lt] and [$lte] ([$regex], [$not],
    [$type], ...) are not modelled: the cast refuses them. *)

From S2P Require Import Prelude Json Hasher Resources.

Section Users.
Context `{EksBlowfish}.

Record user := mk_user {
  u_id : oid;
  u_name : string;
  u_email : string;
  u_password : digest
}.

(** The database: the users and the documents of each collection in
    natural (insertion) order, the next fresh ObjectId, and whether the
    connection is up. *)
Record db := mk_db {
  db_users : list user;
  db_projects : list doc;
  db_teams : list doc;
  db_tags : list doc;
  db_tasks : list doc;
  db_next_oid : oid;
  db_up : bool
}.

Definition insert_user (d : db) (u : user) : db :=
  mk_db (db_users d ++ [u]) (db_projects d) (db_teams d) (db_tags d) (db_tasks d)
        (db_next_oid d + 1)%N (db_up d).

(** ** Casting query values to the String path *)

(** A scalar cast to a string, [None] for [null]/[undefined]; arrays
    and objects are a CastError. *)
Definition cast_value (v : jval) : string + option string :=
  match v with
  | JUndefined | JNull => inr None
  | JArr _ | JObj _ => inl "Cast to string failed for value at path email for model User"
  | _ => inr (js_scalar_string v)
  end.

Definition eq_pred (c : option string) (e : string) : bool :=
  match c with
  | Some s => bool_decide (e = s)
  | None => false
  end.

Definition cmp_pred (ok : comparison -> bool) (c : option string) (e : string) : bool :=
  match c with
  | Some s => ok (String.compare e s)
  | None => false
  end.

Definition starts_with_dollar (k : string) : bool :=
  match k with
  | String c _ => Ascii.eqb c "$"
  | EmptyString => false
  end.

(** One query operator [{ $op: v }] on the [email] path. *)
Definition cast_op (kv : string * jval) : string + (string -> bool) :=
  let '(k, v) := kv in
  match k with
  | "$eq" => c <-? cast_value v ;; inr (eq_pred c)
  | "$ne" => c <-? cast_value v ;; inr (fun e => negb (eq_pred c e))
  | "$in" => match v with
             | JArr xs => cs <-? smapM cast_value xs ;;
                          inr (fun e => existsb (fun c => eq_pred c e) cs)
             | _ => inl "$in needs an array"
             end
  | "$nin" => match v with
              | JArr xs => cs <-? smapM cast_value xs ;;
                           inr (fun e => negb (existsb (fun c => eq_pred c e) cs))
              | _ => inl "$nin needs an array"
              end
  | "$exists" => inr (fun _ => truthy v)
  | "$gt" => c <-? cast_value v ;; inr (cmp_pred (fun o => bool_decide (o = Gt)) c)
  | "$gte" => c <-? cast_value v ;; inr (cmp_pred (fun o => bool_decide (o <> Lt)) c)
  | "$lt" => c <-? cast_value v ;; inr (cmp_pred (fun o => bool_decide (o = Lt)) c)
  | "$lte" => c <-? cast_value v ;; inr (cmp_pred (fun o => bool_decide (o <> Gt)) c)
  | _ => inl ("Can't use " +:+ k +:+ " with String.")
  end.

(** The filter [{ email: v }] as Mongoose casts it, as a test on the
    stored e-mail. *)
Definition cast_email_query (v : jval) : string + (string -> bool) :=
  match v with
  | JObj kvs =>
      if existsb (fun kv => starts_with_dollar kv.1) kvs
      then ps <-? smapM cast_op kvs ;; inr (fun e => forallb (fun p => p e) ps)
      else inl "Cast to string failed for value at path email for model User"
  | JArr xs => cs <-? smapM cast_value xs ;; inr (fun e => existsb (fun c => eq_pred c e) cs)
  | _ => c <-? cast_value v ;; inr (eq_pred c)
  end.

(** ** Operations *)

(** [User.findOne({ email })]: the first user, in natural order, whose
    e-mail passes the query. *)
Definition findOne_email (d : db) (email : jval) : string + option user :=
  q <-? cast_email_query email ;; inr (find_first (fun u => q (u_email u)) (db_users d)).

(** [User.findById(id)]. *)
Definition findById (d : db) (id : oid) : option user :=
  find_first (fun u => bool_decide (u_id u = id)) (db_users d).

Definition email_taken (d : db) (e : string) : bool :=
  existsb (fun u => bool_decide (u_email u = e)) (db_users d).

(** Casting and the [required] validator of one String path of a new
    document: [null]/[undefined]/[""] are missing, arrays and objects
    fail to cast. *)
Definition validate_path (path : string) (v : jval) : string + string :=
  match cast_value v with
  | inr (Some s) =>
      if bool_decide (s = "") then inl ("User validation failed: " +:+ path +:+ ": Path `" +:+ path +:+ "` is required.")
      else inr s
  | inr None => inl ("User validation failed: " +:+ path +:+ ": Path `" +:+ path +:+ "` is required.")
  | inl _ => inl ("User validation failed: " +:+ path +:+ ": Cast to string failed")
  end.

(** [new User({ name, email, password }).save()]: validation, then the
    insert, which the unique index on [email] refuses for a taken
    e-mail (MongoDB error E11000). *)
Definition save_user (d : db) (name email : jval) (pw : digest) : string + (db * user) :=
  n <-? validate_path "name" name ;;
  e <-? validate_path "email" email ;;
  if email_taken d e
  then inl ("E11000 duplicate key error collection: users index: email_1 dup key: { email: " +:+ e +:+ " }")
  else let u := mk_user (db_next_oid d) n e pw in
       inr (insert_user d u, u).

End Users.

Arguments user : clear implicits.
Arguments user {_}.
Arguments db : clear implicits.
Arguments db {_}.

(** ** The resource collections *)

Section Docs.
Context `{EksBlowfish} `{ResourceModels}.

Definition coll_docs (d : db) (c : collection) : list doc :=
  match c with
  | Projects => db_projects d
  | Teams => db_teams d
  | Tags => db_tags d
  | Tasks => db_tasks d
  end.

Definition insert_doc (d : db) (c : collection) (x : doc) : db :=
  let add c' l := if bool_decide (c' = c) then l ++ [x] else l in
  mk_db (db_users d) (add Projects (db_projects d)) (add Teams (db_teams d))
        (add Tags (db_tags d)) (add Tasks (db_tasks d)) (db_next_oid d + 1)%N (db_up d).

(** The key a unique index files a document under: a missing or null
    field is the key null, as MongoDB's non-sparse unique indexes do. *)
Definition index_key (p : string) (fields : list (string * jval)) : option string :=
  match assoc_last p fields with
  | None | Some JUndefined | Some JNull => None
  | Some v => Some (typeof v +:+ ":" +:+ js_string v)
  end.

(** The first unique path on which the new fields collide with a stored
    document. *)
Definition unique_conflict (docs : list doc) (paths : list string)
    (fields : list (string * jval)) : option string :=
  find_first (fun p => bool_decide (index_key p fields ∈ map (fun x => index_key p (doc_fields x)) docs)) paths.

(** [new Model(body).save()] at time [now]: cast, default and validate
    with the collection's schema, then insert under the next ObjectId
    unless a unique index refuses it. *)
Definition save_doc (d : db) (c : collection) (now : Z) (body : jval) : string + (db * doc) :=
  fields <-? sch_build (schema_of c) now body ;;
  match unique_conflict (coll_docs d c) (sch_unique (schema_of c)) fields with
  | Some p => inl ("E11000 duplicate key error collection: " +:+ sch_collection (schema_of c) +:+
                   " index: " +:+ p +:+ "_1 dup key")
  | None => let x := mk_doc (db_next_oid d) fields in inr (insert_doc d c x, x)
  end.

(** [.populate("owners", "name email")]: each owner id is replaced by the
    user's [_id], [name] and [email]; ids of no user are dropped from an
    array and become null as a single reference. *)
Definition owner_json (u : user) : jval :=
  JObj [("_id", oid_json (u_id u)); ("name", JStr (u_name u)); ("email", JStr (u_email u))].

(** The user an owner reference names: the string is cast to an
    ObjectId ([oid_of_hex]) and the users are queried by [_id]. *)
Definition find_user_hex (d : db) (v : jval) : option user :=
  match v with
  | JStr h => oid_of_hex h ≫= fun n => find_first (fun u => bool_decide (u_id u = n)) (db_users d)
  | _ => None
  end.

Definition set_field (k : string) (v : jval) (fields : list (string * jval)) : list (string * jval) :=
  map (fun kv => if String.eqb kv.1 k then (k, v) else kv) fields.

Definition populate_owners (d : db) (x : doc) : doc :=
  match assoc_last "owners" (doc_fields x) with
  | Some (JArr ids) =>
      mk_doc (doc_id x) (set_field "owners" (JArr (omap (fun v => owner_json <$> find_user_hex d v) ids)) (doc_fields x))
  | Some (JStr h) =>
      mk_doc (doc_id x) (set_field "owners" (default JNull (owner_json <$> find_user_hex d (JStr h))) (doc_fields x))
  | _ => x
  end.

(** ** The store invariant *)

Definition all_ids (d : db) : list oid :=
  map u_id (db_users d) ++ map doc_id (db_projects d ++ db_teams d ++ db_tags d ++ db_tasks d).

Definition collections : list collection := [Projects; Teams; Tags; Tasks].

(** No two users share an e-mail; no two documents of any collection share
    an ObjectId, all of which are below the allocator; and no unique index
    holds a key twice. *)
Definition db_wf (d : db) : Prop :=
  NoDup (map u_email (db_users d)) /\ NoDup (all_ids d) /\
  Forall (fun i => (i < db_next_oid d)%N) (all_ids d) /\
  Forall (fun c => Forall (fun p => NoDup (map (fun x => index_key p (doc_fields x)) (coll_docs d c)))
                          (sch_unique (schema_of c))) collections.
End Docs.

(** ** Lemmas *)

Section StoreLemmas.
Context `{EksBlowfish} `{ResourceModels}.

Lemma email_taken_spec (d : db) (e : string) :
  email_taken d e = true <-> e ∈ map u_email (db_users d).
Proof.
  unfold email_taken. rewrite existsb_exists, list_elem_of_fmap.
  split.
  - intros (u & Hu%list_elem_of_In & He%bool_decide_eq_true). eauto.
  - intros (u & -> & Hu). exists u. split; [by apply list_elem_of_In|].
    by apply bool_decide_eq_true.
Qed.

Lemma save_user_inr (d d' : db) (name email : jval) (pw : digest) (u : user) :
  save_user d name email pw = inr (d', u) <->
  validate_path "name" name = inr (u_name u) /\
  validate_path "email" email = inr (u_email u) /\
  email_taken d (u_email u) = false /\
  u = mk_user (db_next_oid d) (u_name u) (u_email u) pw /\
  d' = insert_user d u.
Proof.
  unfold save_user.
  destruct (validate_path "name" name) as [|n] eqn:Hn; simpl; [split; [done|naive_solver]|].
  destruct (validate_path "email" email) as [|e] eqn:He; simpl; [split; [done|naive_solver]|].
  destruct (email_taken d e) eqn:Ht.
  - split; [done|]. intros (Hn' & He' & Ht' & _). simplify_eq. congruence.
  - split; [intros Heq; injection Heq as <- <-; naive_solver|].
    intros (Hn' & He' & _ & Hu & ->). simplify_eq. by rewrite Hu.
Qed.

(** The insert keeps the store well formed: the unique index refuses a
    taken e-mail and the new id is fresh. *)
Lemma all_ids_insert_user (d : db) (u : user) :
  all_ids (insert_user d u) ≡ₚ u_id u :: all_ids d.
Proof.
  unfold all_ids, insert_user; simpl. rewrite map_app, <- app_assoc. simpl.
  symmetry. apply Permutation_middle.
Qed.

Lemma coll_docs_insert_user (d : db) (u : user) (c : collection) :
  coll_docs (insert_user d u) c = coll_docs d c.
Proof. by destruct c. Qed.

(** A fresh id below the allocator: the ids stay distinct and below the
    incremented allocator. *)
Lemma ids_fresh (ids ids' : list oid) (n : oid) :
  ids' ≡ₚ n :: ids -> NoDup ids -> Forall (fun i => (i < n)%N) ids ->
  NoDup ids' /\ Forall (fun i => (i < n + 1)%N) ids'.
Proof.
  intros Hp Hnd Hlt. rewrite Forall_forall in Hlt. split.
  - eapply NoDup_Permutation_cons; [done| |done]. intros Hn%Hlt. lia.
  - apply Forall_forall. intros i Hi. rewrite Hp in Hi.
    apply elem_of_cons in Hi as [->|Hi%Hlt]; lia.
Qed.

Lemma save_user_wf (d d' : db) (name email : jval) (pw : digest) (u : user) :
  db_wf d -> save_user d name email pw = inr (d', u) -> db_wf d'.
Proof.
  intros (He & Hi & Hlt & Hu) (_ & _ & Ht & Hueq & ->)%save_user_inr.
  assert (u_id u = db_next_oid d) as Hid by (rewrite Hueq; done).
  destruct (ids_fresh (all_ids d) (all_ids (insert_user d u)) (db_next_oid d))
    as [Hi' Hlt']; [by rewrite all_ids_insert_user, Hid|done|done|].
  split_and!; [|done|done|].
  - simpl. rewrite map_app. apply NoDup_app. split_and!; [done| |by apply NoDup_singleton].
    intros x Hx ->%list_elem_of_singleton.
    apply not_true_iff_false in Ht. apply Ht, email_taken_spec, Hx.
  - eapply Forall_impl; [exact Hu|]. intros c Hc. by rewrite coll_docs_insert_user.
Qed.

(** A taken e-mail: [save] fails with the duplicate-key error and the
    store is left as it was. *)
Lemma save_user_taken (d : db) (name email : jval) (pw : digest) (n e : string) :
  validate_path "name" name = inr n -> validate_path "email" email = inr e ->
  e ∈ map u_email (db_users d) ->
  save_user d name email pw =
  inl ("E11000 duplicate key error collection: users index: email_1 dup key: { email: " +:+ e +:+ " }").
Proof.
  intros Hn He Ht%email_taken_spec. unfold save_user. by rewrite Hn, He; simpl; rewrite Ht.
Qed.

Lemma findById_Some (d : db) (id : oid) (u : user) :
  findById d id = Some u -> u ∈ db_users d /\ u_id u = id.
Proof. intros [? ?%bool_decide_eq_true]%find_first_Some. done. Qed.

(** A string e-mail is an equality query. *)
Lemma findOne_email_str (d : db) (s : string) :
  findOne_email d (JStr s) = inr (find_first (fun u => bool_decide (u_email u = s)) (db_users d)).
Proof. done. Qed.

(** In a well-formed store the user found by a string e-mail is the one
    user with that e-mail. *)
Lemma findOne_email_str_unique (d : db) (s : string) (u : user) :
  db_wf d -> u ∈ db_users d -> u_email u = s ->
  findOne_email d (JStr s) = inr (Some u).
Proof.
  intros (He & _ & _) Hu Hs. rewrite findOne_email_str. f_equal.
  by rewrite (find_first_key u_email _ u s).
Qed.

Lemma findOne_email_str_None (d : db) (s : string) :
  s ∉ map u_email (db_users d) -> findOne_email d (JStr s) = inr None.
Proof.
  intros Hs. rewrite findOne_email_str. f_equal. apply find_first_None.
  apply Forall_forall. intros u Hu. apply bool_decide_eq_false.
  intros <-. apply Hs, list_elem_of_fmap. eauto.
Qed.
End StoreLemmas.

#[export] Hint Resolve save_user_wf : wk.

Lemma validate_path_str (path s : string) :
  s <> "" -> validate_path path (JStr s) = inr s.
Proof. intros Hs. unfold validate_path. simpl. by rewrite bool_decide_eq_false_2. Qed.

Lemma email_taken_false `{EksBlowfish} (d : db) (e : string) :
  e ∉ map u_email (db_users d) -> email_taken d e = false.
Proof. intros He. apply not_true_iff_false. by rewrite email_taken_spec. Qed.

#[export] Hint Resolve validate_path_str email_taken_false : wk.

Lemma find_first_exists {A} (f : A -> bool) (l : list A) (x : A) :
  x ∈ l -> f x = true -> exists y, find_first f l = Some y.
Proof.
  induction l as [|z l IH]; simpl; [by intros ?%elem_of_nil|].
  intros [->|Hx]%elem_of_cons Hf; [rewrite Hf; eauto|].
  destruct (f z); eauto.
Qed.

(** A string e-mail in the store: [findOne] finds a user. *)
Lemma findOne_email_str_found `{EksBlowfish} (d : db) (s : string) :
  s ∈ map u_email (db_users d) -> exists u, findOne_email d (JStr s) = inr (Some u).
Proof.
  intros (u & -> & Hu)%list_elem_of_fmap. rewrite findOne_email_str.
  destruct (find_first_exists (fun v => bool_decide (u_email v = u_email u)) _ u Hu)
    as [v Hv]; [by apply bool_decide_eq_true|].
  rewrite Hv. eauto.
Qed.

#[export] Instance db_wf_dec `{EksBlowfish} `{ResourceModels} (d : db) : Decision (db_wf d).
Proof. unfold db_wf. apply _. Defined.

(** ** Documents keep the store well formed *)

Section DocLemmas.
Context `{EksBlowfish} `{ResourceModels}.

Lemma coll_docs_insert_doc (d : db) (c c' : collection) (x : doc) :
  coll_docs (insert_doc d c x) c' =
  if bool_decide (c' = c) then coll_docs d c' ++ [x] else coll_docs d c'.
Proof. by destruct c'. Qed.

Lemma all_ids_insert_doc (d : db) (c : collection) (x : doc) :
  all_ids (insert_doc d c x) ≡ₚ doc_id x :: all_ids d.
Proof.
  unfold all_ids, insert_doc. simpl.
  destruct c; repeat case_bool_decide; try congruence;
    rewrite !map_app; simpl; solve_Permutation.
Qed.

Lemma unique_conflict_None (docs : list doc) (ps : list string) (f : list (string * jval)) :
  unique_conflict docs ps f = None <->
  Forall (fun p => index_key p f ∉ map (fun x => index_key p (doc_fields x)) docs) ps.
Proof.
  unfold unique_conflict. rewrite find_first_None.
  split; intros Hf; eapply Forall_impl; try exact Hf; intros p Hp.
  - by apply bool_decide_eq_false in Hp.
  - by apply bool_decide_eq_false.
Qed.

Lemma save_doc_inr (d d' : db) (c : collection) (now : Z) (body : jval) (x : doc) :
  save_doc d c now body = inr (d', x) <->
  exists fields, sch_build (schema_of c) now body = inr fields /\
    unique_conflict (coll_docs d c) (sch_unique (schema_of c)) fields = None /\
    x = mk_doc (db_next_oid d) fields /\ d' = insert_doc d c x.
Proof.
  unfold save_doc. destruct (sch_build (schema_of c) now body) as [e|f]; simpl.
  - split; [done|]. by intros (? & ? & _).
  - destruct (unique_conflict _ _ f) eqn:Hu; split.
    + done.
    + intros (? & [= <-] & ? & _). congruence.
    + intros [= <- <-]. eauto.
    + intros (? & [= <-] & _ & -> & ->). done.
Qed.

Lemma save_doc_wf (d d' : db) (c : collection) (now : Z) (body : jval) (x : doc) :
  db_wf d -> save_doc d c now body = inr (d', x) -> db_wf d'.
Proof.
  intros (He & Hi & Hlt & Hu) (f & _ & Hc & -> & ->)%save_doc_inr.
  destruct (ids_fresh (all_ids d) (all_ids (insert_doc d c (mk_doc (db_next_oid d) f)))
              (db_next_oid d)) as [Hi' Hlt']; [by rewrite all_ids_insert_doc|done|done|].
  split_and!; [done|done|done|].
  apply unique_conflict_None in Hc.
  rewrite Forall_forall in Hu |- *. intros c' Hc'. rewrite coll_docs_insert_doc.
  case_bool_decide as Heq; [subst c'|by apply Hu].
  specialize (Hu c Hc'). rewrite Forall_forall in Hu, Hc |- *. intros p Hp.
  rewrite map_app. apply NoDup_app. split_and!; [by apply Hu| |by apply NoDup_singleton].
  intros k Hk ->%list_elem_of_singleton. by apply (Hc p Hp).
Qed.

(** ** Populate *)

Lemma db_wf_user_ids (d : db) : db_wf d -> NoDup (map u_id (db_users d)).
Proof. intros (_ & Hids & _). unfold all_ids in Hids. by apply NoDup_app in Hids as [? _]. Qed.

(** An owner reference names a user iff it is a string that casts to
    that user's [_id]. *)
Lemma find_user_hex_Some (d : db) (v : jval) (u : user) :
  db_wf d ->
  find_user_hex d v = Some u <->
  u ∈ db_users d /\ exists h, v = JStr h /\ oid_of_hex h = Some (u_id u).
Proof.
  intros Hwf. split.
  - destruct v as [| | | |h| |]; simpl; try done.
    destruct (oid_of_hex h) as [n|] eqn:Hh; simpl; [|done].
    intros (Hu & Hn%bool_decide_eq_true)%find_first_Some. subst n. eauto.
  - intros (Hu & h & -> & Hh). simpl. rewrite Hh. simpl.
    apply find_first_key; [by apply db_wf_user_ids|done|done].
Qed.

Lemma assoc_last_set_field (k : string) (v : jval) (kvs : list (string * jval)) :
  assoc_last k (set_field k v kvs) = (fun _ => v) <$> assoc_last k kvs.
Proof.
  unfold assoc_last, set_field. rewrite <- map_rev.
  induction (rev kvs) as [|[k' x] l IH]; simpl; [done|].
  destruct (String.eqb k' k) eqn:E; simpl; rewrite ?String.eqb_refl, ?E; simpl; done.
Qed.

Lemma populate_owners_arr (d : db) (x : doc) (ids : list jval) :
  assoc_last "owners" (doc_fields x) = Some (JArr ids) ->
  assoc_last "owners" (doc_fields (populate_owners d x)) =
  Some (JArr (omap (fun v => owner_json <$> find_user_hex d v) ids)).
Proof. intros Hx. unfold populate_owners. rewrite Hx. simpl. by rewrite assoc_last_set_field, Hx. Qed.
End DocLemmas.

#[export] Hint Resolve save_doc_wf : wk.
