(* ===== verification/Program.v ===== *)
(** * Handlers as programs of awaited operations

    An [async] Express handler runs until its next [await], yields, and
    resumes with the settled promise: a value, or an exception thrown at
    the [await].  A handler is modelled as an await tree ([prog]): it
    answers ([PRet]), throws ([PThrow]), or awaits one operation ([PAwait])
    and continues with its outcome.  [try { ... } catch (e) { ... }] is the
    transformation [try_catch]; an exception that escapes the handler is an
    unhandled rejection, which Express 4 does not turn into a response
    ([Unhandled]: the request is never answered); what it does to the
    process, which Node 15 and later ends with status 1, is modelled in
    [Process].

    The operations ([op]) are the awaited calls of index.js: the Mongoose
    calls on users, [bcrypt.hash] and [bcrypt.compare], and the clock read
    by [jwt.sign].  [exec_op] performs one on the world (the database, the
    clock, and the position in the stream of random salts bcrypt draws
    from); [run] performs a whole program, one operation after the other.
    Programs are finite trees, so [run] is structural: every handler
    terminates. *)

From S2P Require Import Prelude Json Hasher Resources Store.

Section Program.
Context `{EksBlowfish} `{ResourceModels}.

Inductive op : Type :=
| OpFindOneUser (email : jval)                    (* User.findOne({ email }) *)
| OpFindUserById (id : oid)                       (* User.findById(id).select("-password") *)
| OpSaveUser (name email : jval) (pw : digest)    (* new User({...}).save() *)
| OpFindUsers                                     (* User.find().select("-password") *)
| OpHash (password : jval)                        (* bcrypt.hash(password, 10) *)
| OpCompare (password : jval) (d : digest)        (* bcrypt.compare(password, hash) *)
| OpNow                                           (* Date.now(), read by jwt.sign *)
| OpFindDocs (c : collection) (populate : bool)   (* Model.find(), .populate("owners", ...) *)
| OpSaveDoc (c : collection) (body : jval)        (* new Model(req.body).save() *)
| OpPopulate (x : doc).                           (* doc.populate("owners", "name email") *)

Definition ret_ty (o : op) : Type :=
  match o with
  | OpFindOneUser _ | OpFindUserById _ => option user
  | OpSaveUser _ _ _ => user
  | OpFindUsers => list user
  | OpHash _ => digest
  | OpCompare _ _ => bool
  | OpNow => Z
  | OpFindDocs _ _ => list doc
  | OpSaveDoc _ _ => doc
  | OpPopulate _ => doc
  end.

Inductive prog : Type :=
| PRet (r : response)
| PThrow (e : string)
| PAwait (o : op) (k : string + ret_ty o -> prog).

(** [const v = await o; k(v)]: a rejected promise throws at the await. *)
Definition await (o : op) (k : ret_ty o -> prog) : prog :=
  PAwait o (fun r => match r with inl e => PThrow e | inr v => k v end).

Fixpoint try_catch (p : prog) (h : string -> prog) : prog :=
  match p with
  | PRet r => PRet r
  | PThrow e => h e
  | PAwait o k => PAwait o (fun r => try_catch (k r) h)
  end.

Inductive outcome :=
| Responded (r : response)
| Unhandled (e : string).

Record world := mk_world {
  w_db : db;
  w_now : Z;          (* Date.now(), in milliseconds *)
  w_salts : nat       (* salts drawn so far by bcrypt's generator *)
}.

(** The n-th salt bcrypt's random generator yields. *)
Variable salt_of : nat -> bc_salt.

Definition buffering_timeout (what : string) : string :=
  "Operation `" +:+ what +:+ "` buffering timed out after 10000ms".

Definition set_db (w : world) (d : db) : world := mk_world d (w_now w) (w_salts w).

(** One operation, atomically.  With the connection down every Mongoose
    call fails after buffering; bcrypt draws a salt only for a string
    password. *)
Definition exec_op (w : world) (o : op) : world * (string + ret_ty o) :=
  let d := w_db w in
  match o as o0 return world * (string + ret_ty o0) with
  | OpFindOneUser e =>
      (w, if db_up d then findOne_email d e else inl (buffering_timeout "users.findOne()"))
  | OpFindUserById id =>
      (w, if db_up d then inr (findById d id) else inl (buffering_timeout "users.findOne()"))
  | OpSaveUser n e pw =>
      if db_up d then
        match save_user d n e pw with
        | inl err => (w, inl err)
        | inr (d', u) => (set_db w d', inr u)
        end
      else (w, inl (buffering_timeout "users.insertOne()"))
  | OpFindUsers =>
      (w, if db_up d then inr (db_users d) else inl (buffering_timeout "users.find()"))
  | OpHash pw =>
      match bcrypt_hash_js pw 10 (salt_of (w_salts w)) with
      | inl err => (w, inl err)
      | inr dg => (mk_world d (w_now w) (S (w_salts w)), inr dg)
      end
  | OpCompare pw dg => (w, bcrypt_compare_js pw dg)
  | OpNow => (w, inr (w_now w))
  | OpFindDocs c pop =>
      (w, if db_up d
          then inr (if pop then map (populate_owners d) (coll_docs d c) else coll_docs d c)
          else inl (buffering_timeout (sch_collection (schema_of c) +:+ ".find()")))
  | OpSaveDoc c body =>
      if db_up d then
        match save_doc d c (w_now w) body with
        | inl err => (w, inl err)
        | inr (d', x) => (set_db w d', inr x)
        end
      else (w, inl (buffering_timeout (sch_collection (schema_of c) +:+ ".insertOne()")))
  | OpPopulate x =>
      (w, if db_up d then inr (populate_owners d x) else inl (buffering_timeout "users.find()"))
  end.

(** A handler run to its end with no other request in between. *)
Fixpoint run (w : world) (p : prog) : world * outcome :=
  match p with
  | PRet r => (w, Responded r)
  | PThrow e => (w, Unhandled e)
  | PAwait o k => let '(w', r) := exec_op w o in run w' (k r)
  end.

(** Every answer a program can give satisfies [P]: a property of the
    [res.status(...).json(...)] calls of a handler, whatever its awaited
    operations return. *)
Fixpoint answers_in (P : response -> Prop) (p : prog) : Prop :=
  match p with
  | PRet r => P r
  | PThrow _ => True
  | PAwait o k => forall r, answers_in P (k r)
  end.

(** ** Lemmas *)

Lemma run_await (w : world) (o : op) (k : ret_ty o -> prog) :
  run w (await o k) =
  let '(w', r) := exec_op w o in
  match r with inl e => (w', Unhandled e) | inr v => run w' (k v) end.
Proof. simpl. destruct (exec_op w o) as [w' [e|v]]; done. Qed.

(** A [catch] sees the exception the body throws, in the world the body
    left. *)
Lemma run_try_catch (w : world) (p : prog) (h : string -> prog) :
  run w (try_catch p h) =
  match run w p with
  | (w', Responded r) => (w', Responded r)
  | (w', Unhandled e) => run w' (h e)
  end.
Proof.
  revert w. induction p as [r|e|o k IH]; intros w; simpl; [done|done|].
  destruct (exec_op w o) as [w' r]. apply IH.
Qed.

Lemma answers_in_await (P : response -> Prop) (o : op) (k : ret_ty o -> prog) :
  (forall v, answers_in P (k v)) -> answers_in P (await o k).
Proof. intros Hk [e|v]; simpl; auto. Qed.

Lemma answers_in_try_catch (P : response -> Prop) (p : prog) (h : string -> prog) :
  answers_in P p -> (forall e, answers_in P (h e)) -> answers_in P (try_catch p h).
Proof. induction p as [r|e|o k IH]; simpl; auto. Qed.

Lemma answers_in_run (P : response -> Prop) (w : world) (p : prog) :
  answers_in P p ->
  match (run w p).2 with Responded r => P r | Unhandled _ => True end.
Proof.
  revert w. induction p as [r|e|o k IH]; intros w; simpl; [done|done|].
  intros Hk. destruct (exec_op w o) as [w' r]. by apply IH.
Qed.

(** No operation moves the clock: a handler reads one [Date.now()]. *)
Lemma exec_op_now (w : world) (o : op) : w_now (exec_op w o).1 = w_now w.
Proof. destruct o; simpl; repeat case_match; simplify_eq/=; done. Qed.

Lemma run_now (w : world) (p : prog) : w_now (run w p).1 = w_now w.
Proof.
  revert w. induction p as [r|e|o k IH]; intros w; simpl; [done|done|].
  pose proof (exec_op_now w o) as Hn. destruct (exec_op w o) as [w' r]. by rewrite IH.
Qed.

(** Every operation keeps the store well formed: the only write is
    [save_user]. *)
Lemma exec_op_wf (w : world) (o : op) :
  db_wf (w_db w) -> db_wf (w_db (exec_op w o).1).
Proof.
  intros Hwf. destruct o; simpl; try done.
  - destruct (db_up (w_db w)); [|done].
    destruct (save_user _ _ _ _) as [|[d' u]] eqn:Hs; [done|]. simpl. eauto with wk.
  - by destruct (bcrypt_hash_js _ _ _).
  - destruct (db_up (w_db w)); [|done].
    destruct (save_doc _ _ _ _) as [|[d' x]] eqn:Hs; [done|]. simpl. eauto with wk.
Qed.

(** No operation removes or rewrites a stored user: the users only grow
    (no route of index.js updates or deletes one). *)
Lemma exec_op_users_prefix (w : world) (o : op) :
  db_users (w_db w) `prefix_of` db_users (w_db (exec_op w o).1).
Proof.
  destruct o; simpl; try done.
  - destruct (db_up (w_db w)); [|done].
    destruct (save_user _ _ _ _) as [|[d' u]] eqn:Hs; [done|]. simpl.
    apply save_user_inr in Hs as (_ & _ & _ & _ & ->). by apply prefix_app_r.
  - by destruct (bcrypt_hash_js _ _ _).
  - destruct (db_up (w_db w)); [|done].
    destruct (save_doc _ _ _ _) as [|[d' x]] eqn:Hs; [done|]. simpl.
    by apply save_doc_inr in Hs as (? & _ & _ & _ & ->).
Qed.

(** C1: every handler program, run to its end, leaves a well-formed
    store well formed: no two users share an e-mail, no two documents an
    id, and no unique index a key, whatever the request (the unique
    indexes are the only guard of spec.md §3). *)
Theorem run_wf (w : world) (p : prog) :
  db_wf (w_db w) -> db_wf (w_db (run w p).1).
Proof.
  revert w. induction p as [r|e|o k IH]; intros w Hwf; simpl; [done|done|].
  pose proof (exec_op_wf w o Hwf) as Hw'.
  destruct (exec_op w o) as [w' r]. by apply IH.
Qed.
(** C29: two calls of [bcrypt.hash] on the same password draw two
    salts, so they yield two different digests, and the password
    verifies against both (spec.md §8.1), for a salt generator that
    never repeats a salt. *)
Theorem hash_twice_distinct (w : world) (p : string) :
  (forall n m, salt_of n = salt_of m -> n = m) ->
  match exec_op w (OpHash (JStr p)) with
  | (w1, inr d1) =>
      match exec_op w1 (OpHash (JStr p)) with
      | (_, inr d2) => d1 <> d2 /\ bcrypt_compare p d1 = true /\ bcrypt_compare p d2 = true
      | _ => False
      end
  | _ => False
  end.
Proof.
  intros Hinj. simpl. split_and!; [|by apply bcrypt_compare_spec ..].
  intros [= Hs _]. apply Hinj in Hs. lia.
Qed.
End Program.

Arguments op {_}.
Arguments prog {_}.
Arguments world {_}.

(** A store that gains a user through a program stays well formed. *)
Lemma run_wf_witness :
  let w0 := @mk_world transparent_eks (mk_db [] [] [] [] [] 0%N true) 0%Z 0 in
  db_wf (w_db w0) /\
  db_wf (w_db (run (fun n => n) w0
    (await (OpSaveUser (JStr "Bob") (JStr "bob@x.com") (bcrypt_hash 10 0 "pw"))
           (fun _ => PRet (res_json JNull)))).1).
Proof. intros w0. split; [decide_goal | apply run_wf; decide_goal]. Defined.

(** A generator that yields the salts 0, 1, 2, ... *)
Definition counter_salts : nat -> @bc_salt transparent_eks := fun n => n.

(** Two hashes of "pw" with the salts 0 and 1. *)
Lemma hash_twice_distinct_witness :
  let w0 := @mk_world transparent_eks (mk_db [] [] [] [] [] 0%N true) 0%Z 0 in
  (forall n m, counter_salts n = counter_salts m -> n = m) /\
  match exec_op counter_salts w0 (OpHash (JStr "pw")) with
  | (w1, inr d1) =>
      match exec_op counter_salts w1 (OpHash (JStr "pw")) with
      | (_, inr d2) => d1 <> d2 /\ bcrypt_compare "pw" d1 = true /\ bcrypt_compare "pw" d2 = true
      | _ => False
      end
  | _ => False
  end.
Proof. intros w0. split; [done|]. apply hash_twice_distinct. done. Defined.
