(* ===== verification/Handlers.v ===== *)
(** * The route handlers of index.js

    Each handler is the await tree of its [async (req, res) => ...] body,
    read line by line from index.js: the destructuring of [req.body], the
    guards with their early [return res.status(..).json(..)], every
    [await], and the [try]/[catch] that turns an exception into a 500
    answer.  The handlers that run behind [verifyToken] take the
    identity the gate put in [req.userId]. *)

From S2P Require Import Prelude Json Hasher Token Resources Store Program.

Section Handlers.
Context `{EksBlowfish} `{TokenCodec} `{ResourceModels}.

(** The TypeError of [const { k, ... } = req.body] on an undefined body. *)
Definition destructure_error (k : string) : string :=
  "Cannot destructure property '" +:+ k +:+ "' of 'req.body' as it is undefined.".

Definition server_error (err : string) : prog := PRet (mk_response 500 (err_body err)).

(** [POST /signup], index.js 36-54. *)
Definition signup (body : jval) : prog :=
  try_catch
    (match get_prop body "name", get_prop body "email", get_prop body "password" with
     | Some name, Some email, Some password =>
         if negb (truthy name) || negb (truthy email) || negb (truthy password)
         then PRet (mk_response 400 (msg_body "All fields are required"))
         else
           await (OpFindOneUser email) (fun existingUser =>
           match existingUser with
           | Some _ => PRet (mk_response 400 (msg_body "User already exists"))
           | None =>
               await (OpHash password) (fun hashedPassword =>
               await (OpSaveUser name email hashedPassword) (fun _ =>
               PRet (mk_response 201 (msg_body "Signup successful! Please login."))))
           end)
     | _, _, _ => PThrow (destructure_error "name")
     end)
    server_error.

(** The [user] object of the login answer: [{ id, name, email }]. *)
Definition login_user_json (u : user) : jval :=
  JObj [("id", oid_json (u_id u)); ("name", JStr (u_name u)); ("email", JStr (u_email u))].

(** [jwt.sign] reads the clock synchronously; it is not an interleaving
    point of the source, and reading it is atomic. *)
Definition read_clock (k : Z -> prog) : prog := await OpNow k.

(** [POST /login], index.js 57-79; [secret] is [process.env.JWT_SECRET]. *)
Definition login (secret : option string) (body : jval) : prog :=
  try_catch
    (match get_prop body "email", get_prop body "password" with
     | Some email, Some password =>
         await (OpFindOneUser email) (fun found =>
         match found with
         | None => PRet (mk_response 404 (msg_body "User not found"))
         | Some u =>
             await (OpCompare password (u_password u)) (fun validPassword =>
             if negb validPassword
             then PRet (mk_response 401 (msg_body "Invalid credentials"))
             else
               read_clock (fun now =>
               match jwt_sign secret (sign_payload (u_id u) now) with
               | inl err => PThrow err
               | inr token =>
                   PRet (res_json (JObj [("message", JStr "Login successful");
                                         ("token", JStr (encode_token token));
                                         ("user", login_user_json u)]))
               end))
         end)
     | _, _ => PThrow (destructure_error "email")
     end)
    server_error.

(** A user document with [.select("-password")], as [res.json] prints
    it: [_id], [name], [email] and Mongoose's version key [__v]. *)
Definition user_public_json (u : user) : jval :=
  JObj [("_id", oid_json (u_id u)); ("name", JStr (u_name u));
        ("email", JStr (u_email u)); ("__v", JNum 0)].

(** [GET /me], index.js 82-85: no [try], so a failed query is an
    unhandled rejection; an unknown id answers [null]. *)
Definition me (userId : oid) : prog :=
  await (OpFindUserById userId) (fun user =>
  PRet (res_json (match user with Some u => user_public_json u | None => JNull end))).

(** [GET /users], index.js 90-92. *)
Definition users (userId : oid) : prog :=
  await OpFindUsers (fun us => PRet (res_json (JArr (map user_public_json us)))).
End Handlers.

(** ** Signup *)

Lemma truthy_JStr (s : string) : s <> "" -> truthy (JStr s) = true.
Proof. intros Hs. by apply truthy_str. Qed.

#[export] Hint Resolve truthy_JStr : wk.

Section SignupTheorems.
Context `{EksBlowfish} `{TokenCodec} `{ResourceModels} (salt_of : nat -> bc_salt).

(** The three fields of a signup body. *)
Definition signup_fields (body : jval) (name email password : jval) : Prop :=
  get_prop body "name" = Some name /\ get_prop body "email" = Some email /\
  get_prop body "password" = Some password.

Lemma signup_unfold (body name email password : jval) :
  signup_fields body name email password ->
  signup body =
  try_catch
    (if negb (truthy name) || negb (truthy email) || negb (truthy password)
     then PRet (mk_response 400 (msg_body "All fields are required"))
     else await (OpFindOneUser email) (fun existingUser =>
          match existingUser with
          | Some _ => PRet (mk_response 400 (msg_body "User already exists"))
          | None => await (OpHash password) (fun hashedPassword =>
                    await (OpSaveUser name email hashedPassword) (fun _ =>
                    PRet (mk_response 201 (msg_body "Signup successful! Please login."))))
          end))
    server_error.
Proof. intros (Hn & He & Hp). unfold signup. by rewrite Hn, He, Hp. Qed.

(** C19: a body with a falsy [name], [email] or [password] ([undefined],
    [null], [false], [0] or [""]) is answered 400 "All fields are
    required" before any database access (index.js 39-40). *)
Theorem signup_missing_field (w : world) (body name email password : jval) :
  signup_fields body name email password ->
  truthy name = false \/ truthy email = false \/ truthy password = false ->
  run salt_of w (signup body) =
  (w, Responded (mk_response 400 (msg_body "All fields are required"))).
Proof.
  intros Hf Hfalse. rewrite (signup_unfold _ _ _ _ Hf).
  destruct Hfalse as [-> | [-> | ->]]; simpl; [done| |];
    by rewrite ?orb_true_r.
Qed.

(** C3: signing up with an e-mail already in the store answers 400
    "User already exists" and leaves the world unchanged: no second
    record (spec.md §8.6). *)
Theorem signup_existing_user (w : world) (body name password : jval) (e : string) :
  signup_fields body name (JStr e) password -> truthy name = true ->
  e <> "" -> truthy password = true -> db_up (w_db w) = true ->
  e ∈ map u_email (db_users (w_db w)) ->
  run salt_of w (signup body) =
  (w, Responded (mk_response 400 (msg_body "User already exists"))).
Proof.
  intros Hf Hn He Hp Hup Hin. rewrite (signup_unfold _ _ _ _ Hf).
  rewrite Hn, Hp, (truthy_JStr e He). simpl. rewrite Hup.
  destruct (findOne_email_str_found _ _ Hin) as [u ->]. done.
Qed.

(** C4: a signup with non-empty string fields and a new e-mail hashes
    the password with cost 10 and the next salt, appends the user with
    the next ObjectId, and answers 201 (index.js 46-50). *)
Theorem signup_creates_user (w : world) (body : jval) (n e p : string) :
  signup_fields body (JStr n) (JStr e) (JStr p) ->
  n <> "" -> e <> "" -> p <> "" -> db_up (w_db w) = true ->
  e ∉ map u_email (db_users (w_db w)) ->
  run salt_of w (signup body) =
  (mk_world
     (insert_user (w_db w) (mk_user (db_next_oid (w_db w)) n e (bcrypt_hash 10 (salt_of (w_salts w)) p)))
     (w_now w) (S (w_salts w)),
   Responded (mk_response 201 (msg_body "Signup successful! Please login."))).
Proof.
  intros Hf Hn He Hp Hup Hnot. rewrite (signup_unfold _ _ _ _ Hf).
  rewrite !truthy_JStr by done. simpl. rewrite Hup, findOne_email_str_None by done.
  simpl. rewrite Hup. unfold save_user. simpl.
  rewrite !validate_path_str by done. simpl. rewrite email_taken_false by done.
  done.
Qed.
End SignupTheorems.

(** ** Login *)

Section LoginTheorems.
Context `{EksBlowfish} `{TokenCodec} `{ResourceModels} (salt_of : nat -> bc_salt).

Definition login_fields (body : jval) (email password : jval) : Prop :=
  get_prop body "email" = Some email /\ get_prop body "password" = Some password.

Lemma login_unfold (secret : option string) (body email password : jval) :
  login_fields body email password ->
  login secret body =
  try_catch
    (await (OpFindOneUser email) (fun found =>
     match found with
     | None => PRet (mk_response 404 (msg_body "User not found"))
     | Some u =>
         await (OpCompare password (u_password u)) (fun validPassword =>
         if negb validPassword
         then PRet (mk_response 401 (msg_body "Invalid credentials"))
         else read_clock (fun now =>
              match jwt_sign secret (sign_payload (u_id u) now) with
              | inl err => PThrow err
              | inr token =>
                  PRet (res_json (JObj [("message", JStr "Login successful");
                                        ("token", JStr (encode_token token));
                                        ("user", login_user_json u)]))
              end))
     end))
    server_error.
Proof. intros (He & Hp). unfold login. by rewrite He, Hp. Qed.

(** The answer of a successful login. *)
Definition login_ok_json (k : string) (u : user) (now_ms : Z) : jval :=
  JObj [("message", JStr "Login successful");
        ("token", JStr (encode_token (mk_token (sign_payload (u_id u) now_ms)
                                               (hmac k (sign_payload (u_id u) now_ms)))));
        ("user", login_user_json u)].

(** C18: a login whose e-mail matches no user answers 404 "User not
    found" and changes nothing (index.js 60-61). *)
Theorem login_user_not_found (secret : option string) (w : world) (body password : jval) (s : string) :
  login_fields body (JStr s) password -> db_up (w_db w) = true ->
  s ∉ map u_email (db_users (w_db w)) ->
  run salt_of w (login secret body) =
  (w, Responded (mk_response 404 (msg_body "User not found"))).
Proof.
  intros Hf Hup Hs. rewrite (login_unfold _ _ _ _ Hf). simpl.
  by rewrite Hup, findOne_email_str_None.
Qed.

(** C17: the user with the e-mail exists but bcrypt rejects the
    password: 401 "Invalid credentials", nothing changed (index.js
    63-65). *)
Theorem login_wrong_password (secret : option string) (w : world) (body : jval) (u : user) (p : string) :
  login_fields body (JStr (u_email u)) (JStr p) -> db_up (w_db w) = true ->
  db_wf (w_db w) -> u ∈ db_users (w_db w) ->
  bcrypt_compare p (u_password u) = false ->
  run salt_of w (login secret body) =
  (w, Responded (mk_response 401 (msg_body "Invalid credentials"))).
Proof.
  intros Hf Hup Hwf Hu Hc. rewrite (login_unfold _ _ _ _ Hf). simpl.
  rewrite Hup, (findOne_email_str_unique _ _ u Hwf Hu eq_refl). simpl.
  by rewrite Hc.
Qed.

(** C5: with the right password and a secret, login answers 200 with a
    token signed over [{ id: user._id }] at the current clock and the
    projection [{ id, name, email }] of the user, without its password
    hash (index.js 67-75, spec.md §4.6). *)
Theorem login_success (k : string) (w : world) (body : jval) (u : user) (p : string) :
  login_fields body (JStr (u_email u)) (JStr p) -> db_up (w_db w) = true ->
  db_wf (w_db w) -> u ∈ db_users (w_db w) ->
  bcrypt_compare p (u_password u) = true -> k <> "" ->
  run salt_of w (login (Some k) body) =
  (w, Responded (res_json (login_ok_json k u (w_now w)))).
Proof.
  intros Hf Hup Hwf Hu Hc Hk. rewrite (login_unfold _ _ _ _ Hf). simpl.
  rewrite Hup, (findOne_email_str_unique _ _ u Hwf Hu eq_refl). simpl.
  rewrite Hc. simpl. by rewrite bool_decide_eq_false_2.
Qed.

(** C32: without [JWT_SECRET] the server still starts, and a login with
    the right password fails with 500: jsonwebtoken throws inside the
    handler (spec.md §4.3 asks the issuer to refuse to start instead). *)
Theorem login_without_secret (w : world) (body : jval) (u : user) (p : string) :
  login_fields body (JStr (u_email u)) (JStr p) -> db_up (w_db w) = true ->
  db_wf (w_db w) -> u ∈ db_users (w_db w) ->
  bcrypt_compare p (u_password u) = true ->
  run salt_of w (login None body) =
  (w, Responded (mk_response 500 (err_body "secretOrPrivateKey must have a value"))).
Proof.
  intros Hf Hup Hwf Hu Hc. rewrite (login_unfold _ _ _ _ Hf). simpl.
  rewrite Hup, (findOne_email_str_unique _ _ u Hwf Hu eq_refl). simpl.
  by rewrite Hc.
Qed.

(** C33: a login body without a string password, for an existing user,
    is a 500 "Illegal arguments" from bcrypt, not the 401 of a wrong
    password (index.js 63 passes [undefined] on to [bcrypt.compare]). *)
Theorem login_non_string_password (secret : option string) (w : world) (body pw : jval) (u : user) :
  login_fields body (JStr (u_email u)) pw -> db_up (w_db w) = true ->
  db_wf (w_db w) -> u ∈ db_users (w_db w) -> (forall p, pw <> JStr p) ->
  run salt_of w (login secret body) =
  (w, Responded (mk_response 500 (err_body ("Illegal arguments: " +:+ typeof pw +:+ ", string")))).
Proof.
  intros Hf Hup Hwf Hu Hpw. rewrite (login_unfold _ _ _ _ Hf). simpl.
  rewrite Hup, (findOne_email_str_unique _ _ u Hwf Hu eq_refl). simpl.
  unfold bcrypt_compare_js. destruct pw; try done. by destruct (Hpw s).
Qed.
(** C15: the e-mail of the login body goes into the query as it is, so a
    body whose [email] is the operator object [{ "$ne": null }] matches
    the first stored user, whatever their e-mail: whoever knows that
    user's password logs in as them without their e-mail (index.js 60;
    spec.md §4.6 looks the record up by e-mail). *)
Theorem login_operator_injection (k : string) (w : world) (body : jval) (u : user)
    (rest : list user) (p : string) :
  login_fields body (JObj [("$ne", JNull)]) (JStr p) -> db_up (w_db w) = true ->
  db_users (w_db w) = u :: rest ->
  bcrypt_compare p (u_password u) = true -> k <> "" ->
  run salt_of w (login (Some k) body) =
  (w, Responded (res_json (login_ok_json k u (w_now w)))).
Proof.
  intros Hf Hup Hus Hc Hk. rewrite (login_unfold _ _ _ _ Hf). simpl.
  rewrite Hup. unfold findOne_email. rewrite Hus. simpl.
  rewrite Hc. simpl. by rewrite bool_decide_eq_false_2.
Qed.
End LoginTheorems.

(** ** The current user *)

Section MeTheorems.
Context `{EksBlowfish} `{ResourceModels} (salt_of : nat -> bc_salt).

(** C34: [GET /me] answers 200 with the user of the token's id as
    [.select("-password")] prints it: no [password] field, and its id
    under [_id], not the [id] spec.md §8.7 expects. *)
Theorem me_returns_user_without_password (w : world) (uid : oid) (u : user) :
  db_up (w_db w) = true -> findById (w_db w) uid = Some u ->
  run salt_of w (me uid) = (w, Responded (res_json (user_public_json u))) /\
  has_key (user_public_json u) "password" = false /\
  has_key (user_public_json u) "_id" = true /\
  has_key (user_public_json u) "id" = false.
Proof. intros Hup Hf. unfold me. simpl. by rewrite Hup, Hf. Qed.

(** C35: with the database unreachable, [GET /me] never answers: the
    handler has no [try], the rejected query escapes it as an unhandled
    rejection and no response is sent (spec.md §7 asks for a 500); in
    the running server that rejection ends the process
    ([Process.guarded_get_down_crashes]). *)
Theorem me_db_down_unanswered (w : world) (uid : oid) :
  db_up (w_db w) = false ->
  run salt_of w (me uid) = (w, Unhandled (buffering_timeout "users.findOne()")).
Proof. intros Hdown. unfold me. simpl. by rewrite Hdown. Qed.
End MeTheorems.

(** ** Witnesses

    A store holding Ada (spec.md §8.7), under the transparent instances
    of the interfaces; salts are drawn as 0, 1, 2, ... *)

Definition demo_salts : nat -> @bc_salt transparent_eks := fun n => n.
Definition ada : @user transparent_eks :=
  mk_user 0%N "Ada" "ada@x.com" (bcrypt_hash 10 0 "secret123").
Definition demo_world : @world transparent_eks :=
  mk_world (mk_db [ada] [] [] [] [] 1%N true) 1700000000123%Z 1.
Definition demo_body (kvs : list (string * jval)) : jval := JObj kvs.

Lemma signup_missing_field_witness :
  run demo_salts demo_world
    (signup (demo_body [("name", JStr "Bob"); ("email", JStr ""); ("password", JStr "pw")])) =
  (demo_world, Responded (mk_response 400 (msg_body "All fields are required"))).
Proof.
  apply (signup_missing_field demo_salts demo_world _ (JStr "Bob") (JStr "") (JStr "pw"));
    [split_and!; reflexivity | right; left; reflexivity].
Defined.

Lemma signup_existing_user_witness :
  run demo_salts demo_world
    (signup (demo_body [("name", JStr "Eve"); ("email", JStr "ada@x.com"); ("password", JStr "pw")])) =
  (demo_world, Responded (mk_response 400 (msg_body "User already exists"))).
Proof.
  apply (signup_existing_user demo_salts demo_world _ (JStr "Eve") (JStr "pw") "ada@x.com");
    [split_and!; reflexivity | reflexivity | discriminate | reflexivity | reflexivity | decide_goal].
Defined.

(** E-mails are compared as they are written: with [ada@x.com] stored,
    a signup of [Ada@x.com] creates a second account. *)
Lemma signup_creates_user_witness :
  run demo_salts demo_world
    (signup (demo_body [("name", JStr "Ada"); ("email", JStr "Ada@x.com"); ("password", JStr "pw")])) =
  (mk_world (mk_db [ada; mk_user 1%N "Ada" "Ada@x.com" (bcrypt_hash 10 1 "pw")] [] [] [] [] 2%N true)
            1700000000123%Z 2,
   Responded (mk_response 201 (msg_body "Signup successful! Please login."))).
Proof.
  apply (signup_creates_user demo_salts demo_world _ "Ada" "Ada@x.com" "pw");
    [split_and!; reflexivity | discriminate | discriminate | discriminate | reflexivity | decide_goal].
Defined.

Lemma login_user_not_found_witness :
  run demo_salts demo_world
    (login (Some demo_secret) (demo_body [("email", JStr "bob@x.com"); ("password", JStr "pw")])) =
  (demo_world, Responded (mk_response 404 (msg_body "User not found"))).
Proof.
  apply (login_user_not_found demo_salts (Some demo_secret) demo_world _ (JStr "pw") "bob@x.com");
    [split; reflexivity | reflexivity | decide_goal].
Defined.

Lemma login_wrong_password_witness :
  run demo_salts demo_world
    (login (Some demo_secret) (demo_body [("email", JStr "ada@x.com"); ("password", JStr "guess")])) =
  (demo_world, Responded (mk_response 401 (msg_body "Invalid credentials"))).
Proof.
  apply (login_wrong_password demo_salts (Some demo_secret) demo_world _ ada "guess");
    [split; reflexivity | reflexivity | decide_goal | left | vm_compute; reflexivity].
Defined.

Lemma login_success_witness :
  run demo_salts demo_world
    (login (Some demo_secret) (demo_body [("email", JStr "ada@x.com"); ("password", JStr "secret123")])) =
  (demo_world, Responded (res_json (login_ok_json demo_secret ada 1700000000123%Z))).
Proof.
  apply (login_success demo_salts demo_secret demo_world _ ada "secret123");
    [split; reflexivity | reflexivity | decide_goal | left | vm_compute; reflexivity | discriminate].
Defined.

Lemma login_without_secret_witness :
  run demo_salts demo_world
    (login None (demo_body [("email", JStr "ada@x.com"); ("password", JStr "secret123")])) =
  (demo_world, Responded (mk_response 500 (err_body "secretOrPrivateKey must have a value"))).
Proof.
  apply (login_without_secret demo_salts demo_world _ ada "secret123");
    [split; reflexivity | reflexivity | decide_goal | left | vm_compute; reflexivity].
Defined.

Lemma login_non_string_password_witness :
  run demo_salts demo_world
    (login (Some demo_secret) (demo_body [("email", JStr "ada@x.com")])) =
  (demo_world, Responded (mk_response 500 (err_body "Illegal arguments: undefined, string"))).
Proof.
  apply (login_non_string_password demo_salts (Some demo_secret) demo_world _ JUndefined ada);
    [split; reflexivity | reflexivity | decide_goal | left | discriminate].
Defined.

(** Ada's password with the operator object in place of her e-mail. *)
Lemma login_operator_injection_witness :
  run demo_salts demo_world
    (login (Some demo_secret) (demo_body [("email", JObj [("$ne", JNull)]); ("password", JStr "secret123")])) =
  (demo_world, Responded (res_json (login_ok_json demo_secret ada 1700000000123%Z))).
Proof.
  apply (login_operator_injection demo_salts demo_secret demo_world _ ada [] "secret123");
    [split; reflexivity | reflexivity | reflexivity | vm_compute; reflexivity | discriminate].
Defined.

Lemma me_returns_user_without_password_witness :
  run demo_salts demo_world (me 0%N) = (demo_world, Responded (res_json (user_public_json ada))) /\
  has_key (user_public_json ada) "password" = false /\
  has_key (user_public_json ada) "_id" = true /\
  has_key (user_public_json ada) "id" = false.
Proof. apply (me_returns_user_without_password demo_salts); reflexivity. Defined.

Lemma me_db_down_unanswered_witness :
  run demo_salts (mk_world (mk_db [ada] [] [] [] [] 1%N false) 0%Z 0) (me 0%N) =
  (mk_world (mk_db [ada] [] [] [] [] 1%N false) 0%Z 0, Unhandled (buffering_timeout "users.findOne()")).
Proof. apply (me_db_down_unanswered demo_salts). reflexivity. Defined.
