(* ===== verification/ResourceHandlers.v ===== *)
(** * The resource routes of index.js 95-150

    Four collections, each with [GET] (return every document, no [try])
    and [POST] ([new Model(req.body)], [await save()], [res.json(doc)],
    and a [catch] that answers 400 with the error's message).  [GET
    /tasks] populates the owners in the same query.  [POST /tasks]
    differs: after the save it awaits [task.populate(...)] and assigns the
    result to [task], which is declared [const] (index.js 142 and 145).
    JavaScript evaluates the right-hand side and then throws a TypeError
    at the assignment, so the handler reaches its [catch] after the task
    was stored.  The theorems cover each route's answers, and the owners
    [GET /tasks] populates: exactly the stored users the task's references
    name, the others dropped. *)

From S2P Require Import Prelude Json Hasher Token Dates Resources Store Program Handlers.

Section ResourceHandlers.
Context `{EksBlowfish} `{ResourceModels}.

(** [res.json(await Model.find())]. *)
Definition list_docs (c : collection) (populate : bool) : prog :=
  await (OpFindDocs c populate) (fun docs => PRet (res_json (JArr (map doc_json docs)))).

(** [try { const x = new Model(req.body); await x.save(); res.json(x); }
    catch (e) { res.status(400).json({ error: e.message }); }] *)
Definition create_doc (c : collection) (body : jval) : prog :=
  try_catch
    (await (OpSaveDoc c body) (fun x => PRet (res_json (doc_json x))))
    (fun e => PRet (mk_response 400 (err_body e))).

Definition get_projects : prog := list_docs Projects false.        (* index.js 95-97 *)
Definition post_projects (body : jval) : prog := create_doc Projects body.   (* 98-106 *)
Definition get_teams : prog := list_docs Teams false.              (* 109-111 *)
Definition post_teams (body : jval) : prog := create_doc Teams body.         (* 112-120 *)
Definition get_tags : prog := list_docs Tags false.                (* 123-125 *)
Definition post_tags (body : jval) : prog := create_doc Tags body.           (* 126-134 *)
Definition get_tasks : prog := list_docs Tasks true.               (* 137-139 *)

(** The TypeError of [task = ...] on the [const task] of index.js 142. *)
Definition const_assignment_error : string := "Assignment to constant variable.".

(** [POST /tasks], index.js 140-150. *)
Definition post_tasks (body : jval) : prog :=
  try_catch
    (await (OpSaveDoc Tasks body) (fun task =>
     await (OpPopulate task) (fun _populated =>
     PThrow const_assignment_error)))
    (fun e => PRet (mk_response 400 (err_body e))).
End ResourceHandlers.

(** ** Theorems *)

Section ResourceTheorems.
Context `{EksBlowfish} `{ResourceModels} (salt_of : nat -> bc_salt).

Lemma run_create_doc (w : world) (c : collection) (body : jval) :
  db_up (w_db w) = true ->
  run salt_of w (create_doc c body) =
  match save_doc (w_db w) c (w_now w) body with
  | inl e => (w, Responded (mk_response 400 (err_body e)))
  | inr (d', x) => (set_db w d', Responded (res_json (doc_json x)))
  end.
Proof.
  intros Hup. unfold create_doc. rewrite run_try_catch. simpl. rewrite ?Hup.
  by destruct (save_doc _ _ _ _) as [e|[d' x]].
Qed.

(** C21: [POST /projects] with a body the Project schema accepts and a
    name no stored project has stores the document under the next
    ObjectId and answers it (index.js 98-102). *)
Theorem post_projects_creates (w : world) (body : jval) (fields : list (string * jval)) :
  db_up (w_db w) = true ->
  project_build date_parse (w_now w) body = inr fields ->
  index_key "name" fields ∉ map (fun x => index_key "name" (doc_fields x)) (db_projects (w_db w)) ->
  run salt_of w (post_projects body) =
  (set_db w (insert_doc (w_db w) Projects (mk_doc (db_next_oid (w_db w)) fields)),
   Responded (res_json (doc_json (mk_doc (db_next_oid (w_db w)) fields)))).
Proof.
  intros Hup Hb Hn. unfold post_projects. rewrite run_create_doc by done.
  unfold save_doc. simpl. rewrite Hb. simpl.
  replace (unique_conflict _ _ _) with (@None string); [done|].
  symmetry. apply unique_conflict_None. by constructor.
Qed.

(** C22: a project whose name is taken is refused by the unique index:
    400 with MongoDB's E11000 message, nothing stored (index.js 103-105). *)
Theorem post_projects_duplicate_name (w : world) (body : jval) (fields : list (string * jval)) :
  db_up (w_db w) = true ->
  project_build date_parse (w_now w) body = inr fields ->
  index_key "name" fields ∈ map (fun x => index_key "name" (doc_fields x)) (db_projects (w_db w)) ->
  run salt_of w (post_projects body) =
  (w, Responded (mk_response 400
        (err_body "E11000 duplicate key error collection: projects index: name_1 dup key"))).
Proof.
  intros Hup Hb Hn. unfold post_projects. rewrite run_create_doc by done.
  unfold save_doc. simpl. rewrite Hb. simpl. unfold unique_conflict. simpl.
  by rewrite bool_decide_eq_true_2.
Qed.

(** C25: a body the Project schema rejects is answered 400 with the
    ValidationError's message, nothing stored. *)
Theorem post_projects_invalid (w : world) (body : jval) (e : string) :
  db_up (w_db w) = true ->
  project_build date_parse (w_now w) body = inl e ->
  run salt_of w (post_projects body) = (w, Responded (mk_response 400 (err_body e))).
Proof.
  intros Hup Hb. unfold post_projects. rewrite run_create_doc by done.
  unfold save_doc. simpl. by rewrite Hb.
Qed.

(** C23: [POST /tasks] with a valid task stores it and then answers 400
    "Assignment to constant variable.": the client is told the creation
    failed although the task is in the database (index.js 142-148). *)
Theorem post_tasks_stores_then_fails (w : world) (body : jval) (fields : list (string * jval)) :
  db_up (w_db w) = true ->
  sch_build task_schema (w_now w) body = inr fields ->
  unique_conflict (db_tasks (w_db w)) (sch_unique task_schema) fields = None ->
  run salt_of w (post_tasks body) =
  (set_db w (insert_doc (w_db w) Tasks (mk_doc (db_next_oid (w_db w)) fields)),
   Responded (mk_response 400 (err_body const_assignment_error))).
Proof.
  intros Hup Hb Hu. unfold post_tasks. rewrite run_try_catch. simpl. rewrite ?Hup.
  unfold save_doc. simpl. rewrite Hb. simpl. rewrite Hu. simpl.
  unfold insert_doc. simpl. by rewrite Hup.
Qed.

(** C24: [GET /tasks] answers every stored task, in order, with its
    owners populated (index.js 137-139): the owners of a task are exactly
    the stored users whose [_id] one of its owner references casts to,
    each as [_id], [name] and [email] only (no password hash), and a
    reference that names no user is dropped from the array. *)
Theorem get_tasks_owners (w : world) (x : doc) (ids : list jval) :
  db_up (w_db w) = true -> db_wf (w_db w) -> x ∈ db_tasks (w_db w) ->
  assoc_last "owners" (doc_fields x) = Some (JArr ids) ->
  exists owners,
    run salt_of w get_tasks =
      (w, Responded (res_json (JArr (map (fun t => doc_json (populate_owners (w_db w) t))
                                         (db_tasks (w_db w)))))) /\
    assoc_last "owners" (doc_fields (populate_owners (w_db w) x)) = Some (JArr owners) /\
    forall j, j ∈ owners <->
      exists u h, u ∈ db_users (w_db w) /\ JStr h ∈ ids /\ oid_of_hex h = Some (u_id u) /\
                  j = owner_json u.
Proof.
  intros Hup Hwf Hx Hids. eexists. split_and!.
  - unfold get_tasks, list_docs. simpl. rewrite Hup. simpl. by rewrite map_map.
  - by apply populate_owners_arr.
  - intros j. rewrite list_elem_of_omap. split.
    + intros (v & Hv & (u & Hu & ->)%fmap_Some).
      apply find_user_hex_Some in Hu as (Hu & h & -> & Hh); [|done]. eauto 10.
    + intros (u & h & Hu & Hh & Hoid & ->). exists (JStr h). split; [done|].
      apply fmap_Some. exists u. split; [|done]. apply find_user_hex_Some; eauto.
Qed.
End ResourceTheorems.

(** ** Witnesses *)

Definition apollo_fields : list (string * jval) :=
  [("name", JStr "Apollo"); ("status", JStr "Planned"); ("createdAt", JStr (to_iso 1700000000123%Z))].

Definition world_with_apollo : @world transparent_eks :=
  mk_world (mk_db [ada] [mk_doc 1%N apollo_fields] [] [] [] 2%N true) 1700000000123%Z 1.

Lemma post_projects_creates_witness :
  run demo_salts demo_world (post_projects (JObj [("name", JStr "Apollo")])) =
  (set_db demo_world (insert_doc (w_db demo_world) Projects (mk_doc 1%N apollo_fields)),
   Responded (res_json (doc_json (mk_doc 1%N apollo_fields)))).
Proof.
  apply (post_projects_creates demo_salts demo_world _ apollo_fields);
    [reflexivity | vm_compute; reflexivity | decide_goal].
Defined.

Lemma post_projects_duplicate_name_witness :
  run demo_salts world_with_apollo (post_projects (JObj [("name", JStr "Apollo")])) =
  (world_with_apollo, Responded (mk_response 400
     (err_body "E11000 duplicate key error collection: projects index: name_1 dup key"))).
Proof.
  apply (post_projects_duplicate_name demo_salts world_with_apollo _ apollo_fields);
    [reflexivity | vm_compute; reflexivity | decide_goal].
Defined.

Lemma post_projects_invalid_witness :
  run demo_salts demo_world (post_projects (JObj [("description", JStr "no name")])) =
  (demo_world, Responded (mk_response 400
     (err_body "Project validation failed: name: Path `name` is required."))).
Proof. apply post_projects_invalid; [reflexivity | vm_compute; reflexivity]. Defined.

Lemma post_tasks_stores_then_fails_witness :
  run demo_salts demo_world (post_tasks (JObj [("name", JStr "Write spec"); ("owners", JArr [])])) =
  (set_db demo_world (insert_doc (w_db demo_world) Tasks
     (mk_doc 1%N [("name", JStr "Write spec"); ("owners", JArr [])])),
   Responded (mk_response 400 (err_body const_assignment_error))).
Proof.
  apply (post_tasks_stores_then_fails demo_salts demo_world);
    [reflexivity | vm_compute; reflexivity | reflexivity].
Defined.

(** A task owned by Ada (id 0) and by the id 10, which names no user;
    the reference to Ada is written in upper case. *)
Definition write_spec : doc :=
  mk_doc 1%N [("name", JStr "Write spec");
              ("owners", JArr [JStr "000000000000000000000000"; JStr "00000000000000000000000A"])].

Definition world_with_task : @world transparent_eks :=
  mk_world (mk_db [ada] [] [] [] [write_spec] 2%N true) 1700000000123%Z 1.

Lemma get_tasks_owners_witness :
  exists owners,
    run demo_salts world_with_task get_tasks =
      (world_with_task, Responded (res_json (JArr (map (fun t => doc_json (populate_owners (w_db world_with_task) t))
                                                        (db_tasks (w_db world_with_task)))))) /\
    assoc_last "owners" (doc_fields (populate_owners (w_db world_with_task) write_spec)) = Some (JArr owners) /\
    forall j, j ∈ owners <->
      exists u h, u ∈ db_users (w_db world_with_task) /\
        JStr h ∈ [JStr "000000000000000000000000"; JStr "00000000000000000000000A"] /\
        oid_of_hex h = Some (u_id u) /\ j = owner_json u.
Proof.
  apply (get_tasks_owners demo_salts world_with_task write_spec);
    [reflexivity | decide_goal | by left | reflexivity].
Defined.

(** The answer itself: Ada alone, the id 10 dropped. *)
Lemma get_tasks_populated :
  run demo_salts world_with_task get_tasks =
  (world_with_task, Responded (res_json (JArr
     [doc_json (mk_doc 1%N [("name", JStr "Write spec"); ("owners", JArr [owner_json ada])])]))).
Proof. vm_compute. reflexivity. Qed.

