(* ===== verification/App.v ===== *)
(** * The application: routes, the gate, and the server start

    index.js registers one handler per method and path; every route but
    [GET /], [POST /signup] and [POST /login] runs [verifyToken] first,
    which answers 401 itself or passes [req.userId] on.  Express matches
    paths case-insensitively and with an optional trailing slash (its
    defaults); a request no route matches gets Express's 404.  In front
    of the routes, the cors middleware answers preflights and marks every
    other answer as readable from any origin ([serve]).

    [initializeDatabase] (db.connect.js) connects to [process.env.MONGODB]
    and exits the process with status 1 if that fails; only after it
    resolved does index.js call [app.listen(PORT)], with [PORT] defaulting
    to 5000.  [JWT_SECRET] is read only when a token is signed or
    checked. *)

From S2P Require Import Prelude Json Hasher Token Resources Store Program Handlers ResourceHandlers.

(** ** Requests *)

Inductive http_method := GET | POST | PUT | DELETE | OPTIONS.

#[export] Instance http_method_eq_dec : EqDecision http_method.
Proof. solve_decision. Defined.

Record request := mk_request {
  rq_method : http_method;
  rq_path : string;
  rq_auth : option string;      (* the Authorization header *)
  rq_body : jval
}.

Definition ascii_lower (c : ascii) : ascii :=
  let n := Ascii.nat_of_ascii c in
  if (65 <=? n) && (n <=? 90) then Ascii.ascii_of_nat (n + 32) else c.

Fixpoint lower (s : string) : string :=
  match s with
  | EmptyString => EmptyString
  | String c s' => String (ascii_lower c) (lower s')
  end.

(** A path as Express's default router compares it: lower-case, and one
    trailing slash ignored (except for "/" itself). *)
Definition route_key (path : string) : string :=
  let p := lower path in
  match String.length p with
  | O | 1 => p
  | S n => if bool_decide (String.get n p = Some "/"%char) then String.substring 0 n p else p
  end.

Definition method_name (m : http_method) : string :=
  match m with
  | GET => "GET" | POST => "POST" | PUT => "PUT" | DELETE => "DELETE" | OPTIONS => "OPTIONS"
  end.

(** Express's fallback for an unmatched route. *)
Definition cannot (rq : request) : response :=
  mk_response 404 (JStr ("Cannot " +:+ method_name (rq_method rq) +:+ " " +:+ rq_path rq)).

Section App.
Context `{EksBlowfish} `{TokenCodec} `{ResourceModels}.

(** [app.get(path, verifyToken, handler)]: the gate, then the handler
    with [req.userId]. *)
Definition guarded (secret : option string) (now_ms : Z) (authz : option string)
    (handler : oid -> prog) : prog :=
  match verifyToken secret now_ms authz with
  | GateReject r => PRet r
  | GatePass uid => handler uid
  end.

(** What a route runs: a public handler, or a handler behind
    [verifyToken]. *)
Inductive route :=
| Public (p : prog)
| Guarded (h : oid -> prog).

(** The route table of index.js 33-150, in registration order. *)
Definition routes (secret : option string) (body : jval) : list ((http_method * string) * route) :=
  [((GET, "/"), Public (PRet (mk_response 200 (JStr "🚀 Workasana API Running"))));
   ((POST, "/signup"), Public (signup body));
   ((POST, "/login"), Public (login secret body));
   ((GET, "/me"), Guarded me);
   ((GET, "/users"), Guarded users);
   ((GET, "/projects"), Guarded (fun _ => get_projects));
   ((POST, "/projects"), Guarded (fun _ => post_projects body));
   ((GET, "/teams"), Guarded (fun _ => get_teams));
   ((POST, "/teams"), Guarded (fun _ => post_teams body));
   ((GET, "/tags"), Guarded (fun _ => get_tags));
   ((POST, "/tags"), Guarded (fun _ => post_tags body));
   ((GET, "/tasks"), Guarded (fun _ => get_tasks));
   ((POST, "/tasks"), Guarded (fun _ => post_tasks body))].

(** The first route whose method and path match, as Express tries them. *)
Definition dispatch (secret : option string) (now_ms : Z) (rq : request) : prog :=
  match find_first (fun r => bool_decide (r.1 = (rq_method rq, route_key (rq_path rq))))
                   (routes secret (rq_body rq)) with
  | Some (_, Public p) => p
  | Some (_, Guarded h) => guarded secret now_ms (rq_auth rq) h
  | None => PRet (cannot rq)
  end.

(** One request served on its own, at the world's clock. *)
Definition handle (salt_of : nat -> bc_salt) (secret : option string) (w : world) (rq : request)
  : world * outcome :=
  run salt_of w (dispatch secret (w_now w) rq).

(** The headers of [cors({ origin: "*", methods: [...], allowedHeaders:
    [...] })] (index.js 17-21). *)
Definition cors_allow_origin : string * string := ("Access-Control-Allow-Origin", "*").

Definition cors_preflight_headers : list (string * string) :=
  [cors_allow_origin; ("Access-Control-Allow-Methods", "GET,POST,PUT,DELETE");
   ("Access-Control-Allow-Headers", "Content-Type,Authorization")].

(** The server as index.js assembles it: the cors middleware runs first
    and answers a preflight ([OPTIONS]) itself, 204 with no body;
    any other request gets [Access-Control-Allow-Origin] and goes on
    through [express.json()] (the body, already parsed here) and
    [cookieParser()] (no handler reads a cookie) to the routes. *)
Definition serve (salt_of : nat -> bc_salt) (secret : option string) (w : world) (rq : request)
  : world * outcome * list (string * string) :=
  match rq_method rq with
  | OPTIONS => (w, Responded (mk_response 204 JUndefined), cors_preflight_headers)
  | _ => let '(w', o) := handle salt_of secret w rq in (w', o, [cors_allow_origin])
  end.
(** The statuses the app answers with: those spec.md §6 lists, and
    Express's 404 for an unknown route. *)
Definition app_statuses : list Z := [200; 201; 400; 401; 404; 500]%Z.

Definition status_ok (r : response) : Prop := status r ∈ app_statuses.

(** A property of programs, of what a route runs. *)
Definition route_holds (P : prog -> Prop) (r : route) : Prop :=
  match r with
  | Public p => P p
  | Guarded h => forall uid, P (h uid)
  end.
End App.

(** ** Server start *)

Record env := mk_env {
  env_MONGODB : option string;
  env_JWT_SECRET : option string;
  env_PORT : option string
}.

Inductive server_state :=
| Listening (port : string)
| Exited (code : Z).

(** [initializeDatabase()]: [mongoose.connect(uri)] rejects for a missing
    URI or an unreachable server; the [catch] logs and calls
    [process.exit(1)].  [None] when connected. *)
Definition initializeDatabase (reachable : string -> bool) (e : env) : option Z :=
  match env_MONGODB e with
  | Some uri => if reachable uri then None else Some 1%Z
  | None => Some 1%Z
  end.

(** [const PORT = process.env.PORT || 5000] (index.js 13): an unset or
    empty [PORT] falls back to 5000. *)
Definition port_of (e : env) : string :=
  match env_PORT e with
  | Some p => if bool_decide (p = "") then "5000" else p
  | None => "5000"
  end.

(** [initializeDatabase().then(() => app.listen(PORT))] (index.js 153-155). *)
Definition server_start (reachable : string -> bool) (e : env) : server_state :=
  match initializeDatabase reachable e with
  | Some code => Exited code
  | None => Listening (port_of e)
  end.

(** ** Theorems *)

(** The routes that run without [verifyToken]. *)
Definition public_routes : list (http_method * string) :=
  [(GET, "/"); (POST, "/signup"); (POST, "/login")].

Section AppTheorems.
Context `{EksBlowfish} `{TokenCodec} `{ResourceModels} (salt_of : nat -> bc_salt).

Lemma routes_public (secret : option string) (body : jval) (k : http_method * string) (p : prog) :
  (k, Public p) ∈ routes secret body -> k ∈ public_routes.
Proof.
  unfold routes, public_routes. intros Hin.
  repeat (apply elem_of_cons in Hin as [Hin|Hin]; [simplify_eq; set_solver|]).
  by apply not_elem_of_nil in Hin.
Qed.

(** The route a request reaches when its method and path name one. *)
Lemma dispatch_route (secret : option string) (now_ms : Z) (rq : request) (r : route) :
  find_first (fun x => bool_decide (x.1 = (rq_method rq, route_key (rq_path rq))))
             (routes secret (rq_body rq)) = Some ((rq_method rq, route_key (rq_path rq)), r) ->
  dispatch secret now_ms rq =
  match r with Public p => p | Guarded h => guarded secret now_ms (rq_auth rq) h end.
Proof. unfold dispatch. by intros ->. Qed.

(** Walks a handler's await tree: every leaf a [PRet] of a literal
    status. *)
Ltac answers_tac :=
  repeat first [ progress intros | apply answers_in_try_catch | apply answers_in_await
               | progress case_match | progress simpl ];
  try (unfold status_ok; simpl; set_solver).

Lemma verifyToken_reject (secret : option string) (now_ms : Z) (authz : option string) (r : response) :
  verifyToken secret now_ms authz = GateReject r -> r = unauthenticated.
Proof. unfold verifyToken. by case_match; intros [= <-]. Qed.

(** What the handlers of index.js have in common holds of every route
    and of what [dispatch] runs. *)
Section EveryRoute.
Variable P : prog -> Prop.
Hypothesis P_root : P (PRet (mk_response 200 (JStr "🚀 Workasana API Running"))).
Hypothesis P_signup : forall body, P (signup body).
Hypothesis P_login : forall secret body, P (login secret body).
Hypothesis P_me : forall uid, P (me uid).
Hypothesis P_users : forall uid, P (users uid).
Hypothesis P_list_docs : forall c populate, P (list_docs c populate).
Hypothesis P_create_doc : forall c body, P (create_doc c body).
Hypothesis P_post_tasks : forall body, P (post_tasks body).
Hypothesis P_unauthenticated : P (PRet unauthenticated).
Hypothesis P_cannot : forall rq, P (PRet (cannot rq)).

Lemma routes_hold (secret : option string) (body : jval) (k : http_method * string) (r : route) :
  (k, r) ∈ routes secret body -> route_holds P r.
Proof.
  unfold routes, get_projects, post_projects, get_teams, post_teams, get_tags, post_tags,
    get_tasks. intros Hin.
  repeat (apply elem_of_cons in Hin as [Hin|Hin]; [simplify_eq; simpl; auto|]).
  by apply not_elem_of_nil in Hin.
Qed.

Lemma dispatch_holds (secret : option string) (now_ms : Z) (rq : request) :
  P (dispatch secret now_ms rq).
Proof.
  unfold dispatch. destruct (find_first _ _) as [[k r]|] eqn:E; [|done].
  apply find_first_Some in E as [Hin _]. apply routes_hold in Hin.
  destruct r as [p|h]; [done|]. unfold guarded.
  destruct (verifyToken _ _ _) as [r|uid] eqn:Hv; [|done].
  by apply verifyToken_reject in Hv as ->.
Qed.
End EveryRoute.

Lemma dispatch_answers (secret : option string) (now_ms : Z) (rq : request) :
  answers_in status_ok (dispatch secret now_ms rq).
Proof.
  apply dispatch_holds; intros;
    unfold signup, login, read_clock, me, users, server_error, list_docs, create_doc, post_tasks;
    answers_tac.
Qed.

(** C2: every route but [GET /], [POST /signup] and [POST /login] sits
    behind the gate: a request the gate rejects is answered, by the gate's
    401 or by Express's 404 for an unknown path, and leaves the world,
    the store included, as it was. *)
Theorem rejected_request_changes_nothing (secret : option string) (w : world) (rq : request)
    (r : response) :
  (rq_method rq, route_key (rq_path rq)) ∉ public_routes ->
  verifyToken secret (w_now w) (rq_auth rq) = GateReject r ->
  handle salt_of secret w rq = (w, Responded r) \/
  handle salt_of secret w rq = (w, Responded (cannot rq)).
Proof.
  intros Hpub Hgate. unfold handle, dispatch.
  destruct (find_first _ _) as [[k [p|h]]|] eqn:E; [| |by right].
  - apply find_first_Some in E as [Hin Hk]. apply bool_decide_eq_true in Hk.
    simpl in Hk; subst k. by apply routes_public in Hin.
  - left. unfold guarded. by rewrite Hgate.
Qed.

(** C36: the gate checks the token, not the store: a well-signed,
    unexpired token for an id no user has gets [GET /me] answered 200
    with [null] (spec.md §9 notes the middleware does not look the user
    up). *)
Theorem me_unknown_user_null (k : string) (w : world) (t : token) (body : jval) :
  db_up (w_db w) = true ->
  token_ok (Some k) (w_now w) t = true ->
  findById (w_db w) (jp_id (tk_payload t)) = None ->
  handle salt_of (Some k) w (mk_request GET "/me" (Some ("Bearer " +:+ encode_token t)) body) =
  (w, Responded (res_json JNull)).
Proof.
  intros Hup Hok Hf. unfold handle.
  rewrite (dispatch_route _ _ _ (Guarded me)) by reflexivity.
  unfold guarded. simpl rq_auth. rewrite verifyToken_presented, Hok.
  unfold me. simpl. by rewrite Hup, Hf.
Qed.
(** C16: every response the server sends, through its cors layer, on
    any route, for any request [express.json()] parsed and any state of
    the store, has one of the statuses 200, 201, 204 (a preflight), 400,
    401, 404 and 500 (a request may also be left to an unhandled
    rejection, see [me_db_down_unanswered]; the 400, 413 and 415 that
    [express.json()] itself sends for a body it cannot parse are not
    modelled). *)
Theorem app_status_typed (secret : option string) (w : world) (rq : request) :
  match (serve salt_of secret w rq).1.2 with
  | Responded r => status r ∈ 204%Z :: app_statuses
  | Unhandled _ => True
  end.
Proof.
  unfold serve. pose proof (answers_in_run salt_of status_ok w _ (dispatch_answers secret (w_now w) rq)) as Ha.
  unfold handle. destruct (run salt_of w _) as [w' o] eqn:Hr.
  destruct (rq_method rq); simpl;
    [destruct o; simpl in *; [unfold status_ok in Ha; set_solver|done]..|set_solver].
Qed.
(** C20: the walk-through of spec.md §8.7 through the server, for any
    store whose database is up and that has no user with the e-mail, any
    non-empty name, e-mail and password and any non-empty secret: the
    signup is stored and answered 201; a login with the same e-mail and
    password answers 200 with a token signed over the new user's id at
    the current time and the user's [{id, name, email}]; [GET /me] with
    that token answers 200 with the stored record without its password;
    every answer allows any origin. *)
Theorem signup_login_me (k : string) (w : world) (n em pw : string) :
  k <> "" -> n <> "" -> em <> "" -> pw <> "" ->
  db_up (w_db w) = true -> db_wf (w_db w) -> em ∉ map u_email (db_users (w_db w)) ->
  let u := mk_user (db_next_oid (w_db w)) n em (bcrypt_hash 10 (salt_of (w_salts w)) pw) in
  let w1 := mk_world (insert_user (w_db w) u) (w_now w) (S (w_salts w)) in
  let tok := mk_token (sign_payload (u_id u) (w_now w)) (hmac k (sign_payload (u_id u) (w_now w))) in
  serve salt_of (Some k) w
    (mk_request POST "/signup" None (JObj [("name", JStr n); ("email", JStr em); ("password", JStr pw)])) =
    (w1, Responded (mk_response 201 (msg_body "Signup successful! Please login.")), [cors_allow_origin]) /\
  serve salt_of (Some k) w1
    (mk_request POST "/login" None (JObj [("email", JStr em); ("password", JStr pw)])) =
    (w1, Responded (res_json (login_ok_json k u (w_now w))), [cors_allow_origin]) /\
  serve salt_of (Some k) w1 (mk_request GET "/me" (Some ("Bearer " +:+ encode_token tok)) JUndefined) =
    (w1, Responded (res_json (user_public_json u)), [cors_allow_origin]).
Proof.
  intros Hk Hn He Hp Hup Hwf Hnot u w1 tok.
  assert (Hsave : save_user (w_db w) (JStr n) (JStr em) (bcrypt_hash 10 (salt_of (w_salts w)) pw) =
                  inr (insert_user (w_db w) u, u)).
  { unfold save_user. rewrite !validate_path_str by done. simpl. by rewrite email_taken_false. }
  assert (Hwf1 : db_wf (w_db w1)) by (eapply save_user_wf; eauto).
  assert (Hu : u ∈ db_users (w_db w1)) by (simpl; set_solver).
  assert (Hfind : findById (w_db w1) (u_id u) = Some u).
  { unfold findById. apply find_first_key; [by apply db_wf_user_ids|done|done]. }
  subst tok w1 u. split_and!; unfold serve, handle; cbn [rq_method].
  - rewrite (dispatch_route _ _ _ (Public (signup _))) by reflexivity.
    assert (Hf : signup_fields (JObj [("name", JStr n); ("email", JStr em); ("password", JStr pw)])
                   (JStr n) (JStr em) (JStr pw)) by (split_and!; reflexivity).
    unfold signup. cbn [rq_body]. destruct Hf as (-> & -> & ->). rewrite !truthy_JStr by done. simpl.
    rewrite Hup, findOne_email_str_None by done.
    simpl. by rewrite Hup, Hsave.
  - rewrite (dispatch_route _ _ _ (Public (login (Some k) _))) by reflexivity.
    rewrite (login_unfold _ _ (JStr em) (JStr pw)) by (split; reflexivity). simpl.
    rewrite Hup. erewrite findOne_email_str_unique; [|exact Hwf1|exact Hu|reflexivity]. simpl.
    rewrite bcrypt_compare_hash. simpl. by rewrite bool_decide_eq_false_2.
  - rewrite (dispatch_route _ _ _ (Guarded me)) by reflexivity.
    unfold guarded. simpl rq_auth. rewrite verifyToken_presented, token_ok_signed by done.
    rewrite bool_decide_eq_true_2 by (unfold sign_payload, expires_in_7d; simpl; lia).
    unfold me. simpl. rewrite Hup. simpl in Hfind. by rewrite Hfind.
Qed.
End AppTheorems.

(** The server either listens on [port_of e], when [MONGODB] names a
    reachable server, or exits with status 1; [JWT_SECRET] plays no
    part, so a server without it starts and fails only at the first
    login (index.js 153-155, db.connect.js). *)
Lemma server_start_cases (reachable : string -> bool) (e : env) :
  (server_start reachable e = Listening (port_of e) /\
   exists uri, env_MONGODB e = Some uri /\ reachable uri = true) \/
  server_start reachable e = Exited 1.
Proof.
  unfold server_start, initializeDatabase.
  destruct (env_MONGODB e) as [uri|]; [|by right].
  destruct (reachable uri) eqn:Hr; [left; eauto|by right].
Qed.

(** ** Witnesses and the scenario of spec.md §8.7 *)

Definition empty_world : @world transparent_eks :=
  mk_world (mk_db [] [] [] [] [] 0%N true) 1700000000123%Z 0.

Definition ada_signup : request :=
  mk_request POST "/signup" None
    (JObj [("name", JStr "Ada"); ("email", JStr "ada@x.com"); ("password", JStr "secret123")]).

Definition ada_login (pw : string) : request :=
  mk_request POST "/login" None (JObj [("email", JStr "ada@x.com"); ("password", JStr pw)]).

Definition get_me (authz : option string) : request := mk_request GET "/me" authz JUndefined.

(** The token [POST /login] issues to Ada at the demo clock. *)
Definition ada_token : @token transparent_signer :=
  mk_token (sign_payload 0%N demo_login_ms) (hmac demo_secret (sign_payload 0%N demo_login_ms)).

Lemma rejected_request_changes_nothing_witness :
  handle demo_salts (Some demo_secret) demo_world (mk_request GET "/Projects/" None JUndefined) =
    (demo_world, Responded unauthenticated) \/
  handle demo_salts (Some demo_secret) demo_world (mk_request GET "/Projects/" None JUndefined) =
    (demo_world, Responded (cannot (mk_request GET "/Projects/" None JUndefined))).
Proof. apply rejected_request_changes_nothing; [decide_goal | reflexivity]. Defined.

Lemma me_unknown_user_null_witness :
  handle demo_salts (Some demo_secret) demo_world
    (mk_request GET "/me" (Some ("Bearer " +:+ encode_token demo_token)) JUndefined) =
  (demo_world, Responded (res_json JNull)).
Proof. apply me_unknown_user_null; reflexivity. Defined.

(** The walk-through on an empty store: Ada signs up, logs in and reads
    her record. *)
Lemma signup_login_me_witness :
  let u := mk_user 0%N "Ada" "ada@x.com" (bcrypt_hash 10 (demo_salts 0) "secret123") in
  let w1 := mk_world (insert_user (w_db empty_world) u) (w_now empty_world) 1 in
  let tok := mk_token (sign_payload 0%N (w_now empty_world))
                      (hmac demo_secret (sign_payload 0%N (w_now empty_world))) in
  serve demo_salts (Some demo_secret) empty_world ada_signup =
    (w1, Responded (mk_response 201 (msg_body "Signup successful! Please login.")), [cors_allow_origin]) /\
  serve demo_salts (Some demo_secret) w1 (ada_login "secret123") =
    (w1, Responded (res_json (login_ok_json demo_secret u (w_now empty_world))), [cors_allow_origin]) /\
  serve demo_salts (Some demo_secret) w1 (get_me (Some ("Bearer " +:+ encode_token tok))) =
    (w1, Responded (res_json (user_public_json u)), [cors_allow_origin]).
Proof.
  apply (signup_login_me demo_salts demo_secret empty_world "Ada" "ada@x.com" "secret123");
    [discriminate.. | reflexivity | decide_goal | decide_goal].
Defined.


