(* ===== verification/Concurrency.v ===== *)
(** * Requests served concurrently

    Node runs every request's handler on one thread: a handler runs until
    its next [await], and while the awaited promise is pending the event
    loop resumes any other handler whose promise has settled.  So
    requests interleave at their await points, and only there.  This
    file serves a pool of requests, each an await tree of [Program],
    against one shared world:

    - [step] resumes one pending request, at any index of the pool: its
      awaited operation takes effect ([exec_op], atomically, as MongoDB
      applies one insert or one query) and the handler runs to its next
      await; a request that answers or throws is done;
    - [run_schedule] is the executable scheduler that follows a list of
      indices, and is sound for [step].

    The lemmas: every step keeps the store invariant of [Store]
    ([step_wf]) and the stored users ([step_users_prefix]), which
    [Process] lifts to every run of the server.  The theorem: for any
    store without the e-mail, two signups of one e-mail (any names and
    passwords) have a schedule where both pass the [findOne] check, the
    first is stored and answered 201, and the unique index refuses the
    second, whose [catch] answers 500 with MongoDB's E11000 message,
    where spec.md §8.6 promises a conflict error. *)

From stdpp Require Import relations.
From S2P Require Import Prelude Json Hasher Token Resources Store Program Handlers ResourceHandlers App.

Section Pool.
Context `{EksBlowfish} `{ResourceModels} (salt_of : nat -> bc_salt).

(** A request of the pool: still running its handler, or finished with
    an outcome. *)
Inductive thread :=
| Running (p : prog)
| Done (o : outcome).

Record config := mk_config {
  c_world : world;
  c_threads : list thread
}.

(** The request at index [i] resumes. *)
Inductive step : config -> config -> Prop :=
| step_await (w w' : world) (ts : list thread) (i : nat) (o : op)
    (k : string + ret_ty o -> prog) (r : string + ret_ty o) :
    ts !! i = Some (Running (PAwait o k)) ->
    exec_op salt_of w o = (w', r) ->
    step (mk_config w ts) (mk_config w' (<[i := Running (k r)]> ts))
| step_ret (w : world) (ts : list thread) (i : nat) (r : response) :
    ts !! i = Some (Running (PRet r)) ->
    step (mk_config w ts) (mk_config w (<[i := Done (Responded r)]> ts))
| step_throw (w : world) (ts : list thread) (i : nat) (e : string) :
    ts !! i = Some (Running (PThrow e)) ->
    step (mk_config w ts) (mk_config w (<[i := Done (Unhandled e)]> ts)).

(** The configuration after resuming request [i]; [None] when there is
    no running request at [i]. *)
Definition step_at (c : config) (i : nat) : option config :=
  match c_threads c !! i with
  | Some (Running (PAwait o k)) =>
      let '(w', r) := exec_op salt_of (c_world c) o in
      Some (mk_config w' (<[i := Running (k r)]> (c_threads c)))
  | Some (Running (PRet r)) =>
      Some (mk_config (c_world c) (<[i := Done (Responded r)]> (c_threads c)))
  | Some (Running (PThrow e)) =>
      Some (mk_config (c_world c) (<[i := Done (Unhandled e)]> (c_threads c)))
  | _ => None
  end.

(** The event loop following a schedule: the indices of the requests it
    resumes, in order. *)
Fixpoint run_schedule (c : config) (s : list nat) : option config :=
  match s with
  | [] => Some c
  | i :: s' => step_at c i ≫= fun c' => run_schedule c' s'
  end.

(** ** The scheduler is sound *)

Lemma step_at_step (c c' : config) (i : nat) :
  step_at c i = Some c' -> step c c'.
Proof.
  destruct c as [w ts]. unfold step_at. simpl.
  destruct (ts !! i) as [[[r|e|o k]|]|] eqn:E; intros Hs; simplify_eq.
  - by apply step_ret.
  - by apply step_throw.
  - destruct (exec_op salt_of w o) as [w' r] eqn:Ex. simplify_eq. by eapply step_await.
Qed.

Lemma run_schedule_sound (c c' : config) (s : list nat) :
  run_schedule c s = Some c' -> rtc step c c'.
Proof.
  revert c. induction s as [|i s IH]; intros c; simpl; [by intros [= ->]|].
  destruct (step_at c i) as [c1|] eqn:E; [|done]. simpl. intros Hs.
  eapply rtc_l; [by eapply step_at_step|]. by apply IH.
Qed.

(** The request last admitted resumes. *)
Lemma step_last_await (w w' : world) (ts : list thread) (o : op)
    (k : string + ret_ty o -> prog) (r : string + ret_ty o) :
  exec_op salt_of w o = (w', r) ->
  step (mk_config w (ts ++ [Running (PAwait o k)])) (mk_config w' (ts ++ [Running (k r)])).
Proof.
  intros Hx. replace (ts ++ [Running (k r)]) with (<[length ts := Running (k r)]> (ts ++ [Running (PAwait o k)])).
  - eapply step_await; [by apply list_lookup_middle|done].
  - by rewrite insert_app_r_alt, Nat.sub_diag by lia.
Qed.

Lemma step_last_throw (w : world) (ts : list thread) (err : string) :
  step (mk_config w (ts ++ [Running (PThrow err)])) (mk_config w (ts ++ [Done (Unhandled err)])).
Proof.
  replace (ts ++ [Done (Unhandled err)]) with (<[length ts := Done (Unhandled err)]> (ts ++ [Running (PThrow err)])).
  - by apply step_throw, list_lookup_middle.
  - by rewrite insert_app_r_alt, Nat.sub_diag by lia.
Qed.

Lemma step_wf (c c' : config) :
  step c c' -> db_wf (w_db (c_world c)) -> db_wf (w_db (c_world c')).
Proof.
  destruct 1 as [w w' ts i o k r _ Hx| |]; simpl; try done.
  intros Hwf. pose proof (exec_op_wf salt_of w o Hwf) as Hw. by rewrite Hx in Hw.
Qed.

Lemma step_users_prefix (c c' : config) :
  step c c' -> db_users (w_db (c_world c)) `prefix_of` db_users (w_db (c_world c')).
Proof.
  destruct 1 as [w w' ts i o k r _ Hx| |]; simpl; try done.
  pose proof (exec_op_users_prefix salt_of w o) as Hp. by rewrite Hx in Hp.
Qed.
End Pool.

Section Server.
Context `{EksBlowfish} `{TokenCodec} `{ResourceModels}.

(** The app with requests [rqs] in flight, all received at the world's
    clock, none resumed yet. *)
Definition requests_pool (secret : option string) (w : world) (rqs : list request) : config :=
  mk_config w (map (fun rq => Running (dispatch secret (w_now w) rq)) rqs).
End Server.

(** ** Two signups of one e-mail *)

Section Race.
Context `{EksBlowfish} `{TokenCodec} `{ResourceModels} (salt_of : nat -> bc_salt).

(** A [POST /signup] runs [signup] on its body, whatever its headers. *)
Lemma dispatch_signup (secret : option string) (now_ms : Z) (auth : option string) (body : jval) :
  dispatch secret now_ms (mk_request POST "/signup" auth body) = signup body.
Proof. reflexivity. Qed.

Lemma email_taken_insert (d : db) (u : user) : email_taken (insert_user d u) (u_email u) = true.
Proof. apply email_taken_spec. simpl. rewrite map_app. set_solver. Qed.

(** C10: two signups of one e-mail, with any names and passwords, sent
    to any store that has no user with that e-mail: when the second
    resumes after the first one's [findOne] and before its save, both see
    no user; the first is stored and answered 201, the unique index
    refuses the second insert, and its [catch] answers 500 with MongoDB's
    E11000 message (index.js 42-52), where spec.md §8.6 promises a
    conflict error. *)
Theorem signup_race_500 (secret : option string) (w : world) (auth1 auth2 : option string)
    (body1 body2 : jval) (n1 n2 em p1 p2 : string) :
  signup_fields body1 (JStr n1) (JStr em) (JStr p1) ->
  signup_fields body2 (JStr n2) (JStr em) (JStr p2) ->
  n1 <> "" -> n2 <> "" -> em <> "" -> p1 <> "" -> p2 <> "" ->
  db_up (w_db w) = true -> em ∉ map u_email (db_users (w_db w)) ->
  rtc (step salt_of)
    (requests_pool secret w [mk_request POST "/signup" auth1 body1; mk_request POST "/signup" auth2 body2])
    (mk_config
       (mk_world (insert_user (w_db w)
                    (mk_user (db_next_oid (w_db w)) n1 em (bcrypt_hash 10 (salt_of (w_salts w)) p1)))
                 (w_now w) (S (S (w_salts w))))
       [Done (Responded (mk_response 201 (msg_body "Signup successful! Please login.")));
        Done (Responded (mk_response 500 (err_body
          ("E11000 duplicate key error collection: users index: email_1 dup key: { email: " +:+ em +:+ " }"))))]).
Proof.
  intros Hb1 Hb2 Hn1 Hn2 He Hp1 Hp2 Hup Hnot.
  unfold requests_pool. simpl. rewrite !dispatch_signup.
  unfold signup. destruct Hb1 as (-> & -> & ->), Hb2 as (-> & -> & ->).
  rewrite !truthy_JStr by done. simpl.
  (* both requests look the e-mail up before either saves *)
  eapply rtc_l; [eapply step_await with (i := 0) (o := OpFindOneUser (JStr em)); [reflexivity|]; simpl;
                 rewrite Hup, findOne_email_str_None by done; reflexivity|]. simpl.
  eapply rtc_l; [eapply step_await with (i := 1) (o := OpFindOneUser (JStr em)); [reflexivity|]; simpl;
                 rewrite Hup, findOne_email_str_None by done; reflexivity|]. simpl.
  (* the first hashes, saves and answers 201 *)
  eapply rtc_l; [eapply step_await with (i := 0) (o := OpHash (JStr p1)); reflexivity|]. simpl.
  eapply rtc_l; [eapply step_await with (i := 0)
                   (o := OpSaveUser (JStr n1) (JStr em) (bcrypt_hash 10 (salt_of (w_salts w)) p1));
                 [reflexivity|]; simpl; rewrite Hup; unfold save_user;
                 rewrite !validate_path_str by done; cbn [sbind];
                 rewrite email_taken_false by done; reflexivity|]. simpl.
  eapply rtc_l; [by apply step_ret with (i := 0)|]. simpl.
  (* the second hashes; the unique index refuses its save; the catch answers 500 *)
  eapply rtc_l; [eapply step_await with (i := 1) (o := OpHash (JStr p2)); reflexivity|]. simpl.
  eapply rtc_l; [eapply step_await with (i := 1)
                   (o := OpSaveUser (JStr n2) (JStr em) (bcrypt_hash 10 (salt_of (S (w_salts w))) p2));
                 [reflexivity|]; simpl; rewrite Hup; unfold save_user;
                 rewrite !validate_path_str by done; cbn [sbind];
                 rewrite (email_taken_insert _ (mk_user _ n1 em _)); reflexivity|]. simpl.
  eapply rtc_l; [by apply step_ret with (i := 1)|]. simpl.
  done.
Qed.
End Race.

(** Ada's signup ([App.ada_signup]) sent twice to an empty store. *)
Lemma signup_race_500_witness :
  rtc (step demo_salts)
    (requests_pool (Some demo_secret) empty_world [ada_signup; ada_signup])
    (mk_config
       (mk_world (insert_user (w_db empty_world)
                    (mk_user 0%N "Ada" "ada@x.com" (bcrypt_hash 10 (demo_salts 0) "secret123")))
                 (w_now empty_world) 2)
       [Done (Responded (mk_response 201 (msg_body "Signup successful! Please login.")));
        Done (Responded (mk_response 500 (err_body
          ("E11000 duplicate key error collection: users index: email_1 dup key: { email: " +:+ "ada@x.com" +:+ " }"))))]).
Proof.
  apply (signup_race_500 demo_salts (Some demo_secret) empty_world None None _ _
           "Ada" "Ada" "ada@x.com" "secret123" "secret123");
    [split_and!; reflexivity | split_and!; reflexivity | discriminate.. | reflexivity | decide_goal].
Defined.

